(** * WellMares: the per-connection session machine and the janitor

    A shallow embedding of the server side of the boop counter:
    - [constants.js] and [protocol.js] (the limits, intervals and frame tags),
    - [utils.js] ([isObject], [isValidBPHEntry]),
    - [cron-handler.js] ([handleCron], the janitor sweep),
    - [ws-handler.js] ([WellMaresWSHandler]: rate limiter, BPH ledger,
      GBC sync scheduler).

    Conventions of the embedding.
    - JavaScript numbers are integers here ([Z]); [NaN], infinities and
      fractions are outside the model.
    - Values read from the store are JSON trees ([json]).
    - A handler is a function from the session state to the new state and
      the list of effects it issued, in program order (frames sent on the
      channel, store operations, timers).
    - Promises are modelled by their settlement: the state keeps what the
      pending callbacks captured, and a separate handler runs the
      [catch]/[finally] callbacks when the store answers.
    - The BPH mirror [#bph] is a JavaScript object; it is kept as the
      association list of its own properties in insertion order.  That is
      the object on plain keys ([plainKey]: neither array indices nor names
      inherited from [Object.prototype]), which the push keys of the store
      are unless they spell such a name.  Statements that depend on how the
      object treats a key are made for plain keys; [JSLedger] has the [in]
      test of the removal handler as JavaScript evaluates it on every
      key. *)

From Stdlib Require Import ZArith List String Ascii Bool Lia.
From Stdlib Require Import Sorted Permutation.
Import ListNotations.
Open Scope string_scope.
Open Scope Z_scope.

(* ================================================================= *)
(** ** constants.js *)

Definition ONE_SECOND : Z := 1000.
Definition ONE_MINUTE : Z := 60000.
Definition ONE_HOUR : Z := 3600000.

Definition CD_FAIL_LIMIT : Z := 5.

Definition BPH_KEY : string := "boops-per-hour".
Definition BPH_SYNC_INTERVAL : Z := ONE_MINUTE.
Definition BPH_LIMIT : Z := 10000.

Definition BPM_LIMIT : Z := 1000.

Definition GBC_SYNC_INTERVAL : Z := 250.

(* ================================================================= *)
(** ** protocol.js *)

Definition TOO_MANY_COOLDOWN_FAILS_ERRCODE : Z := 1002.
Definition TOO_MANY_COOLDOWN_FAILS_ERRMSG : string :=
  "Too many cooldown failures, connection closed".

Definition PROTO_BOOP_REPLY : string := "b".
Definition PROTO_BOOP_REJECT : string := "r".
Definition PROTO_COOLDOWN_REPLY : string := "d".
Definition PROTO_BOOP_COUNT : string := "c".

(* ================================================================= *)
(** ** Number.prototype.toString(36) on integers *)

Definition digit36 (d : Z) : ascii :=
  if d <? 10 then ascii_of_nat (48 + Z.to_nat d)
  else ascii_of_nat (87 + Z.to_nat d).

Fixpoint digits36 (fuel : nat) (n : Z) (acc : string) : string :=
  match fuel with
  | O => acc
  | S fuel' =>
      let acc' := String (digit36 (n mod 36)) acc in
      if n / 36 =? 0 then acc' else digits36 fuel' (n / 36) acc'
  end.

(** [S (log2 n)] rounds are more than the number of base-36 digits of [n]. *)
Definition toString36 (n : Z) : string :=
  if n <? 0
  then String "-" (digits36 (S (Z.to_nat (Z.log2 (- n)))) (- n) EmptyString)
  else digits36 (S (Z.to_nat (Z.log2 n))) n EmptyString.

(* ================================================================= *)
(** ** Values of the store, and utils.js *)

#[local] Set Warnings "-register-all".

Inductive json : Type :=
| JNull
| JBool (b : bool)
| JNum (n : Z)
| JStr (s : string)
| JArr (items : list json)
| JObj (fields : list (string * json)).

(** [value != null && typeof value === 'object' && !Array.isArray(value)] *)
Definition isObject (value : json) : bool :=
  match value with
  | JObj _ => true
  | _ => false
  end.

(** [Array.isArray(val) && val.length === 2 && typeof val[0] === 'number' &&
    val[0] > 0 && !isNaN(val[0]) && typeof val[1] === 'number'] *)
Definition isValidBPHEntry (val : json) : bool :=
  match val with
  | JArr [JNum validUntil; JNum _] => 0 <? validUntil
  | _ => false
  end.

(** A BPH entry [[validUntil, change]]; [BPH_VALID_UNTIL = 0] and
    [BPH_CHANGE = 1] are the two indices. *)
Definition BPHEntry : Type := (Z * Z)%type.
Definition validUntilOf (e : BPHEntry) : Z := fst e.
Definition changeOf (e : BPHEntry) : Z := snd e.

(** The entry held by a store value ([val[BPH_VALID_UNTIL]],
    [val[BPH_CHANGE]]); only read after [isValidBPHEntry]. *)
Definition bphEntryOf (val : json) : BPHEntry :=
  match val with
  | JArr [JNum validUntil; JNum change] => (validUntil, change)
  | _ => (0, 0)
  end.

(* ================================================================= *)
(** ** cron-handler.js: the janitor *)

Module Janitor.

(** Store operations issued by the janitor. *)
Inductive storeOp : Type :=
| OpSet (path : string) (value : json)
| OpRemove (path : string)
| OpDeleteApp.

(** Where control is after a loop: fallen through with the local
    [toRemove], or [handleCron] has executed [return] (the local
    [toRemove] at that point is kept for inspection). *)
Inductive flow : Type :=
| Next (toRemove : list string)
| Returned (toRemove : list string).

(** The inner loop, [for (const [key, value] of Object.entries(bphEntries))]. *)
Fixpoint sweepEntries (now : Z) (cleintId : string)
    (entries : list (string * json)) (toRemove : list string) : flow :=
  match entries with
  | [] => Next toRemove
  | (key, value) :: rest =>
      if negb (isValidBPHEntry value) then
        (* toRemove.push(`${BPH_KEY}/${cleintId}/${key}`); return; *)
        Returned (toRemove ++ [BPH_KEY ++ "/" ++ cleintId ++ "/" ++ key])
      else
        let validUntil := validUntilOf (bphEntryOf value) + ONE_HOUR in
        if validUntil <? now then
          sweepEntries now cleintId rest
            (toRemove ++ [BPH_KEY ++ "/" ++ cleintId ++ "/" ++ key])
        else sweepEntries now cleintId rest toRemove
  end.

(** The outer loop, [for (const [cleintId, bphEntries] of Object.entries(root))]. *)
Fixpoint sweepClients (now : Z) (clients : list (string * json))
    (toRemove : list string) : flow :=
  match clients with
  | [] => Next toRemove
  | (cleintId, bphEntries) :: rest =>
      match bphEntries with
      | JObj entries =>
          match sweepEntries now cleintId entries toRemove with
          | Next toRemove' => sweepClients now rest toRemove'
          | Returned toRemove' => Returned toRemove'
          end
      | _ =>
          (* toRemove.push(`${BPH_KEY}/${cleintId}`); continue; *)
          sweepClients now rest (toRemove ++ [BPH_KEY ++ "/" ++ cleintId])
      end
  end.

(** [handleCron] after sign-in: [bphRootSSVal] is the value read at the
    [bph] root and [now] is [Date.now()].  The result is the list of store
    operations issued; the [finally] block always releases the app. *)
Definition handleCron (bphRootSSVal : json) (now : Z) : list storeOp :=
  match bphRootSSVal with
  | JObj clients =>
      match sweepClients now clients [] with
      | Next toRemove => map OpRemove toRemove ++ [OpDeleteApp]
      | Returned _ => [OpDeleteApp]
      end
  | _ => [OpSet BPH_KEY (JObj []); OpDeleteApp]
  end.

(** The removals among the issued operations. *)
Definition removals (ops : list storeOp) : list string :=
  flat_map (fun op => match op with OpRemove p => [p] | _ => [] end) ops.

(** A client subtree that is a map and holds a malformed entry. *)
Definition hasMalformedEntry (client : string * json) : bool :=
  match snd client with
  | JObj entries => existsb (fun kv => negb (isValidBPHEntry (snd kv))) entries
  | _ => false
  end.

End Janitor.

(* ================================================================= *)
(** ** ws-handler.js: the session *)

Module WSHandler.

(** *** JavaScript objects and Maps with string keys

    Own properties in insertion order.  [propSet] on an existing key keeps
    its place, as an assignment does.  For a [Map] these operations are the
    whole of it.  For a plain object they are the operations on plain keys:
    [key in obj] is also true of a name inherited from [Object.prototype],
    an assignment under [__proto__] makes no own property, and
    [Object.keys] lists array indices first. *)

Section Props.
Context {V : Type}.

(** [map.has(key)]; [key in obj] for a key that is not an inherited name
    ([JSLedger.hasProperty] for any key) *)
Fixpoint propIn (key : string) (obj : list (string * V)) : bool :=
  match obj with
  | [] => false
  | (k, _) :: rest => if String.eqb key k then true else propIn key rest
  end.

(** [obj[key]], [map.get(key)] *)
Fixpoint propGet (key : string) (obj : list (string * V)) : option V :=
  match obj with
  | [] => None
  | (k, v) :: rest => if String.eqb key k then Some v else propGet key rest
  end.

(** [map.set(key, val)]; [obj[key] = val] for a plain key *)
Fixpoint propSet (key : string) (val : V) (obj : list (string * V))
  : list (string * V) :=
  match obj with
  | [] => [(key, val)]
  | (k, v) :: rest =>
      if String.eqb key k then (k, val) :: rest
      else (k, v) :: propSet key val rest
  end.

(** [delete obj[key]], [map.delete(key)] *)
Fixpoint propDelete (key : string) (obj : list (string * V))
  : list (string * V) :=
  match obj with
  | [] => []
  | (k, v) :: rest =>
      if String.eqb key k then rest else (k, v) :: propDelete key rest
  end.

(** The keys of a [Map]; [Object.keys(obj)] when the keys are plain *)
Definition keysOf (obj : list (string * V)) : list string := map fst obj.
End Props.

(** *** Array.prototype.sort

    The sort is stable; for a comparator that is a difference of keys its
    result is the stable ascending arrangement, built here by insertion
    from the right. *)

Fixpoint insertSorted (compareFn : string -> string -> Z) (a : string)
    (sorted : list string) : list string :=
  match sorted with
  | [] => [a]
  | b :: rest =>
      if compareFn a b <=? 0 then a :: sorted
      else b :: insertSorted compareFn a rest
  end.

Definition sort (compareFn : string -> string -> Z) (keys : list string)
  : list string :=
  fold_right (insertSorted compareFn) [] keys.

(** *** State and effects *)

(** What the callbacks of the pending GBC write captured: [change] and
    [finalSync]. *)
Definition PendingGBCSync : Type := (Z * bool)%type.

(** The private fields of [WellMaresWSHandler] that the handlers read and
    write.  [wsOpen] is [ws.readyState === WebSocket.OPEN];
    [gbcSyncPromise] is [None] for [null]; [bphRemoveTimeouts] maps a key
    to the delay its removal timer was armed with. *)
Record Session : Type := {
  clientId : string;
  wsOpen : bool;
  lastGBC : Z;
  lastGBCSync : Z;
  unsyncedGBC : Z;
  gbcSyncInterwalWarningShown : bool;
  gbcSyncPromise : option PendingGBCSync;
  bph : list (string * BPHEntry);
  lastBPH : Z;
  unsyncedBPH : Z;
  cooldownUntil : Z;
  cooldownFails : Z;
  bpmBoops : list Z;
  bphRemoveTimeouts : list (string * Z)
}.

Definition set_wsOpen (v : bool) (s : Session) : Session :=
  {| clientId := clientId s; wsOpen := v; lastGBC := lastGBC s; lastGBCSync
     := lastGBCSync s; unsyncedGBC := unsyncedGBC s;
     gbcSyncInterwalWarningShown := gbcSyncInterwalWarningShown s;
     gbcSyncPromise := gbcSyncPromise s; bph := bph s; lastBPH := lastBPH s;
     unsyncedBPH := unsyncedBPH s; cooldownUntil := cooldownUntil s;
     cooldownFails := cooldownFails s; bpmBoops := bpmBoops s;
     bphRemoveTimeouts := bphRemoveTimeouts s |}.

Definition set_lastGBC (v : Z) (s : Session) : Session :=
  {| clientId := clientId s; wsOpen := wsOpen s; lastGBC := v; lastGBCSync
     := lastGBCSync s; unsyncedGBC := unsyncedGBC s;
     gbcSyncInterwalWarningShown := gbcSyncInterwalWarningShown s;
     gbcSyncPromise := gbcSyncPromise s; bph := bph s; lastBPH := lastBPH s;
     unsyncedBPH := unsyncedBPH s; cooldownUntil := cooldownUntil s;
     cooldownFails := cooldownFails s; bpmBoops := bpmBoops s;
     bphRemoveTimeouts := bphRemoveTimeouts s |}.

Definition set_lastGBCSync (v : Z) (s : Session) : Session :=
  {| clientId := clientId s; wsOpen := wsOpen s; lastGBC := lastGBC s;
     lastGBCSync := v; unsyncedGBC := unsyncedGBC s;
     gbcSyncInterwalWarningShown := gbcSyncInterwalWarningShown s;
     gbcSyncPromise := gbcSyncPromise s; bph := bph s; lastBPH := lastBPH s;
     unsyncedBPH := unsyncedBPH s; cooldownUntil := cooldownUntil s;
     cooldownFails := cooldownFails s; bpmBoops := bpmBoops s;
     bphRemoveTimeouts := bphRemoveTimeouts s |}.

Definition set_unsyncedGBC (v : Z) (s : Session) : Session :=
  {| clientId := clientId s; wsOpen := wsOpen s; lastGBC := lastGBC s;
     lastGBCSync := lastGBCSync s; unsyncedGBC := v;
     gbcSyncInterwalWarningShown := gbcSyncInterwalWarningShown s;
     gbcSyncPromise := gbcSyncPromise s; bph := bph s; lastBPH := lastBPH s;
     unsyncedBPH := unsyncedBPH s; cooldownUntil := cooldownUntil s;
     cooldownFails := cooldownFails s; bpmBoops := bpmBoops s;
     bphRemoveTimeouts := bphRemoveTimeouts s |}.

Definition set_gbcSyncInterwalWarningShown (v : bool) (s : Session) : Session :=
  {| clientId := clientId s; wsOpen := wsOpen s; lastGBC := lastGBC s;
     lastGBCSync := lastGBCSync s; unsyncedGBC := unsyncedGBC s;
     gbcSyncInterwalWarningShown := v; gbcSyncPromise := gbcSyncPromise s; bph
     := bph s; lastBPH := lastBPH s; unsyncedBPH := unsyncedBPH s;
     cooldownUntil := cooldownUntil s; cooldownFails := cooldownFails s;
     bpmBoops := bpmBoops s; bphRemoveTimeouts := bphRemoveTimeouts s |}.

Definition set_gbcSyncPromise (v : option PendingGBCSync) (s : Session) : Session :=
  {| clientId := clientId s; wsOpen := wsOpen s; lastGBC := lastGBC s;
     lastGBCSync := lastGBCSync s; unsyncedGBC := unsyncedGBC s;
     gbcSyncInterwalWarningShown := gbcSyncInterwalWarningShown s;
     gbcSyncPromise := v; bph := bph s; lastBPH := lastBPH s; unsyncedBPH :=
     unsyncedBPH s; cooldownUntil := cooldownUntil s; cooldownFails :=
     cooldownFails s; bpmBoops := bpmBoops s; bphRemoveTimeouts :=
     bphRemoveTimeouts s |}.

Definition set_bph (v : list (string * BPHEntry)) (s : Session) : Session :=
  {| clientId := clientId s; wsOpen := wsOpen s; lastGBC := lastGBC s;
     lastGBCSync := lastGBCSync s; unsyncedGBC := unsyncedGBC s;
     gbcSyncInterwalWarningShown := gbcSyncInterwalWarningShown s;
     gbcSyncPromise := gbcSyncPromise s; bph := v; lastBPH := lastBPH s;
     unsyncedBPH := unsyncedBPH s; cooldownUntil := cooldownUntil s;
     cooldownFails := cooldownFails s; bpmBoops := bpmBoops s;
     bphRemoveTimeouts := bphRemoveTimeouts s |}.

Definition set_lastBPH (v : Z) (s : Session) : Session :=
  {| clientId := clientId s; wsOpen := wsOpen s; lastGBC := lastGBC s;
     lastGBCSync := lastGBCSync s; unsyncedGBC := unsyncedGBC s;
     gbcSyncInterwalWarningShown := gbcSyncInterwalWarningShown s;
     gbcSyncPromise := gbcSyncPromise s; bph := bph s; lastBPH := v;
     unsyncedBPH := unsyncedBPH s; cooldownUntil := cooldownUntil s;
     cooldownFails := cooldownFails s; bpmBoops := bpmBoops s;
     bphRemoveTimeouts := bphRemoveTimeouts s |}.

Definition set_unsyncedBPH (v : Z) (s : Session) : Session :=
  {| clientId := clientId s; wsOpen := wsOpen s; lastGBC := lastGBC s;
     lastGBCSync := lastGBCSync s; unsyncedGBC := unsyncedGBC s;
     gbcSyncInterwalWarningShown := gbcSyncInterwalWarningShown s;
     gbcSyncPromise := gbcSyncPromise s; bph := bph s; lastBPH := lastBPH s;
     unsyncedBPH := v; cooldownUntil := cooldownUntil s; cooldownFails :=
     cooldownFails s; bpmBoops := bpmBoops s; bphRemoveTimeouts :=
     bphRemoveTimeouts s |}.

Definition set_cooldownUntil (v : Z) (s : Session) : Session :=
  {| clientId := clientId s; wsOpen := wsOpen s; lastGBC := lastGBC s;
     lastGBCSync := lastGBCSync s; unsyncedGBC := unsyncedGBC s;
     gbcSyncInterwalWarningShown := gbcSyncInterwalWarningShown s;
     gbcSyncPromise := gbcSyncPromise s; bph := bph s; lastBPH := lastBPH s;
     unsyncedBPH := unsyncedBPH s; cooldownUntil := v; cooldownFails :=
     cooldownFails s; bpmBoops := bpmBoops s; bphRemoveTimeouts :=
     bphRemoveTimeouts s |}.

Definition set_cooldownFails (v : Z) (s : Session) : Session :=
  {| clientId := clientId s; wsOpen := wsOpen s; lastGBC := lastGBC s;
     lastGBCSync := lastGBCSync s; unsyncedGBC := unsyncedGBC s;
     gbcSyncInterwalWarningShown := gbcSyncInterwalWarningShown s;
     gbcSyncPromise := gbcSyncPromise s; bph := bph s; lastBPH := lastBPH s;
     unsyncedBPH := unsyncedBPH s; cooldownUntil := cooldownUntil s;
     cooldownFails := v; bpmBoops := bpmBoops s; bphRemoveTimeouts :=
     bphRemoveTimeouts s |}.

Definition set_bpmBoops (v : list Z) (s : Session) : Session :=
  {| clientId := clientId s; wsOpen := wsOpen s; lastGBC := lastGBC s;
     lastGBCSync := lastGBCSync s; unsyncedGBC := unsyncedGBC s;
     gbcSyncInterwalWarningShown := gbcSyncInterwalWarningShown s;
     gbcSyncPromise := gbcSyncPromise s; bph := bph s; lastBPH := lastBPH s;
     unsyncedBPH := unsyncedBPH s; cooldownUntil := cooldownUntil s;
     cooldownFails := cooldownFails s; bpmBoops := v; bphRemoveTimeouts :=
     bphRemoveTimeouts s |}.

Definition set_bphRemoveTimeouts (v : list (string * Z)) (s : Session) : Session :=
  {| clientId := clientId s; wsOpen := wsOpen s; lastGBC := lastGBC s;
     lastGBCSync := lastGBCSync s; unsyncedGBC := unsyncedGBC s;
     gbcSyncInterwalWarningShown := gbcSyncInterwalWarningShown s;
     gbcSyncPromise := gbcSyncPromise s; bph := bph s; lastBPH := lastBPH s;
     unsyncedBPH := unsyncedBPH s; cooldownUntil := cooldownUntil s;
     cooldownFails := cooldownFails s; bpmBoops := bpmBoops s;
     bphRemoveTimeouts := v |}.

(** What a handler does to the outside, in program order. *)
Inductive effect : Type :=
| WsSend (data : string)
| WsClose (code : Z) (reason : string)
| StoreAtomicAdd (change : Z)               (* set(gbcRef, increment(change)) *)
| StorePush (validUntil : Z) (change : Z)   (* push(bphRef, [validUntil, change]) *)
| StoreRemove (path : string)               (* remove(ref(db, path)) *)
| ResetGBCSyncTimeout
| SetRemoveTimeout (key : string) (timeLeft : Z)
| ClearRemoveTimeout (key : string).

(** What [#gbcSync] returns: the pending [#gbcSyncPromise], or
    [Promise.resolve()]. *)
Inductive promise : Type :=
| PromisePending (captured : PendingGBCSync)
| PromiseResolved.

(** The session after [#asyncInit]: [gbc] is the counter read from the
    store; the mirror is filled by child-added events afterwards. *)
Definition initSession (id : string) (gbc : Z) : Session :=
  {| clientId := id; wsOpen := true; lastGBC := gbc; lastGBCSync := 0;
     unsyncedGBC := 0; gbcSyncInterwalWarningShown := false;
     gbcSyncPromise := None; bph := []; lastBPH := 0; unsyncedBPH := 0;
     cooldownUntil := 0; cooldownFails := 0; bpmBoops := [];
     bphRemoveTimeouts := [] |}.

(** The count shown to the client, [this.#lastGBC + this.#unsyncedGBC]. *)
Definition displayed (s : Session) : Z := lastGBC s + unsyncedGBC s.

(** [#sendBoopCount] *)
Definition sendBoopCount (s : Session) : list effect :=
  if wsOpen s
  then [WsSend (PROTO_BOOP_COUNT ++ toString36 (lastGBC s + unsyncedGBC s))]
  else [].

(** *** Rate limiter *)

(** [this.#bph[key]] for a key taken from [Object.keys(this.#bph)]; the
    default is never read there. *)
Definition entryAt (m : list (string * BPHEntry)) (key : string) : BPHEntry :=
  match propGet key m with
  | Some entry => entry
  | None => (0, 0)
  end.

(** The comparator of [#getCooldown]:
    [(a, b) => this.#bph[a][BPH_VALID_UNTIL] - this.#bph[b][BPH_VALID_UNTIL]]. *)
Definition byValidUntil (m : list (string * BPHEntry)) (a b : string) : Z :=
  validUntilOf (entryAt m a) - validUntilOf (entryAt m b).

(** The loop of [#getCooldown] that virtually removes boop packs; it
    returns the final [virtualBPH] and [soonest]. *)
Fixpoint virtuallyRemove (m : list (string * BPHEntry)) (bphKeys : list string)
    (virtualBPH soonest : Z) : Z * Z :=
  match bphKeys with
  | [] => (virtualBPH, soonest)
  | key :: rest =>
      let entry := entryAt m key in
      let soonest := validUntilOf entry in
      let virtualBPH := virtualBPH - changeOf entry in
      if virtualBPH <? BPH_LIMIT then (virtualBPH, soonest)
      else virtuallyRemove m rest virtualBPH soonest
  end.

(** [#getCooldown(now)]: the returned number and the session (the BPM
    window may have been pruned). *)
Definition getCooldown (now : Z) (s : Session) : Z * Session :=
  if BPH_LIMIT <=? lastBPH s + unsyncedBPH s then
    let bphKeys := sort (byValidUntil (bph s)) (keysOf (bph s)) in
    let '(virtualBPH, soonest) :=
      virtuallyRemove (bph s) bphKeys (lastBPH s + unsyncedBPH s) 0 in
    let soonest :=
      if BPH_LIMIT <=? virtualBPH then now + ONE_HOUR else soonest in
    (now + Z.max 0 (soonest - now), s)
  else if BPM_LIMIT <=? Z.of_nat (List.length (bpmBoops s)) then
    let oldest := nth 0 (bpmBoops s) 0 in
    if ONE_MINUTE <=? now - oldest then
      (0, set_bpmBoops
            (filter (fun timestamp => now - timestamp <? ONE_MINUTE)
                    (bpmBoops s)) s)
    else (now + Z.max 0 (ONE_MINUTE - (now - oldest)), s)
  else (0, s).

(** *** GBC sync scheduler *)

(** [now || Date.now()]: an omitted argument and 0 are both falsy. *)
Definition orDateNow (now : option Z) (clock : Z) : Z :=
  match now with
  | Some n => if n =? 0 then clock else n
  | None => clock
  end.

(** [#gbcSync(now, finalSync)].  [now] is [None] when the argument is
    omitted (the trailing timer); [clock] is [Date.now()], read by
    [now || Date.now()]. *)
Definition gbcSync (now : option Z) (finalSync : bool) (clock : Z)
    (s : Session) : promise * Session * list effect :=
  match gbcSyncPromise s with
  | Some captured => (PromisePending captured, s, [])
  | None =>
      let now := orDateNow now clock in
      if finalSync || (GBC_SYNC_INTERVAL <=? now - lastGBCSync s) then
        let s1 := set_lastGBCSync now s in
        if negb (unsyncedGBC s1 =? 0) then
          let change := unsyncedGBC s1 in
          let s2 := set_unsyncedGBC 0 s1 in
          let s3 := set_lastGBC (lastGBC s2 + change) s2 in
          let s4 := set_gbcSyncPromise (Some (change, finalSync)) s3 in
          (PromiseResolved, s4, [StoreAtomicAdd change; ResetGBCSyncTimeout])
        else (PromiseResolved, s1, [ResetGBCSyncTimeout])
      else (PromiseResolved, s, [ResetGBCSyncTimeout])
  end.

(** The callbacks chained on the atomic add: [.catch] runs when the write
    failed ([ok = false]), [.finally] always; [clock] is [Date.now()]
    there. *)
Definition gbcSyncSettled (ok : bool) (clock : Z) (s : Session)
  : Session * list effect :=
  match gbcSyncPromise s with
  | None => (s, [])
  | Some (change, finalSync) =>
      let s1 :=
        if ok then s else set_unsyncedGBC (unsyncedGBC s + change) s in
      let s2 := set_gbcSyncPromise None s1 in
      if finalSync then (s2, [])
      else
        let now := clock in
        if GBC_SYNC_INTERVAL <=? now - lastGBCSync s2 then
          let s3 :=
            if negb (gbcSyncInterwalWarningShown s2)
            then set_gbcSyncInterwalWarningShown true s2 else s2 in
          let '(_, s4, effects) := gbcSync (Some now) finalSync clock s3 in
          (s4, effects)
        else (s2, [])
  end.

(** [#onGBCChange(snapshot)], [val] being [snapshot.val()]. *)
Definition onGBCChange (val : json) (s : Session) : Session * list effect :=
  match val with
  | JNum val =>
      if val =? lastGBC s then (s, [])
      else
        let s1 := set_lastGBC val s in
        (s1, sendBoopCount s1)
  | _ => (s, [])
  end.

(** *** Message handlers *)

(** The reject frame [r<boopId>,<cooldownUntil - now>]. *)
Definition rejectFrame (boopId now : Z) (s : Session) : string :=
  PROTO_BOOP_REJECT ++ toString36 boopId ++ "," ++
  toString36 (cooldownUntil s - now).

(** [#onBoop] from the call of [#getCooldown] on. *)
Definition onBoopFresh (now boopId : Z) (s : Session)
  : Session * list effect :=
  let '(cooldown, s) := getCooldown now s in
  if negb (cooldown =? 0) then
    let s := set_cooldownUntil cooldown s in
    (s, [WsSend (rejectFrame boopId now s)])
  else
    let s := set_cooldownFails 0 s in
    let s := set_unsyncedGBC (unsyncedGBC s + 1) s in
    let '(_, s, syncEffects) := gbcSync (Some now) false now s in
    let s := set_bpmBoops (bpmBoops s ++ [now]) s in
    let s := set_unsyncedBPH (unsyncedBPH s + 1) s in
    (s, (syncEffects
           ++ [WsSend (PROTO_BOOP_REPLY ++ toString36 boopId)]
           ++ sendBoopCount s)%list).

(** [#onBoop(now, boopId)]; [this.#cooldownFails++ >= CD_FAIL_LIMIT]
    compares the value before the increment. *)
Definition onBoop (now boopId : Z) (s : Session) : Session * list effect :=
  if negb (cooldownUntil s =? 0) then
    if now <? cooldownUntil s then
      let fails := cooldownFails s in
      let s := set_cooldownFails (fails + 1) s in
      if CD_FAIL_LIMIT <=? fails then
        (set_wsOpen false s,
         [WsClose TOO_MANY_COOLDOWN_FAILS_ERRCODE
                  TOO_MANY_COOLDOWN_FAILS_ERRMSG])
      else (s, [WsSend (rejectFrame boopId now s)])
    else onBoopFresh now boopId (set_cooldownUntil 0 s)
  else onBoopFresh now boopId s.

(** The cooldown reply [d<queryId>,<cooldownUntil - now>]. *)
Definition cooldownFrame (queryId now : Z) (s : Session) : string :=
  PROTO_COOLDOWN_REPLY ++ toString36 queryId ++ "," ++
  toString36 (cooldownUntil s - now).

(** [#onCooldownQuery] from the call of [#getCooldown] on. *)
Definition onCooldownQueryFresh (queryId now : Z) (s : Session)
  : Session * list effect :=
  let '(cooldown, s) := getCooldown now s in
  if negb (cooldown =? 0) then
    let s := set_cooldownUntil cooldown s in
    (s, [WsSend (cooldownFrame queryId now s)])
  else (s, [WsSend (PROTO_COOLDOWN_REPLY ++ toString36 queryId)]).

(** [#onCooldownQuery(queryId, now)] *)
Definition onCooldownQuery (queryId now : Z) (s : Session)
  : Session * list effect :=
  if negb (cooldownUntil s =? 0) then
    if now <? cooldownUntil s then
      (s, [WsSend (cooldownFrame queryId now s)])
    else onCooldownQueryFresh queryId now (set_cooldownUntil 0 s)
  else onCooldownQueryFresh queryId now s.

(** *** BPH ledger *)

(** [#syncBPH()], up to the push; [clock] is [Date.now()]. *)
Definition syncBPH (clock : Z) (s : Session) : Session * list effect :=
  if unsyncedBPH s =? 0 then (s, [])
  else
    let validUntil := clock + ONE_HOUR in
    let change := unsyncedBPH s in
    let s := set_unsyncedBPH 0 s in
    (s, [StorePush validUntil change]).

(** The [.catch] callback of the push, which captured [change]. *)
Definition syncBPHFailed (change : Z) (s : Session) : Session * list effect :=
  (set_unsyncedBPH (unsyncedBPH s + change) s, []).

(** The path [`${BPH_KEY}/${this.#id}/${key}`]. *)
Definition bphPath (s : Session) (key : string) : string :=
  BPH_KEY ++ "/" ++ clientId s ++ "/" ++ key.

(** [#onBPHChildAdded(snapshot)], with [snapshot.key] ([None] for [null]),
    [snapshot.val()] and [Date.now()].  A valid entry is stored as under a
    plain key. *)
Definition onBPHChildAdded (key : option string) (val : json) (clock : Z)
    (s : Session) : Session * list effect :=
  match key with
  | None => (s, [])
  | Some key =>
      if negb (isValidBPHEntry val) then (s, [StoreRemove (bphPath s key)])
      else
        let val := bphEntryOf val in
        let s := set_bph (propSet key val (bph s)) s in
        let s := set_lastBPH (lastBPH s + changeOf val) s in
        let cleared :=
          match propGet key (bphRemoveTimeouts s) with
          | Some _ => [ClearRemoveTimeout key]
          | None => []
          end in
        let timeLeft := Z.max 0 (validUntilOf val - clock) in
        let s :=
          set_bphRemoveTimeouts (propSet key timeLeft (bphRemoveTimeouts s)) s in
        (s, (cleared ++ [SetRemoveTimeout key timeLeft])%list)
  end.

(** The removal timer armed by [#onBPHChildAdded] fires. *)
Definition onRemoveTimeout (key : string) (s : Session)
  : Session * list effect :=
  (s, [StoreRemove (bphPath s key)]).

(** [#onBPHChildRemoved(snapshot)], [snapshot.key] being [null] or a key
    that is not an inherited name; [JSLedger.onBPHChildRemoved] has the
    handler on any key. *)
Definition onBPHChildRemoved (key : option string) (s : Session)
  : Session * list effect :=
  match key with
  | None => (s, [])
  | Some key =>
      if negb (propIn key (bph s)) then (s, [])
      else
        let val := entryAt (bph s) key in
        let s := set_lastBPH (lastBPH s - changeOf val) s in
        let s := set_bph (propDelete key (bph s)) s in
        match propGet key (bphRemoveTimeouts s) with
        | Some _ =>
            (set_bphRemoveTimeouts (propDelete key (bphRemoveTimeouts s)) s,
             [ClearRemoveTimeout key])
        | None => (s, [])
        end
  end.

(** *** The session as an event machine

    One event per callback the runtime dispatches to the session.  Message
    events carry the [Date.now()] that [#onMessage] read. *)
Inductive event : Type :=
| EvBoop (now boopId : Z)
| EvCooldownQuery (queryId now : Z)
| EvGBCSyncTimeout (clock : Z)
| EvGBCSyncSettled (ok : bool) (clock : Z)
| EvGBCChange (val : json)
| EvSyncBPHInterval (clock : Z)
| EvSyncBPHFailed (change : Z)
| EvBPHChildAdded (key : option string) (val : json) (clock : Z)
| EvBPHChildRemoved (key : option string)
| EvRemoveTimeout (key : string).

Definition step (e : event) (s : Session) : Session * list effect :=
  match e with
  | EvBoop now boopId => onBoop now boopId s
  | EvCooldownQuery queryId now => onCooldownQuery queryId now s
  | EvGBCSyncTimeout clock =>
      let '(_, s, effects) := gbcSync None false clock s in (s, effects)
  | EvGBCSyncSettled ok clock => gbcSyncSettled ok clock s
  | EvGBCChange val => onGBCChange val s
  | EvSyncBPHInterval clock => syncBPH clock s
  | EvSyncBPHFailed change => syncBPHFailed change s
  | EvBPHChildAdded key val clock => onBPHChildAdded key val clock s
  | EvBPHChildRemoved key => onBPHChildRemoved key s
  | EvRemoveTimeout key => onRemoveTimeout key s
  end.

(** The session after a trace of events, and everything it emitted. *)
Fixpoint run (trace : list event) (s : Session) : Session * list effect :=
  match trace with
  | [] => (s, [])
  | e :: rest =>
      let '(s1, effects1) := step e s in
      let '(s2, effects2) := run rest s1 in
      (s2, (effects1 ++ effects2)%list)
  end.

End WSHandler.

Import WSHandler.

(* ================================================================= *)
(** ** Vocabulary of the properties *)

(** *** Hourly ledger *)

(** The sum of [change] over the mirror. *)
Definition sumOfChange (m : list (string * BPHEntry)) : Z :=
  fold_right (fun kv acc => changeOf (snd kv) + acc) 0 m.

(** Invariant 2 of the data model. *)
Definition ledgerConsistent (s : Session) : Prop :=
  lastBPH s = sumOfChange (bph s).

(** The hourly ledger is saturated. *)
Definition bphSaturated (s : Session) : Prop :=
  BPH_LIMIT <= lastBPH s + unsyncedBPH s.

(** The changes of the entries under the first [n] of [keys]. *)
Definition removedChange (m : list (string * BPHEntry)) (keys : list string)
    (n : nat) : Z :=
  fold_right (fun key acc => changeOf (entryAt m key) + acc) 0 (firstn n keys).

(** [Soonest m keys virtualBPH now t]: walking [keys] in order and
    subtracting each entry's change from [virtualBPH], [t] is the
    [validUntil] of the entry at which the sum first drops below
    [BPH_LIMIT], or [now + ONE_HOUR] when it never does. *)
Inductive Soonest (m : list (string * BPHEntry)) (keys : list string)
    (virtualBPH now : Z) : Z -> Prop :=
| SoonestAt (n : nat) (key : string) :
    nth_error keys n = Some key ->
    virtualBPH - removedChange m keys (S n) < BPH_LIMIT ->
    (forall i, (i < n)%nat ->
       BPH_LIMIT <= virtualBPH - removedChange m keys (S i)) ->
    Soonest m keys virtualBPH now (validUntilOf (entryAt m key))
| SoonestInAnHour :
    (forall i, (i <= List.length keys)%nat ->
       BPH_LIMIT <= virtualBPH - removedChange m keys i) ->
    Soonest m keys virtualBPH now (now + ONE_HOUR).

(** Ascending by [validUntil]. *)
Definition validUntilLe (m : list (string * BPHEntry)) (a b : string) : Prop :=
  validUntilOf (entryAt m a) <= validUntilOf (entryAt m b).

(** *** Cooldown *)

(** The session is in an active cooldown at [now]. *)
Definition cooldownActive (now : Z) (s : Session) : Prop :=
  cooldownUntil s <> 0 /\ now < cooldownUntil s.

(** Boop requests [(now, boopId)] as events. *)
Definition boops (requests : list (Z * Z)) : list event :=
  map (fun r => EvBoop (fst r) (snd r)) requests.

(** The reject frames answering [requests] during the cooldown of [s]. *)
Definition rejects (s : Session) (requests : list (Z * Z)) : list effect :=
  map (fun r => WsSend (rejectFrame (snd r) (fst r) s)) requests.

(** *** Displayed count *)

(** The displayed count before the trace and after each of its events. *)
Fixpoint displayedAlong (trace : list event) (s : Session) : list Z :=
  displayed s ::
  match trace with
  | [] => []
  | e :: rest => displayedAlong rest (fst (step e s))
  end.

(** The values notified by the store never decrease, starting from [gbc]. *)
Fixpoint storeNeverDecreases (gbc : Z) (trace : list event) : Prop :=
  match trace with
  | [] => True
  | EvGBCChange (JNum val) :: rest => gbc <= val /\ storeNeverDecreases val rest
  | _ :: rest => storeNeverDecreases gbc rest
  end.

(** The value an event notifies is not below [lastGBC]. *)
Definition notifiesAhead (e : event) (s : Session) : Prop :=
  match e with
  | EvGBCChange (JNum val) => lastGBC s <= val
  | _ => True
  end.

(** Every value notified by the store is at least the [lastGBC] of the
    session at the time it is delivered. *)
Fixpoint notifiedAhead (trace : list event) (s : Session) : Prop :=
  match trace with
  | [] => True
  | e :: rest => notifiesAhead e s /\ notifiedAhead rest (fst (step e s))
  end.

(** The change captured by the pending write, 0 when none is pending. *)
Definition inFlight (s : Session) : Z :=
  match gbcSyncPromise s with
  | Some (change, _) => change
  | None => 0
  end.

(** Unsynced counters and captured changes are not negative. *)
Definition countersNonNegative (s : Session) : Prop :=
  0 <= unsyncedGBC s /\ 0 <= inFlight s.

(** *** Coalescing *)

(** The deltas of the atomic adds among the effects. *)
Definition atomicAdds (effects : list effect) : list Z :=
  flat_map (fun e => match e with StoreAtomicAdd change => [change] | _ => [] end)
           effects.

(** The clock reading an event carries, if any. *)
Definition clockOf (e : event) : option Z :=
  match e with
  | EvBoop now _ => Some now
  | EvCooldownQuery _ now => Some now
  | EvGBCSyncTimeout clock => Some clock
  | EvGBCSyncSettled _ clock => Some clock
  | EvSyncBPHInterval clock => Some clock
  | EvBPHChildAdded _ _ clock => Some clock
  | _ => None
  end.

(** All events of the trace happen in [[start, start + GBC_SYNC_INTERVAL)]. *)
Definition withinOneInterval (start : Z) (trace : list event) : Prop :=
  Forall (fun e => match clockOf e with
                   | Some t => start <= t < start + GBC_SYNC_INTERVAL
                   | None => True
                   end) trace.

(** [#onBoop(now, _)] admits the boop in [s]. *)
Definition boopAccepted (now : Z) (s : Session) : bool :=
  negb (negb (cooldownUntil s =? 0) && (now <? cooldownUntil s))
  && (fst (getCooldown now s) =? 0).

(** One when the event is a boop that [s] admits. *)
Definition acceptedBy (e : event) (s : Session) : Z :=
  match e with
  | EvBoop now _ => if boopAccepted now s then 1 else 0
  | _ => 0
  end.

(** The change of the pending write when the event reports its success. *)
Definition addedBy (e : event) (s : Session) : Z :=
  match e with
  | EvGBCSyncSettled true _ => inFlight s
  | _ => 0
  end.

(** The number of boops admitted along the trace that no successful atomic
    add has covered: an admission counts one, a write that succeeds takes
    off the change it carried. *)
Fixpoint acceptedNotAdded (trace : list event) (s : Session) (n : Z) : Z :=
  match trace with
  | [] => n
  | e :: rest =>
      acceptedNotAdded rest (fst (step e s))
                       (n + acceptedBy e s - addedBy e s)
  end.

(** The mirror is a JavaScript object: no property name occurs twice. *)
Definition mirrorWF (s : Session) : Prop := NoDup (keysOf (bph s)).

(** *** The GBC sync scheduler, by cases *)

(** The outcome of a call of [#gbcSync], by cases. *)
Inductive gbcSyncOutcome (now : option Z) (finalSync : bool) (clock : Z)
    (s : Session) : promise * Session * list effect -> Prop :=
| SyncCoalesced captured :
    gbcSyncPromise s = Some captured ->
    gbcSyncOutcome now finalSync clock s (PromisePending captured, s, [])
| SyncTooEarly :
    gbcSyncPromise s = None -> finalSync = false ->
    orDateNow now clock - lastGBCSync s < GBC_SYNC_INTERVAL ->
    gbcSyncOutcome now finalSync clock s
      (PromiseResolved, s, [ResetGBCSyncTimeout])
| SyncNothing :
    gbcSyncPromise s = None ->
    finalSync = true
    \/ GBC_SYNC_INTERVAL <= orDateNow now clock - lastGBCSync s ->
    unsyncedGBC s = 0 ->
    gbcSyncOutcome now finalSync clock s
      (PromiseResolved, set_lastGBCSync (orDateNow now clock) s,
       [ResetGBCSyncTimeout])
| SyncAdds :
    gbcSyncPromise s = None ->
    finalSync = true
    \/ GBC_SYNC_INTERVAL <= orDateNow now clock - lastGBCSync s ->
    unsyncedGBC s <> 0 ->
    gbcSyncOutcome now finalSync clock s
      (PromiseResolved,
       set_gbcSyncPromise (Some (unsyncedGBC s, finalSync))
         (set_lastGBC (lastGBC s + unsyncedGBC s)
            (set_unsyncedGBC 0 (set_lastGBCSync (orDateNow now clock) s))),
       [StoreAtomicAdd (unsyncedGBC s); ResetGBCSyncTimeout]).

(** What one call of [#gbcSync] at time [at_] guarantees about the GBC
    fields and the atomic adds it issues. *)
Definition gbcSyncFacts (at_ : Z) (finalSync : bool) (s s' : Session)
    (effects : list effect) : Prop :=
  unsyncedGBC s' + inFlight s' = unsyncedGBC s + inFlight s
  /\ displayed s' = displayed s
  /\ (countersNonNegative s -> countersNonNegative s')
  /\ (atomicAdds effects = []
      \/ atomicAdds effects = [unsyncedGBC s]
         /\ gbcSyncPromise s = None /\ lastGBCSync s' = at_)
  /\ (finalSync = false -> at_ - lastGBCSync s < GBC_SYNC_INTERVAL ->
      atomicAdds effects = [])
  /\ (lastGBCSync s' = lastGBCSync s \/ lastGBCSync s' = at_).

(* ================================================================= *)
(** ** Concrete sessions, store contents and traces used below *)

(** A [bph] root in which client [cA] holds a malformed entry next to a
    stale one, and client [cB] holds a stale entry. *)
Definition clientsWithMalformedEntry : list (string * json) :=
  [("cA", JObj [("-k1", JStr "bad"); ("-k2", JArr [JNum 1; JNum 5])]);
   ("cB", JObj [("-k3", JArr [JNum 2; JNum 7])])].

Definition rootWithMalformedEntry : json := JObj clientsWithMalformedEntry.

(** The same root without the malformed entry. *)
Definition rootWithoutMalformedEntry : json :=
  JObj [("cA", JObj [("-k2", JArr [JNum 1; JNum 5])]);
        ("cB", JObj [("-k3", JArr [JNum 2; JNum 7])])].

(** A fresh session for client [cQ], the store counter being 42. *)
Definition freshSession : Session := initSession "cQ" 42.

(** The session after the store reported one ledger entry of 10_000 boops
    that is valid until 1_801_000. *)
Definition saturatedSession : Session :=
  fst (run [EvBPHChildAdded (Some "-k1")
              (JArr [JNum 1801000; JNum 10000]) 500] freshSession).

(** The session after 1000 boops admitted at time 500. *)
Definition fullWindowSession : Session :=
  fst (run (boops (repeat (500, 7) 1000)) freshSession).

(** The session after 999 boops admitted at time 500 and one at 60_400. *)
Definition staleWindowSession : Session :=
  fst (run (boops (repeat (500, 7) 999 ++ [(60400, 8)])) freshSession).

(** A session that was in a cooldown until 100 and saw three boops
    rejected in it; a second ledger entry arrived, the first one expired
    and was removed, and a boop at time 150 started a new cooldown until
    5000. *)
Definition secondCooldownTrace : list event :=
  [EvBPHChildAdded (Some "-k1") (JArr [JNum 100; JNum 10000]) 5;
   EvBoop 10 1; EvBoop 11 2; EvBoop 12 3; EvBoop 13 4;
   EvBPHChildAdded (Some "-k2") (JArr [JNum 5000; JNum 10000]) 14;
   EvRemoveTimeout "-k1"; EvBPHChildRemoved (Some "-k1");
   EvBoop 150 5].

Definition secondCooldownSession : Session :=
  fst (run secondCooldownTrace freshSession).

(** Six boop requests sent at 151..156. *)
Definition sixBoops : list (Z * Z) :=
  [(151, 6); (152, 7); (153, 8); (154, 9); (155, 10); (156, 11)].

(** [saturatedSession] after a first boop, rejected at time 100: a
    cooldown until 1_801_000 has begun and no boop has failed in it yet. *)
Definition firstCooldownSession : Session :=
  fst (run [EvBoop 100 1] saturatedSession).

(** A trace in which the store counter only grows (42, 43, 44): the
    session adds one boop, admits two more and starts their atomic add,
    and then hears of the boop another client added in between. *)
Definition overtakenTrace : list event :=
  [EvBoop 1000 1; EvGBCChange (JNum 43); EvGBCSyncSettled true 1010;
   EvBoop 1100 2; EvBoop 1200 3; EvGBCSyncTimeout 1350;
   EvGBCChange (JNum 44)].

(** The same, except that the atomic add of the two boops fails before the
    notification arrives. *)
Definition failedAddTrace : list event :=
  [EvBoop 1000 1; EvGBCChange (JNum 43); EvGBCSyncSettled true 1010;
   EvBoop 1100 2; EvBoop 1200 3; EvGBCSyncTimeout 1350;
   EvGBCSyncSettled false 1400; EvGBCChange (JNum 44)].

(** A trace whose notifications are never behind the session: a boop whose
    atomic add fails, a notification of 50, another boop. *)
Definition aheadTrace : list event :=
  [EvBoop 1000 1; EvGBCSyncSettled false 1010; EvGBCChange (JNum 50);
   EvBoop 1300 2].

(** Three boops and two timer ticks within less than one sync interval. *)
Definition burstTrace : list event :=
  [EvBoop 1000 1; EvBoop 1010 2; EvGBCSyncTimeout 1100; EvBoop 1200 3;
   EvGBCSyncTimeout 1249].

(** A boop whose atomic add succeeds, then two more boops that no sync has
    picked up yet. *)
Definition twoUnsyncedTrace : list event :=
  [EvBoop 1000 1; EvGBCSyncSettled true 1010; EvBoop 1100 2; EvBoop 1200 3].

Definition twoUnsyncedSession : Session :=
  fst (run twoUnsyncedTrace (initSession "cQ" 42)).

(** A fresh session after one admitted boop: [unsyncedBPH] is 1. *)
Definition oneBoopSession : Session :=
  fst (run [EvBoop 1000 1] freshSession).

(* ================================================================= *)
(** ** protocol.js: the remaining constants *)

Definition HEARTBEAT_TIMEOUT : Z := 30000.

Definition INTERNAL_SERVER_ERROR_ERRCODE : Z := 1000.
Definition INTERNAL_SERVER_ERROR_ERRMSG : string := "Internal Server Error".
Definition NO_HEARTBEAT_ERRCODE : Z := 1001.
Definition NO_HEARTBEAT_ERRMSG : string :=
  "No heartbeat received within the timeout period".

Definition PROTO_HEARTBEAT : string := "h".
Definition PROTO_BOOP_REQUEST : string := "b".
Definition PROTO_COOLDOWN_QUERY : string := "d".
Definition PROTO_INVALID : string := "i".

(* ================================================================= *)
(** ** Frames: the pieces of String and RegExp the handlers use

    A frame is a [string] of 8-bit characters; characters beyond that range
    match none of the patterns below. *)

(** [data.startsWith(tag) ? data.slice(tag.length) : undefined] *)
Fixpoint sliceAfter (tag data : string) : option string :=
  match tag, data with
  | EmptyString, _ => Some data
  | String t tag', String d data' =>
      if Ascii.eqb t d then sliceAfter tag' data' else None
  | String _ _, EmptyString => None
  end.

(** The character class [[\da-z]] (also written [[0-9a-z]]). *)
Definition isBase36Digit (c : ascii) : bool :=
  let code := Z.of_nat (nat_of_ascii c) in
  ((48 <=? code) && (code <=? 57)) || ((97 <=? code) && (code <=? 122)).

Fixpoint allBase36Digits (s : string) : bool :=
  match s with
  | EmptyString => true
  | String c rest => isBase36Digit c && allBase36Digits rest
  end.

(** [s.match(/^([\da-z]{1,11})$/)]: the capture, when the pattern matches. *)
Definition matchBase36 (s : string) : option string :=
  if allBase36Digits s
     && (1 <=? Z.of_nat (String.length s))
     && (Z.of_nat (String.length s) <=? 11)
  then Some s else None.

(** The value of a base-36 digit. *)
Definition digitValue36 (c : ascii) : Z :=
  let code := Z.of_nat (nat_of_ascii c) in
  if code <=? 57 then code - 48 else code - 87.

(** [parseInt(s, 36)] on a capture of [matchBase36]: the digits are read
    from the left up to the first character that is not one.  (The handlers
    call it on such captures only, where no character stops it and the
    result is never [NaN].) *)
Fixpoint parseDigits36 (s : string) (acc : Z) : Z :=
  match s with
  | EmptyString => acc
  | String c rest =>
      if isBase36Digit c then parseDigits36 rest (acc * 36 + digitValue36 c)
      else acc
  end.

Definition parseInt36 (s : string) : Z := parseDigits36 s 0.

(** [Number.MAX_SAFE_INTEGER]: up to it every integer is a JavaScript
    number, so that [toString(36)] and [parseInt(_, 36)] are exact. *)
Definition MAX_SAFE_INTEGER : Z := 9007199254740991.

(** A request frame: the tag, then 1 to 11 characters of [[0-9a-z]]. *)
Definition isRequestFrame (tag data : string) : Prop :=
  exists payload,
    data = tag ++ payload
    /\ allBase36Digits payload = true
    /\ (1 <= String.length payload <= 11)%nat.

(* ================================================================= *)
(** ** ws-handler.js: the connection around the session *)

Module WSConnection.

(** The handler with its heartbeat timer: [heartbeatTimeout] is [true]
    while [#heartbeatTimeout] holds a timer. *)
Record Connection : Type := {
  session : Session;
  heartbeatTimeout : bool
}.

(** What the connection does to the outside: the effects of the session
    handlers, and those of the code around them. *)
Inductive connEffect : Type :=
| OfSession (e : effect)
| WsAccept
| ClearHeartbeatTimeout
| SetHeartbeatTimeout (delay : Z)
| StoreSet (path : string) (value : json)     (* set(ref(db, path), value) *)
| SetGBCSyncTimeout (delay : Z)
| ClearGBCSyncTimeout
| OnGBCChange                                 (* onValue(gbcRef, ...) *)
| OffGBCChange
| OffBPHChildAdded
| OffBPHChildRemoved
| ClearBPHSyncInterval.

Definition ofSession (r : Session * list effect) (c : Connection)
  : Connection * list connEffect :=
  ({| session := fst r; heartbeatTimeout := heartbeatTimeout c |},
   map OfSession (snd r)).

(** [#resetHeartbeatTimeout()] *)
Definition resetHeartbeatTimeout (c : Connection)
  : Connection * list connEffect :=
  ({| session := session c; heartbeatTimeout := true |},
   ((if heartbeatTimeout c then [ClearHeartbeatTimeout] else [])
      ++ [SetHeartbeatTimeout HEARTBEAT_TIMEOUT])%list).

(** The callback of the heartbeat timer. *)
Definition onHeartbeatTimeout (c : Connection) : Connection * list connEffect :=
  ({| session := set_wsOpen false (session c); heartbeatTimeout := false |},
   [OfSession (WsClose NO_HEARTBEAT_ERRCODE NO_HEARTBEAT_ERRMSG)]).

(** [event.data] of a message: a string, or anything else. *)
Inductive messageData : Type :=
| StringData (data : string)
| OtherData.

(** The tail of [#onMessage] for a frame that is neither a heartbeat nor a
    well-formed request. *)
Definition replyInvalid (c : Connection) : Connection * list connEffect :=
  (c, [OfSession (WsSend PROTO_INVALID)]).

(** The cooldown-query part of [#onMessage]. *)
Definition onMessageQuery (data : string) (now : Z) (c : Connection)
  : Connection * list connEffect :=
  match sliceAfter PROTO_COOLDOWN_QUERY data with
  | Some payload =>
      match matchBase36 payload with
      | Some capture =>
          ofSession (onCooldownQuery (parseInt36 capture) now (session c)) c
      | None => replyInvalid c
      end
  | None => replyInvalid c
  end.

(** [#onMessage(event)], with [event.data] and the [Date.now()] it reads. *)
Definition onMessage (data : messageData) (now : Z) (c : Connection)
  : Connection * list connEffect :=
  match data with
  | OtherData => (c, [])
  | StringData data =>
      if String.eqb data PROTO_HEARTBEAT then
        let '(c', effects) := resetHeartbeatTimeout c in
        (c', OfSession (WsSend PROTO_HEARTBEAT) :: effects)
      else
        match sliceAfter PROTO_BOOP_REQUEST data with
        | Some payload =>
            match matchBase36 payload with
            | Some capture =>
                ofSession (onBoop now (parseInt36 capture) (session c)) c
            | None => onMessageQuery data now c
            end
        | None => onMessageQuery data now c
        end
  end.



(** The teardown of [#onClose(event)]: listeners off, timers cleared. *)
Definition teardown (c : Connection) : list connEffect :=
  ([OffGBCChange; ClearGBCSyncTimeout; OffBPHChildAdded; OffBPHChildRemoved;
    ClearBPHSyncInterval]
   ++ map (fun kv => OfSession (ClearRemoveTimeout (fst kv)))
          (bphRemoveTimeouts (session c))
   ++ (if heartbeatTimeout c then [ClearHeartbeatTimeout] else []))%list.

(** The synchronous part of [#onClose(event)]: the teardown, then
    [#gbcSync(Date.now() + GBC_SYNC_INTERVAL + ONE_MINUTE)] and
    [#syncBPH()], called in this order before the first [await]. *)
Definition onClose (clock : Z) (c : Connection)
  : Connection * list connEffect :=
  let s := set_bphRemoveTimeouts [] (session c) in
  let '(_, s, syncEffects) :=
    gbcSync (Some (clock + GBC_SYNC_INTERVAL + ONE_MINUTE)) false clock s in
  let '(s, pushEffects) := syncBPH clock s in
  ({| session := s; heartbeatTimeout := heartbeatTimeout c |},
   (teardown c ++ map OfSession syncEffects ++ map OfSession pushEffects)%list).

End WSConnection.

Import WSConnection.

(* ================================================================= *)
(** ** Vocabulary of the further properties *)

(** *** Time along a trace *)

(** Every clock reading of the trace is positive. *)
Definition positiveClocks (trace : list event) : Prop :=
  Forall (fun e => match clockOf e with
                   | Some t => 0 < t
                   | None => True
                   end) trace.

(** The clock readings of the trace never go back, starting at [from]. *)
Fixpoint chronological (from : Z) (trace : list event) : Prop :=
  match trace with
  | [] => True
  | e :: rest =>
      match clockOf e with
      | Some t => from <= t /\ chronological t rest
      | None => chronological from rest
      end
  end.

(** The last clock reading of the trace, [from] when it has none. *)
Fixpoint lastClock (from : Z) (trace : list event) : Z :=
  match trace with
  | [] => from
  | e :: rest =>
      lastClock (match clockOf e with Some t => t | None => from end) rest
  end.

(** *** Admissions along a trace *)

(** The time of the boop an event admits, if it admits one. *)
Definition acceptedAt (e : event) (s : Session) : list Z :=
  match e with
  | EvBoop now _ => if boopAccepted now s then [now] else []
  | _ => []
  end.

(** The times of the boops admitted along the trace, in order. *)
Fixpoint acceptedTimes (trace : list event) (s : Session) : list Z :=
  match trace with
  | [] => []
  | e :: rest => (acceptedAt e s ++ acceptedTimes rest (fst (step e s)))%list
  end.

(** [t] is less than a minute before [now]. *)
Definition withinLastMinute (now t : Z) : bool := now - t <? ONE_MINUTE.

(** *** The hourly ledger along a trace *)

(** The changes of the BPH entries pushed among the effects, summed. *)
Definition pushedChange (effects : list effect) : Z :=
  fold_right (fun e acc => match e with
                           | StorePush _ change => change + acc
                           | _ => acc
                           end) 0 effects.

(** The changes of the pushes the trace reports as failed, summed. *)
Definition failedChange (trace : list event) : Z :=
  fold_right (fun e acc => match e with
                           | EvSyncBPHFailed change => change + acc
                           | _ => acc
                           end) 0 trace.

(** The store reports a child as added only while the mirror does not hold
    its key. *)
Fixpoint childrenAddedOnce (trace : list event) (s : Session) : Prop :=
  match trace with
  | [] => True
  | e :: rest =>
      match e with
      | EvBPHChildAdded (Some key) _ _ => propIn key (bph s) = false
      | _ => True
      end /\ childrenAddedOnce rest (fst (step e s))
  end.

(** *** What a sweep of the janitor is to remove *)

(** The paths of the entries of one client's map that are more than an
    hour past their validity. *)
Definition staleEntryPaths (now : Z) (cleintId : string)
    (entries : list (string * json)) : list string :=
  flat_map (fun kv =>
              if validUntilOf (bphEntryOf (snd kv)) + ONE_HOUR <? now
              then [BPH_KEY ++ "/" ++ cleintId ++ "/" ++ fst kv]
              else []) entries.

(** The paths to remove under the root: every client subtree that is not
    a map, and the stale entries of those that are, in the order of the
    root. *)
Definition staleOrInvalidPaths (now : Z) (clients : list (string * json))
  : list string :=
  flat_map (fun client =>
              match snd client with
              | JObj entries => staleEntryPaths now (fst client) entries
              | _ => [BPH_KEY ++ "/" ++ fst client]
              end) clients.

(** *** What the connection does to the store and to its timers *)

(** The store writes among the effects of the connection. *)
Definition storeWrites (effects : list connEffect) : list connEffect :=
  filter (fun e => match e with
                   | OfSession (StoreAtomicAdd _)
                   | OfSession (StorePush _ _)
                   | OfSession (StoreRemove _)
                   | StoreSet _ _ => true
                   | _ => false
                   end) effects.

(** The effect arms the GBC sync timer. *)
Definition armsGBCSyncTimeout (e : connEffect) : bool :=
  match e with
  | OfSession ResetGBCSyncTimeout | SetGBCSyncTimeout _ => true
  | _ => false
  end.

(* ================================================================= *)
(** ** The Firebase token and its two caches *)

Definition FB_TOKEN_TTL : Z := ONE_HOUR.
Definition FB_TOKEN_TTL_S : Z := FB_TOKEN_TTL / ONE_SECOND.
Definition FB_TOKEN_CLOSE_CALL_THRESHOLD : Z := 10 * ONE_SECOND.

(** utils.js: [isTokenData(data)] *)
Definition isTokenData (data : json) : bool :=
  match data with
  | JObj fields =>
      (Z.of_nat (List.length fields) =? 2)
      && match propGet "expiresAt" fields with
         | Some (JNum _) => true
         | _ => false
         end
      && match propGet "token" fields with
         | Some (JStr _) => true
         | _ => false
         end
  | _ => false
  end.

(** [data.expiresAt] and [data.token]; only read after [isTokenData]. *)
Definition expiresAtOf (data : json) : Z :=
  match data with
  | JObj fields =>
      match propGet "expiresAt" fields with
      | Some (JNum expiresAt) => expiresAt
      | _ => 0
      end
  | _ => 0
  end.

Definition tokenOf (data : json) : string :=
  match data with
  | JObj fields =>
      match propGet "token" fields with
      | Some (JStr token) => token
      | _ => EmptyString
      end
  | _ => EmptyString
  end.

(** [{ token, expiresAt }], also after [JSON.stringify] and back. *)
Definition tokenData (token : string) (expiresAt : Z) : json :=
  JObj [("token", JStr token); ("expiresAt", JNum expiresAt)].

(** [isTokenData(data)
     && data.expiresAt > now + FB_TOKEN_CLOSE_CALL_THRESHOLD] *)
Definition liveTokenData (data : json) (now : Z) : bool :=
  isTokenData data
  && (now + FB_TOKEN_CLOSE_CALL_THRESHOLD <? expiresAtOf data).

(** What the token functions do to the caches and the token service. *)
Inductive tokenEffect : Type :=
| CacheDelete                                   (* cache.delete(cacheKey) *)
| GenerateToken                                 (* generateToken(uid) *)
| KVPut (value : json) (expirationTtl : Z)
| CachePut (value : json) (maxAge : Z).

(** The part both token functions share word for word: the KV lookup and
    the generation after a miss.  [kvResp] is what the KV read gave
    ([JNull] on an error), [generated] what [generateToken] gave ([None]
    on an error).  The result is the token with its expiry, or [None]
    where the function throws. *)
Definition tokenFromKV (kvResp : json) (generated : option string) (now : Z)
  : option (string * Z) * list tokenEffect :=
  if liveTokenData kvResp now
  then (Some (tokenOf kvResp, expiresAtOf kvResp), [])
  else
    match generated with
    | None => (None, [GenerateToken])
    | Some token =>
        let expiresAt := now + FB_TOKEN_TTL in
        (Some (token, expiresAt),
         [GenerateToken; KVPut (tokenData token expiresAt) FB_TOKEN_TTL_S])
    end.

Module CronHandler.

(** cron-handler.js: [getToken(appName, env, uid)] *)
Definition getToken (kvResp : json) (generated : option string) (now : Z)
  : option string * list tokenEffect :=
  let '(found, effects) := tokenFromKV kvResp generated now in
  (option_map fst found, effects).

End CronHandler.

Module WSToken.

(** ws-handler.js: [#getToken(uid)].  [cacheResp] is the parsed body of
    the edge cache's match ([JNull] when it does not parse), [None] when
    there is no match. *)
Definition getToken (cacheResp : option json) (kvResp : json)
    (generated : option string) (now : Z)
  : option string * list tokenEffect :=
  let afterCache (before : list tokenEffect) :=
    match tokenFromKV kvResp generated now with
    | (None, effects) => (None, (before ++ effects)%list)
    | (Some (token, expiresAt), effects) =>
        let ttl := (expiresAt - now) / ONE_SECOND in
        (Some token,
         (before ++ effects
            ++ [CachePut (tokenData token expiresAt) ttl])%list)
    end in
  match cacheResp with
  | Some cachedValue =>
      if liveTokenData cachedValue now
      then (Some (tokenOf cachedValue), [])
      else afterCache [CacheDelete]
  | None => afterCache []
  end.

End WSToken.

(* ================================================================= *)
(** ** front/mare-connection.js: the client *)

Module MareClient.

Definition HEARTBEAT_INTERVAL_MS : Z := HEARTBEAT_TIMEOUT - 5000.
Definition BACKOFF_BASE_MS : Z := 1000.
Definition BACKOFF_MAX_MS : Z := 30000.

(** *** The maps of pending requests

    A [Map] from request ids to the pair [[resolve, reject]], in insertion
    order.  What the model keeps of the pair is whether it is wrapped to
    clear a timeout timer: [Some timeoutMs] if so, [None] if not. *)
Definition Pending : Type := list (Z * option Z).

(** [map.get(id)] *)
Fixpoint pendingGet (id : Z) (pending : Pending) : option (option Z) :=
  match pending with
  | [] => None
  | (k, v) :: rest => if id =? k then Some v else pendingGet id rest
  end.

(** [map.delete(id)] *)
Fixpoint pendingDelete (id : Z) (pending : Pending) : Pending :=
  match pending with
  | [] => []
  | (k, v) :: rest =>
      if id =? k then rest else (k, v) :: pendingDelete id rest
  end.

(** [map.set(id, callbacks)] *)
Fixpoint pendingSet (id : Z) (callbacks : option Z) (pending : Pending)
  : Pending :=
  match pending with
  | [] => [(id, callbacks)]
  | (k, v) :: rest =>
      if id =? k then (k, callbacks) :: rest
      else (k, v) :: pendingSet id callbacks rest
  end.

(** *** State and effects *)

Record Client : Type := {
  reconnectOnClose : bool;
  reconnectImmediately : bool;
  connectOnFocus : bool;
  reconnectAttempts : Z;
  backoffTimeout : bool;            (* a backoff timer is held *)
  heartbeatInterval : bool;         (* a heartbeat interval is held *)
  lastBoopId : Z;
  pendingBoops : Pending;
  lastCooldownQueryId : Z;
  pendingCooldownQueries : Pending
}.

Definition set_reconnectAttempts (v : Z) (c : Client) : Client :=
  {| reconnectOnClose := reconnectOnClose c;
     reconnectImmediately := reconnectImmediately c;
     connectOnFocus := connectOnFocus c;
     reconnectAttempts := v;
     backoffTimeout := backoffTimeout c;
     heartbeatInterval := heartbeatInterval c;
     lastBoopId := lastBoopId c;
     pendingBoops := pendingBoops c;
     lastCooldownQueryId := lastCooldownQueryId c;
     pendingCooldownQueries := pendingCooldownQueries c |}.

Definition set_boops (last : Z) (pending : Pending) (c : Client) : Client :=
  {| reconnectOnClose := reconnectOnClose c;
     reconnectImmediately := reconnectImmediately c;
     connectOnFocus := connectOnFocus c;
     reconnectAttempts := reconnectAttempts c;
     backoffTimeout := backoffTimeout c;
     heartbeatInterval := heartbeatInterval c;
     lastBoopId := last;
     pendingBoops := pending;
     lastCooldownQueryId := lastCooldownQueryId c;
     pendingCooldownQueries := pendingCooldownQueries c |}.

Definition set_cooldownQueries (last : Z) (pending : Pending) (c : Client)
  : Client :=
  {| reconnectOnClose := reconnectOnClose c;
     reconnectImmediately := reconnectImmediately c;
     connectOnFocus := connectOnFocus c;
     reconnectAttempts := reconnectAttempts c;
     backoffTimeout := backoffTimeout c;
     heartbeatInterval := heartbeatInterval c;
     lastBoopId := lastBoopId c;
     pendingBoops := pendingBoops c;
     lastCooldownQueryId := last;
     pendingCooldownQueries := pending |}.

(** The two kinds of request. *)
Inductive request : Type := Boop | CooldownQuery.

(** The errors a request is rejected with. *)
Inductive failure : Type :=
| BoopRejectedError (boopId cooldown : Z)
| BoopTimeoutError (id timeoutMs : Z)
| MareNetworkError.

Inductive clientEffect : Type :=
| Send (data : string)                                  (* this.#ws.send *)
| DispatchBoopCount (boopCount : Z)
| Resolve (kind : request) (id : Z) (cooldown : Z)      (* 0 for a boop *)
| Reject (kind : request) (id : Z) (error : failure)
| RejectUnsent                         (* the socket is not open *)
| SetRequestTimeout (kind : request) (id timeoutMs : Z)
| ClearRequestTimeout (kind : request) (id : Z)
| ClearHeartbeatInterval
| UnhookWS
| ClearBackoffTimeout
| NewWebSocket
| SetBackoffTimeout (delay : Z).

(** Calling the [resolve] or the [reject] of a pending pair: a wrapped
    one clears its timer first. *)
Definition settle (kind : request) (id : Z) (callbacks : option Z)
    (outcome : clientEffect) : list clientEffect :=
  match callbacks with
  | Some _ => [ClearRequestTimeout kind id; outcome]
  | None => [outcome]
  end.

(** *** Requests *)

(** The guard on [timeoutMs] at the head of [boop] and [queryCooldown];
    [None] is an argument that is not a number. *)
Definition normalizeTimeout (timeoutMs : option Z) : Z :=
  match timeoutMs with
  | Some t => if (t <? 0) || (MAX_SAFE_INTEGER <? t) then 0 else t
  | None => 0
  end.

(** [boop(timeoutMs)]; [open] is [this.#ws.readyState === WebSocket.OPEN]. *)
Definition boop (timeoutMs : option Z) (open : bool) (c : Client)
  : Client * list clientEffect :=
  let timeoutMs := normalizeTimeout timeoutMs in
  if negb open then (c, [RejectUnsent])
  else
    let boopId := lastBoopId c + 1 in
    let sent := Send (PROTO_BOOP_REQUEST ++ toString36 boopId) in
    if timeoutMs =? 0 then
      (set_boops boopId (pendingSet boopId None (pendingBoops c)) c, [sent])
    else
      (set_boops boopId
         (pendingSet boopId (Some timeoutMs) (pendingBoops c)) c,
       [sent; SetRequestTimeout Boop boopId timeoutMs]).

(** [queryCooldown(timeoutMs)] *)
Definition queryCooldown (timeoutMs : option Z) (open : bool) (c : Client)
  : Client * list clientEffect :=
  let timeoutMs := normalizeTimeout timeoutMs in
  if negb open then (c, [RejectUnsent])
  else
    let cooldownQueryId := lastCooldownQueryId c + 1 in
    let sent := Send (PROTO_COOLDOWN_QUERY ++ toString36 cooldownQueryId) in
    if timeoutMs =? 0 then
      (set_cooldownQueries cooldownQueryId
         (pendingSet cooldownQueryId None (pendingCooldownQueries c)) c,
       [sent])
    else
      (set_cooldownQueries cooldownQueryId
         (pendingSet cooldownQueryId (Some timeoutMs)
            (pendingCooldownQueries c)) c,
       [sent; SetRequestTimeout CooldownQuery cooldownQueryId timeoutMs]).

(** The callback of the timeout timer of a boop. *)
Definition onBoopTimeout (boopId timeoutMs : Z) (c : Client)
  : Client * list clientEffect :=
  (set_boops (lastBoopId c) (pendingDelete boopId (pendingBoops c)) c,
   [Reject Boop boopId (BoopTimeoutError boopId timeoutMs)]).

(** *** Frames of the server *)

(** The two sides of the first comma of a string. *)
Fixpoint splitAtComma (s : string) : option (string * string) :=
  match s with
  | EmptyString => None
  | String c rest =>
      if Ascii.eqb c "," then Some (EmptyString, rest)
      else match splitAtComma rest with
           | Some (before, after) => Some (String c before, after)
           | None => None
           end
  end.

(** [s.match(/^([0-9a-z]{1,11}),([0-9a-z]{1,11})$/)]: the two captures.
    No character of the class is a comma, so the first capture ends at
    the first comma. *)
Definition matchBase36Pair (s : string) : option (string * string) :=
  match splitAtComma s with
  | Some (first, second) =>
      match matchBase36 first, matchBase36 second with
      | Some first, Some second => Some (first, second)
      | _, _ => None
      end
  | None => None
  end.

(** [s.match(/^([0-9a-z]{1,11})(?:,([0-9a-z]{1,11}))?$/)]: the first
    capture, and the second when its group took part. *)
Definition matchBase36OptionalPair (s : string)
  : option (string * option string) :=
  match matchBase36 s with
  | Some first => Some (first, None)
  | None =>
      match matchBase36Pair s with
      | Some (first, second) => Some (first, Some second)
      | None => None
      end
  end.

(** The part of [#onMessage] that handles a boop reply. *)
Definition onBoopReply (payload : string) (c : Client)
  : Client * list clientEffect :=
  match matchBase36 payload with
  | None => (c, [])
  | Some capture =>
      let boopId := parseInt36 capture in
      match pendingGet boopId (pendingBoops c) with
      | None => (c, [])
      | Some callbacks =>
          (set_boops (lastBoopId c) (pendingDelete boopId (pendingBoops c)) c,
           settle Boop boopId callbacks (Resolve Boop boopId 0))
      end
  end.

(** The part that handles a boop rejection. *)
Definition onBoopReject (payload : string) (c : Client)
  : Client * list clientEffect :=
  match matchBase36Pair payload with
  | None => (c, [])
  | Some (first, second) =>
      let boopId := parseInt36 first in
      let cooldown := parseInt36 second in
      match pendingGet boopId (pendingBoops c) with
      | None => (c, [])
      | Some callbacks =>
          (set_boops (lastBoopId c) (pendingDelete boopId (pendingBoops c)) c,
           settle Boop boopId callbacks
             (Reject Boop boopId (BoopRejectedError boopId cooldown)))
      end
  end.

(** The part that handles the answer to a cooldown query. *)
Definition onCooldownReply (payload : string) (c : Client)
  : Client * list clientEffect :=
  match matchBase36OptionalPair payload with
  | None => (c, [])
  | Some (first, second) =>
      let cooldownQueryId := parseInt36 first in
      let cooldown :=
        match second with
        | Some second => parseInt36 second
        | None => 0
        end in
      match pendingGet cooldownQueryId (pendingCooldownQueries c) with
      | None => (c, [])
      | Some callbacks =>
          (set_cooldownQueries (lastCooldownQueryId c)
             (pendingDelete cooldownQueryId (pendingCooldownQueries c)) c,
           settle CooldownQuery cooldownQueryId callbacks
             (Resolve CooldownQuery cooldownQueryId cooldown))
      end
  end.

(** [#onMessage(event)] *)
Definition onMessage (data : messageData) (c : Client)
  : Client * list clientEffect :=
  let c := set_reconnectAttempts 0 c in
  match data with
  | OtherData => (c, [])
  | StringData data =>
      if (String.length data =? 0)%nat then (c, [])
      else if String.eqb data PROTO_HEARTBEAT then (c, [])
      else if String.eqb data PROTO_INVALID then (c, [])
      else
        match sliceAfter PROTO_BOOP_COUNT data with
        | Some payload =>
            match matchBase36 payload with
            | Some capture => (c, [DispatchBoopCount (parseInt36 capture)])
            | None => (c, [])
            end
        | None =>
            match sliceAfter PROTO_BOOP_REPLY data with
            | Some payload => onBoopReply payload c
            | None =>
                match sliceAfter PROTO_BOOP_REJECT data with
                | Some payload => onBoopReject payload c
                | None =>
                    match sliceAfter PROTO_COOLDOWN_REPLY data with
                    | Some payload => onCooldownReply payload c
                    | None => (c, [])
                    end
                end
            end
        end
  end.

(** *** Close *)

(** The rejections of all pending requests of one kind, in the order of
    the map. *)
Definition rejectAll (kind : request) (pending : Pending)
  : list clientEffect :=
  flat_map (fun entry =>
              settle kind (fst entry) (snd entry)
                (Reject kind (fst entry) MareNetworkError)) pending.

(** [#onCloseInner(event)], with [event.code] and [#isFocused()]; the
    boolean is the value returned. *)
Definition onCloseInner (code : Z) (focused : bool) (c : Client)
  : bool * Client * list clientEffect :=
  let rejections :=
    ((if heartbeatInterval c then [ClearHeartbeatInterval] else [])
       ++ rejectAll Boop (pendingBoops c)
       ++ rejectAll CooldownQuery (pendingCooldownQueries c)
       ++ [UnhookWS])%list in
  let closed reconnect immediately onFocus attempts backoff :=
    {| reconnectOnClose := reconnect;
       reconnectImmediately := immediately;
       connectOnFocus := onFocus;
       reconnectAttempts := attempts;
       backoffTimeout := backoff;
       heartbeatInterval := false;
       lastBoopId := lastBoopId c;
       pendingBoops := [];
       lastCooldownQueryId := lastCooldownQueryId c;
       pendingCooldownQueries := [] |} in
  if code =? TOO_MANY_COOLDOWN_FAILS_ERRCODE then
    (false,
     closed false false false 0 false,
     (rejections
        ++ (if backoffTimeout c then [ClearBackoffTimeout] else []))%list)
  else if negb (reconnectOnClose c) then
    (false,
     closed false (reconnectImmediately c) (connectOnFocus c)
       (reconnectAttempts c) (backoffTimeout c),
     rejections)
  else if negb (reconnectImmediately c) && negb focused then
    (true,
     closed true false true (reconnectAttempts c) (backoffTimeout c),
     rejections)
  else if reconnectImmediately c then
    (true,
     closed true false (connectOnFocus c) (reconnectAttempts c)
       (backoffTimeout c),
     (rejections ++ [NewWebSocket])%list)
  else
    let attempts := reconnectAttempts c + 1 in
    let delay :=
      Z.min (BACKOFF_BASE_MS * 2 ^ (attempts - 1)) BACKOFF_MAX_MS in
    (true,
     closed true false (connectOnFocus c) attempts true,
     (rejections ++ [SetBackoffTimeout delay])%list).

End MareClient.

(** *** The two ends of the channel *)

(** The frames among the effects of the connection, in the order sent. *)
Definition framesOf (effects : list connEffect) : list string :=
  flat_map (fun e => match e with
                     | OfSession (WsSend data) => [data]
                     | _ => []
                     end) effects.

(** The client after receiving the frames in order, and what it did. *)
Fixpoint deliver (frames : list string) (c : MareClient.Client)
  : MareClient.Client * list MareClient.clientEffect :=
  match frames with
  | [] => (c, [])
  | data :: rest =>
      let '(c1, effects1) := MareClient.onMessage (StringData data) c in
      let '(c2, effects2) := deliver rest c1 in
      (c2, (effects1 ++ effects2)%list)
  end.

(** The outcomes of the request [id] of the kind among the effects. *)
Definition outcomesOf (kind : MareClient.request) (id : Z)
    (effects : list MareClient.clientEffect)
  : list MareClient.clientEffect :=
  filter (fun e =>
            match e with
            | MareClient.Resolve k i _ | MareClient.Reject k i _ =>
                (match k, kind with
                 | MareClient.Boop, MareClient.Boop
                 | MareClient.CooldownQuery, MareClient.CooldownQuery => true
                 | _, _ => false
                 end) && (i =? id)
            | _ => false
            end) effects.

(** The ids of the pending boops are ids already given out. *)
Definition pendingBoopsGiven (c : MareClient.Client) : Prop :=
  forall id callbacks,
    In (id, callbacks) (MareClient.pendingBoops c) ->
    id <= MareClient.lastBoopId c.

(* ================================================================= *)
(** ** The mirror as the JavaScript object it is

    [#bph] is the object literal [{}] (ws-handler.js, the field
    declaration): a plain object whose prototype is [Object.prototype].
    The association list of [WSHandler] holds its own properties.  On
    plain keys that is all there is to the object; this part says what a
    plain key is, and has the [in] test of [#onBPHChildRemoved] as
    JavaScript evaluates it on every key. *)

(** The own property names of [Object.prototype]. *)
Definition objectPrototypeNames : list string :=
  ["constructor"; "__defineGetter__"; "__defineSetter__"; "hasOwnProperty";
   "__lookupGetter__"; "__lookupSetter__"; "isPrototypeOf";
   "propertyIsEnumerable"; "toString"; "valueOf"; "__proto__";
   "toLocaleString"].

(** The name is one a plain object inherits. *)
Definition inheritedName (key : string) : bool :=
  existsb (String.eqb key) objectPrototypeNames.

Definition isDecimalDigit (c : ascii) : bool :=
  let code := Z.of_nat (nat_of_ascii c) in
  (48 <=? code) && (code <=? 57).

Fixpoint allDecimalDigits (s : string) : bool :=
  match s with
  | EmptyString => true
  | String c rest => isDecimalDigit c && allDecimalDigits rest
  end.

Fixpoint parseDecimal (s : string) (acc : Z) : Z :=
  match s with
  | EmptyString => acc
  | String c rest =>
      parseDecimal rest (acc * 10 + (Z.of_nat (nat_of_ascii c) - 48))
  end.

(** The key is an array index: the decimal numeral, without leading
    zeros, of a number up to [2^32 - 2].  [Object.keys] lists such keys
    first, in numeric order, whenever they were added. *)
Definition isArrayIndex (key : string) : bool :=
  allDecimalDigits key
  && (1 <=? Z.of_nat (String.length key))
  && (Z.of_nat (String.length key) <=? 10)
  && (String.eqb key "0"
      || match key with
         | String c _ => negb (Ascii.eqb c "0")
         | EmptyString => false
         end)
  && (parseDecimal key 0 <=? 4294967294).

(** A plain key: neither inherited nor an array index.  On plain keys
    [key in obj] is the test for an own property, [obj[key] = val] makes
    or updates an own property, and [Object.keys] is the insertion order;
    the push keys of the store are plain unless they spell one of the
    names above. *)
Definition plainKey (key : string) : bool :=
  negb (inheritedName key) && negb (isArrayIndex key).

(** The key a ledger event carries, if any, is plain. *)
Definition plainKeyOf (e : event) : bool :=
  match e with
  | EvBPHChildAdded (Some key) _ _ | EvBPHChildRemoved (Some key) =>
      plainKey key
  | _ => true
  end.

(** All keys the store reports along the trace are plain. *)
Definition plainKeys (trace : list event) : Prop :=
  Forall (fun e => plainKeyOf e = true) trace.

Module JSLedger.

(** A JavaScript number that is an integer, or [NaN]. *)
Inductive number : Type :=
| Num (n : Z)
| NaN.

(** [a -= b], [b] being a number or [undefined] ([None]). *)
Definition minus (a : number) (b : option Z) : number :=
  match a, b with
  | Num a, Some b => Num (a - b)
  | _, _ => NaN
  end.

(** The ledger fields of the handler, [#lastBPH] being any such number.
    The prototype of [#bph] is [Object.prototype], as the literal makes
    it and as it stays while no valid entry is assigned under
    [__proto__]. *)
Record Ledger : Type := {
  bph : list (string * BPHEntry);
  lastBPH : number;
  bphRemoveTimeouts : list (string * Z)
}.

(** [key in this.#bph]: an own property, or an inherited one. *)
Definition hasProperty (key : string) (obj : list (string * BPHEntry))
  : bool :=
  propIn key obj || inheritedName key.

(** [this.#bph[key][BPH_CHANGE]] for a key that passed [hasProperty]:
    the change of the own entry; [undefined] when the value is inherited
    (a function, or [Object.prototype] itself under [__proto__]), which
    has no property [1]. *)
Definition changeAt (key : string) (obj : list (string * BPHEntry))
  : option Z :=
  option_map changeOf (propGet key obj).

(** [#onBPHChildRemoved(snapshot)] on the ledger fields. *)
Definition onBPHChildRemoved (key : option string) (l : Ledger)
  : Ledger * list effect :=
  match key with
  | None => (l, [])
  | Some key =>
      if negb (hasProperty key (bph l)) then (l, [])
      else
        let lastBPH' := minus (lastBPH l) (changeAt key (bph l)) in
        let bph' := propDelete key (bph l) in
        match propGet key (bphRemoveTimeouts l) with
        | Some _ =>
            ({| bph := bph'; lastBPH := lastBPH';
                bphRemoveTimeouts :=
                  propDelete key (bphRemoveTimeouts l) |},
             [ClearRemoveTimeout key])
        | None =>
            ({| bph := bph'; lastBPH := lastBPH';
                bphRemoveTimeouts := bphRemoveTimeouts l |}, [])
        end
  end.

(** [lastBPH] is the sum of the changes in the mirror. *)
Definition consistent (l : Ledger) : Prop :=
  lastBPH l = Num (sumOfChange (bph l)).

End JSLedger.

(** The ledger fields of a session. *)
Definition ledgerOf (s : Session) : JSLedger.Ledger :=
  {| JSLedger.bph := bph s;
     JSLedger.lastBPH := JSLedger.Num (lastBPH s);
     JSLedger.bphRemoveTimeouts := bphRemoveTimeouts s |}.

(** The session after the store reported the entry [-k1] of change 3 and
    then a child [toString] that is no entry, whose removal the handler
    requested. *)
Definition sessionBeforeRemoval : Session :=
  fst (run [EvBPHChildAdded (Some "-k1") (JArr [JNum 1801000; JNum 3]) 500;
            EvBPHChildAdded (Some "toString") (JStr "bad") 600]
           (initSession "cQ" 42)).

(* ================================================================= *)
(** ** The janitor *)

Section JanitorFacts.
Import Janitor.
Variable now : Z.

Lemma sweepEntries_malformed_returns (cleintId : string) :
  forall entries toRemove,
    existsb (fun kv => negb (isValidBPHEntry (snd kv))) entries = true ->
    exists left, sweepEntries now cleintId entries toRemove = Returned left.
Proof.
  induction entries as [|[key value] rest IH]; intros toRemove Hbad.
  - discriminate.
  - cbn [existsb snd] in Hbad. cbn [sweepEntries].
    destruct (negb (isValidBPHEntry value)) eqn:Hvalid.
    + eexists. reflexivity.
    + cbn [orb] in Hbad.
      destruct (_ <? now); apply IH; exact Hbad.
Qed.

Lemma sweepClients_malformed_returns :
  forall clients toRemove,
    existsb hasMalformedEntry clients = true ->
    exists left, sweepClients now clients toRemove = Returned left.
Proof.
  induction clients as [|[cleintId bphEntries] rest IH]; intros toRemove Hbad.
  - discriminate.
  - cbn [existsb] in Hbad. apply orb_true_iff in Hbad.
    destruct bphEntries as [| | | |items|entries];
      try (destruct Hbad as [Hbad|Hbad]; [discriminate|];
           cbn [sweepClients]; apply IH; exact Hbad).
    cbn [sweepClients].
    destruct (sweepEntries now cleintId entries toRemove) as [next|left] eqn:Hsweep.
    + destruct Hbad as [Hbad|Hbad].
      * unfold hasMalformedEntry in Hbad. cbn [snd] in Hbad.
        destruct (sweepEntries_malformed_returns cleintId entries toRemove Hbad)
          as [left Hleft].
        congruence.
      * apply IH; exact Hbad.
    + eexists. reflexivity.
Qed.

(** Whenever some client map holds a malformed entry, [handleCron]
    returns from inside the loop and removes nothing at all. *)
Lemma handleCron_malformed_removes_nothing (clients : list (string * json)) :
  existsb hasMalformedEntry clients = true ->
  handleCron (JObj clients) now = [OpDeleteApp].
Proof.
  intros Hbad. unfold handleCron.
  destruct (sweepClients_malformed_returns clients [] Hbad) as [left ->].
  reflexivity.
Qed.
End JanitorFacts.

(** C2 (the code departs from it).  The claim: on a malformed entry the
    janitor schedules its key and continues, so the stale entries of the
    remaining keys and clients are still collected and all removals are
    issued.  The code, on [rootWithMalformedEntry] at [now = 10_000_000]:
    the sweep pushes the malformed key and then returns from [handleCron];
    no removal is issued, neither for the malformed key nor for the stale
    entries [-k2] and [-k3], which the same sweep removes once the malformed
    entry is gone. *)
Theorem handleCron_malformed_entry_aborts_sweep :
  Janitor.sweepClients 10000000 clientsWithMalformedEntry []
    = Janitor.Returned ["boops-per-hour/cA/-k1"]
  /\ Janitor.handleCron rootWithMalformedEntry 10000000 = [Janitor.OpDeleteApp]
  /\ Janitor.removals (Janitor.handleCron rootWithMalformedEntry 10000000) = []
  /\ Janitor.removals (Janitor.handleCron rootWithoutMalformedEntry 10000000)
     = ["boops-per-hour/cA/-k2"; "boops-per-hour/cB/-k3"].
Proof. repeat split; vm_compute; reflexivity. Qed.

(* ================================================================= *)
(** ** Objects as association lists *)

Section PropFacts.
Context {V : Type}.
Implicit Types (obj : list (string * V)) (key : string).

Lemma propIn_In key obj : propIn key obj = true <-> In key (keysOf obj).
Proof.
  induction obj as [|[k v] rest IH]; cbn [propIn keysOf map fst In].
  - split; [discriminate|tauto].
  - destruct (String.eqb_spec key k) as [->|Hne].
    + split; auto.
    + rewrite IH. unfold keysOf. split; [auto|intros [Heq|Hin]; congruence].
Qed.

Lemma propIn_false_notin key obj :
  propIn key obj = false <-> ~ In key (keysOf obj).
Proof.
  rewrite <- propIn_In. destruct (propIn key obj); split; congruence.
Qed.

Lemma propGet_propIn key obj :
  propIn key obj = true -> exists v, propGet key obj = Some v.
Proof.
  induction obj as [|[k v] rest IH]; cbn [propIn propGet]; [discriminate|].
  destruct (String.eqb key k); eauto.
Qed.

Lemma propSet_new key val obj :
  propIn key obj = false -> propSet key val obj = (obj ++ [(key, val)])%list.
Proof.
  induction obj as [|[k v] rest IH]; cbn [propIn propSet app]; [reflexivity|].
  destruct (String.eqb key k); [discriminate|].
  intros Hrest. rewrite IH by exact Hrest. reflexivity.
Qed.

Lemma keysOf_propSet_old key val obj :
  propIn key obj = true -> keysOf (propSet key val obj) = keysOf obj.
Proof.
  induction obj as [|[k v] rest IH]; cbn [propIn propSet]; [discriminate|].
  destruct (String.eqb key k); [reflexivity|].
  intros Hrest. unfold keysOf in *. cbn [map fst]. rewrite IH by exact Hrest.
  reflexivity.
Qed.

Lemma keysOf_propDelete_incl key obj :
  incl (keysOf (propDelete key obj)) (keysOf obj).
Proof.
  induction obj as [|[k v] rest IH]; cbn [propDelete]; [apply incl_refl|].
  destruct (String.eqb key k).
  - apply incl_tl, incl_refl.
  - unfold keysOf in *. cbn [map fst].
    apply incl_cons; [left; reflexivity|apply incl_tl, IH].
Qed.

Lemma NoDup_propDelete key obj :
  NoDup (keysOf obj) -> NoDup (keysOf (propDelete key obj)).
Proof.
  induction obj as [|[k v] rest IH]; cbn [propDelete]; [auto|].
  unfold keysOf in *. cbn [map fst]. intros Hnd.
  apply NoDup_cons_iff in Hnd as [Hnotin Hnd].
  destruct (String.eqb key k); [exact Hnd|].
  cbn [map fst]. apply NoDup_cons; [|apply IH, Hnd].
  intros Hin. apply Hnotin. exact (keysOf_propDelete_incl key rest k Hin).
Qed.

Lemma propIn_propDelete key obj :
  NoDup (keysOf obj) -> propIn key (propDelete key obj) = false.
Proof.
  induction obj as [|[k v] rest IH]; cbn [propDelete]; [reflexivity|].
  unfold keysOf in *. cbn [map fst]. intros Hnd.
  apply NoDup_cons_iff in Hnd as [Hnotin Hnd].
  destruct (String.eqb_spec key k) as [->|Hne].
  - apply propIn_false_notin. exact Hnotin.
  - cbn [propIn]. destruct (String.eqb_spec key k); [congruence|].
    apply IH, Hnd.
Qed.

Lemma NoDup_propSet key val obj :
  NoDup (keysOf obj) -> NoDup (keysOf (propSet key val obj)).
Proof.
  intros Hnd. destruct (propIn key obj) eqn:Hin.
  - rewrite keysOf_propSet_old by exact Hin. exact Hnd.
  - rewrite propSet_new by exact Hin. unfold keysOf in *.
    rewrite map_app. cbn [map fst].
    apply NoDup_app; [exact Hnd|repeat constructor; intros []|].
    intros k Hk [<-|[]]. apply propIn_false_notin in Hin. exact (Hin Hk).
Qed.
End PropFacts.

(* ================================================================= *)
(** ** The BPH ledger *)

Lemma sumOfChange_app (m1 m2 : list (string * BPHEntry)) :
  sumOfChange (m1 ++ m2) = sumOfChange m1 + sumOfChange m2.
Proof.
  unfold sumOfChange.
  induction m1 as [|kv rest IH]; cbn [app fold_right]; lia.
Qed.

Lemma sumOfChange_propDelete (key : string) (m : list (string * BPHEntry)) :
  propIn key m = true ->
  sumOfChange (propDelete key m) = sumOfChange m - changeOf (entryAt m key).
Proof.
  unfold entryAt, sumOfChange.
  induction m as [|[k v] rest IH]; cbn [propIn propDelete propGet];
    [discriminate|].
  destruct (String.eqb key k).
  - intros _. cbn [fold_right snd]. lia.
  - intros Hin. cbn [fold_right snd]. rewrite IH by exact Hin. lia.
Qed.

(** *** What the shared helpers leave alone *)

Ltac unfold_setters :=
  unfold set_wsOpen, set_lastGBC, set_lastGBCSync, set_unsyncedGBC,
    set_gbcSyncInterwalWarningShown, set_gbcSyncPromise, set_bph,
    set_lastBPH, set_unsyncedBPH, set_cooldownUntil, set_cooldownFails,
    set_bpmBoops, set_bphRemoveTimeouts; cbn.

Lemma set_bpmBoops_same (s : Session) : set_bpmBoops (bpmBoops s) s = s.
Proof. destruct s; reflexivity. Qed.

Lemma gbc_fields_same (s : Session) :
  set_gbcSyncPromise (gbcSyncPromise s)
    (set_lastGBC (lastGBC s)
       (set_unsyncedGBC (unsyncedGBC s) (set_lastGBCSync (lastGBCSync s) s)))
  = s.
Proof. destruct s; reflexivity. Qed.

Lemma getCooldown_cases (now : Z) (s : Session) :
  exists cooldown window,
    getCooldown now s = (cooldown, set_bpmBoops window s).
Proof.
  unfold getCooldown.
  destruct (BPH_LIMIT <=? lastBPH s + unsyncedBPH s).
  - destruct (virtuallyRemove (bph s) _ _ _) as [virtualBPH soonest].
    eexists. exists (bpmBoops s). rewrite set_bpmBoops_same. reflexivity.
  - destruct (BPM_LIMIT <=? Z.of_nat (List.length (bpmBoops s)));
      [destruct (ONE_MINUTE <=? now - nth 0 (bpmBoops s) 0)|].
    + eexists. eexists. reflexivity.
    + eexists. exists (bpmBoops s). rewrite set_bpmBoops_same. reflexivity.
    + eexists. exists (bpmBoops s). rewrite set_bpmBoops_same. reflexivity.
Qed.

Lemma gbcSync_cases (now : option Z) (finalSync : bool) (clock : Z)
    (s : Session) :
  exists returned syncedAt unsynced last pending effects,
    gbcSync now finalSync clock s
    = (returned,
       set_gbcSyncPromise pending
         (set_lastGBC last (set_unsyncedGBC unsynced (set_lastGBCSync syncedAt s))),
       effects).
Proof.
  unfold gbcSync.
  destruct (gbcSyncPromise s) as [captured|] eqn:Hpending.
  - exists (PromisePending captured), (lastGBCSync s), (unsyncedGBC s),
      (lastGBC s), (gbcSyncPromise s), [].
    rewrite gbc_fields_same. reflexivity.
  - cbv zeta.
    destruct (finalSync
              || (GBC_SYNC_INTERVAL <=? orDateNow now clock - lastGBCSync s)).
    + cbn [unsyncedGBC set_lastGBCSync lastGBC set_unsyncedGBC].
      destruct (negb (unsyncedGBC s =? 0)).
      * do 6 eexists. reflexivity.
      * exists PromiseResolved, (orDateNow now clock), (unsyncedGBC s),
          (lastGBC s), (gbcSyncPromise s), [ResetGBCSyncTimeout].
        destruct s; reflexivity.
    + exists PromiseResolved, (lastGBCSync s), (unsyncedGBC s),
        (lastGBC s), (gbcSyncPromise s), [ResetGBCSyncTimeout].
      rewrite gbc_fields_same. reflexivity.
Qed.

Ltac normalize_helpers :=
  repeat match goal with
    | |- context [getCooldown ?now ?s] =>
        let cooldown := fresh "cooldown" in
        let window := fresh "window" in
        let E := fresh "Hcooldown" in
        destruct (getCooldown_cases now s) as (cooldown & window & E);
        rewrite E; clear E
    | |- context [gbcSync ?now ?final ?clock ?s] =>
        let E := fresh "Hsync" in
        destruct (gbcSync_cases now final clock s)
          as (? & ? & ? & ? & ? & ? & E);
        rewrite E; clear E
    end.

Ltac break_conditions :=
  repeat match goal with
    | |- context [if ?b then _ else _] => destruct b
    end.

(** Only the two child events touch the mirror and [lastBPH]. *)
Lemma step_ledger_frame (e : event) (s : Session) :
  match e with
  | EvBPHChildAdded _ _ _ | EvBPHChildRemoved _ => True
  | _ => bph (fst (step e s)) = bph s /\ lastBPH (fst (step e s)) = lastBPH s
  end.
Proof.
  destruct e; cbn [step]; try exact I;
    unfold onBoop, onBoopFresh, onCooldownQuery, onCooldownQueryFresh,
      gbcSyncSettled, onGBCChange, syncBPH, syncBPHFailed, onRemoveTimeout;
    try match goal with
      | |- context [match gbcSyncPromise ?s with _ => _ end] =>
          destruct (gbcSyncPromise s) as [[? ?]|]
      | |- context [match ?v with JNull => _ | _ => _ end] => destruct v
      end;
    break_conditions; normalize_helpers; cbn; break_conditions;
    split; reflexivity.
Qed.

(** Every mirror mutation keeps the property names distinct. *)
Lemma mirrorWF_step (e : event) (s : Session) :
  mirrorWF s -> mirrorWF (fst (step e s)).
Proof.
  unfold mirrorWF. intros Hwf.
  pose proof (step_ledger_frame e s) as Hframe.
  destruct e;
    try (match type of Hframe with
         | _ /\ _ => destruct Hframe as [Hbph _]; rewrite Hbph; exact Hwf
         end);
    cbn [step].
  - unfold onBPHChildAdded. destruct key as [key|]; [|exact Hwf].
    destruct (negb _); [exact Hwf|]. cbn. apply NoDup_propSet, Hwf.
  - unfold onBPHChildRemoved. destruct key as [key|]; [|exact Hwf].
    destruct (negb _); [exact Hwf|]. cbn.
    destruct (propGet _ _); cbn; apply NoDup_propDelete, Hwf.
Qed.

(** C6.  [syncBPH] does nothing when [unsyncedBPH] is 0, however often it
    is invoked; otherwise it zeroes [unsyncedBPH] and pushes
    [[now + 3_600_000, change]] with [change] the value [unsyncedBPH] had.
    When the push fails, [change] is added back: right after the sync this
    restores the session as it was, and in any later state it adds exactly
    [change] to [unsyncedBPH] and touches nothing else. *)
Theorem syncBPH_snapshot_and_restore (now : Z) (s : Session) :
  (unsyncedBPH s = 0 ->
     syncBPH now s = (s, [])
     /\ forall clocks, run (map EvSyncBPHInterval clocks) s = (s, []))
  /\ (unsyncedBPH s <> 0 ->
        let change := unsyncedBPH s in
        syncBPH now s
          = (set_unsyncedBPH 0 s, [StorePush (now + 3600000) change])
        /\ syncBPHFailed change (fst (syncBPH now s)) = (s, [])
        /\ forall later : Session,
             syncBPHFailed change later
               = (set_unsyncedBPH (unsyncedBPH later + change) later, [])).
Proof.
  split.
  - intros Hzero.
    assert (Hsync : forall clock, syncBPH clock s = (s, [])).
    { intros clock. unfold syncBPH. rewrite Hzero. reflexivity. }
    split; [apply Hsync|].
    induction clocks as [|clock rest IH]; [reflexivity|].
    cbn [map run step]. rewrite Hsync, IH. reflexivity.
  - intros Hpos change.
    assert (Hsync : syncBPH now s
                    = (set_unsyncedBPH 0 s, [StorePush (now + 3600000) change])).
    { unfold syncBPH. destruct (Z.eqb_spec (unsyncedBPH s) 0); [contradiction|].
      reflexivity. }
    split; [exact Hsync|]. split; [|reflexivity].
    rewrite Hsync. unfold syncBPHFailed, change. destruct s; reflexivity.
Qed.

(** X20.  On plain keys [lastBPH = Σ change over the mirror] is kept by
    every mirror mutation: child-added of a valid entry under a new plain
    key appends the entry and adds its change; child-removed of a plain key
    the mirror holds subtracts the change of that entry and deletes it;
    child-added of an invalid entry (or with a null key) and child-removed
    of a plain key the mirror lacks (or of a null key) leave the session as
    it is. *)
Theorem ledger_sum_preserved_on_plain_keys (s : Session) :
  ledgerConsistent s ->
  mirrorWF s ->
  (forall key val clock,
      plainKey key = true ->
      isValidBPHEntry val = true -> propIn key (bph s) = false ->
      let s' := fst (onBPHChildAdded (Some key) val clock s) in
      bph s' = (bph s ++ [(key, bphEntryOf val)])%list
      /\ lastBPH s' = lastBPH s + changeOf (bphEntryOf val)
      /\ ledgerConsistent s' /\ mirrorWF s')
  /\ (forall key,
        plainKey key = true ->
        propIn key (bph s) = true ->
        let s' := fst (onBPHChildRemoved (Some key) s) in
        bph s' = propDelete key (bph s)
        /\ propIn key (bph s') = false
        /\ lastBPH s' = lastBPH s - changeOf (entryAt (bph s) key)
        /\ ledgerConsistent s' /\ mirrorWF s')
  /\ (forall key val clock,
        key = None \/ isValidBPHEntry val = false ->
        fst (onBPHChildAdded key val clock s) = s)
  /\ (forall key,
        key = None
        \/ (exists k, key = Some k /\ plainKey k = true
                      /\ propIn k (bph s) = false) ->
        onBPHChildRemoved key s = (s, [])).
Proof.
  unfold ledgerConsistent. intros Hsum Hwf.
  split; [|split; [|split]].
  - intros key val clock _ Hvalid Hnew. cbv zeta.
    unfold onBPHChildAdded. rewrite Hvalid. cbn.
    rewrite propSet_new by exact Hnew.
    split; [reflexivity|]. split; [reflexivity|].
    split; [rewrite sumOfChange_app, Hsum; cbn; lia|].
    pose proof (mirrorWF_step (EvBPHChildAdded (Some key) val clock) s Hwf)
      as Hwf'.
    unfold mirrorWF in *. cbn [step] in Hwf'. unfold onBPHChildAdded in Hwf'.
    rewrite Hvalid in Hwf'. cbn in Hwf'.
    rewrite propSet_new in Hwf' by exact Hnew. exact Hwf'.
  - intros key _ Hin. cbv zeta.
    pose proof (mirrorWF_step (EvBPHChildRemoved (Some key)) s Hwf) as Hwf'.
    cbn [step] in Hwf'. revert Hwf'.
    unfold onBPHChildRemoved. rewrite Hin. cbn.
    destruct (propGet _ _); cbn; intros Hwf';
      (split; [reflexivity|]);
      (split; [apply propIn_propDelete, Hwf|]);
      (split; [reflexivity|]);
      (split; [rewrite sumOfChange_propDelete by exact Hin; lia|exact Hwf']).
  - intros key val clock [->|Hbad]; [reflexivity|].
    unfold onBPHChildAdded. destruct key; [|reflexivity].
    rewrite Hbad. reflexivity.
  - intros key [->|[k (-> & _ & Hnew)]]; [reflexivity|].
    unfold onBPHChildRemoved. rewrite Hnew. reflexivity.
Qed.

(** Witness of C6: in a fresh session the sync does nothing; after one
    admitted boop it pushes [[now + 3_600_000, 1]], and a failure of that
    push brings the session back. *)
Lemma syncBPH_snapshot_and_restore_witness :
  syncBPH 61000 freshSession = (freshSession, [])
  /\ snd (syncBPH 61000 oneBoopSession) = [StorePush 3661000 1]
  /\ unsyncedBPH (fst (syncBPH 61000 oneBoopSession)) = 0
  /\ syncBPHFailed 1 (fst (syncBPH 61000 oneBoopSession))
     = (oneBoopSession, []).
Proof.
  pose proof (proj1 (syncBPH_snapshot_and_restore 61000 freshSession)
                eq_refl) as [Hnoop _].
  assert (Hone : unsyncedBPH oneBoopSession <> 0)
    by (vm_compute; discriminate).
  pose proof (proj2 (syncBPH_snapshot_and_restore 61000 oneBoopSession)
                Hone) as (Hpush & Hrestore & _).
  split; [exact Hnoop|].
  split; [rewrite Hpush; reflexivity|].
  split; [rewrite Hpush; reflexivity|].
  exact Hrestore.
Defined.

(** Witness of X20: [saturatedSession] mirrors the one entry [-k1] of
    change 10_000.  A valid entry [-k2] of change 7 makes the sum 10_007,
    the removal of [-k1] makes it 0, and an invalid entry or the removal of
    the unknown [-k9] changes nothing. *)
Lemma ledger_sum_preserved_on_plain_keys_witness :
  ledgerConsistent saturatedSession
  /\ mirrorWF saturatedSession
  /\ lastBPH (fst (onBPHChildAdded (Some "-k2")
                     (JArr [JNum 1900000; JNum 7]) 600 saturatedSession))
     = 10000 + 7
  /\ lastBPH (fst (onBPHChildRemoved (Some "-k1") saturatedSession))
     = 10000 - 10000
  /\ fst (onBPHChildAdded (Some "-k3") (JStr "bad") 600 saturatedSession)
     = saturatedSession
  /\ onBPHChildRemoved (Some "-k9") saturatedSession = (saturatedSession, []).
Proof.
  assert (Hsum : ledgerConsistent saturatedSession) by reflexivity.
  assert (Hwf : mirrorWF saturatedSession).
  { unfold mirrorWF. vm_compute. repeat constructor. intros []. }
  destruct (ledger_sum_preserved_on_plain_keys saturatedSession Hsum Hwf)
    as (Hadded & Hremoved & Hinvalid & Hunknown).
  split; [exact Hsum|]. split; [exact Hwf|].
  split; [exact (proj1 (proj2 (Hadded "-k2" (JArr [JNum 1900000; JNum 7]) 600
                                 eq_refl eq_refl eq_refl)))|].
  split; [exact (proj1 (proj2 (proj2 (Hremoved "-k1" eq_refl eq_refl))))|].
  split; [exact (Hinvalid (Some "-k3") (JStr "bad") 600 (or_intror eq_refl))|].
  apply Hunknown. right. exists "-k9". repeat split.
Defined.

(** Outside these cases: a second child-added for a key the mirror
    already holds overwrites the entry and still adds the new change, so
    the old change stays in [lastBPH].  The store reports a child once, so
    the session does not meet this case through its own subscription. *)
Remark onBPHChildAdded_known_key_adds_again :
  let s' := fst (onBPHChildAdded (Some "-k1")
                   (JArr [JNum 1801000; JNum 3]) 600 saturatedSession) in
  bph s' = [("-k1", (1801000, 3))]
  /\ lastBPH s' = 10003
  /\ sumOfChange (bph s') = 3.
Proof. repeat split; vm_compute; reflexivity. Qed.

(* ================================================================= *)
(** ** The mirror as a JavaScript object *)

(** On a name that is not inherited, [in] is the test for an own
    property. *)
Lemma hasProperty_own (key : string) (obj : list (string * BPHEntry)) :
  inheritedName key = false ->
  JSLedger.hasProperty key obj = propIn key obj.
Proof.
  intros Hown. unfold JSLedger.hasProperty. rewrite Hown. apply orb_false_r.
Qed.

Lemma plainKey_own (key : string) :
  plainKey key = true -> inheritedName key = false.
Proof.
  unfold plainKey. intros Hplain. apply andb_true_iff in Hplain as [Hown _].
  destruct (inheritedName key); [discriminate|reflexivity].
Qed.

(** An own entry is read as the handler of the session reads it. *)
Lemma changeAt_own (key : string) (obj : list (string * BPHEntry)) :
  propIn key obj = true ->
  JSLedger.changeAt key obj = Some (changeOf (entryAt obj key)).
Proof.
  intros Hin. unfold JSLedger.changeAt, entryAt.
  destruct (propGet_propIn key obj Hin) as [entry ->]. reflexivity.
Qed.

(** On keys that are not inherited names, the removal handler of the
    session is the handler of the object. *)
Lemma onBPHChildRemoved_agrees (key : option string) (s : Session) :
  (forall k, key = Some k -> inheritedName k = false) ->
  JSLedger.onBPHChildRemoved key (ledgerOf s)
  = (ledgerOf (fst (onBPHChildRemoved key s)),
     snd (onBPHChildRemoved key s)).
Proof.
  intros Hown. destruct key as [key|]; [|reflexivity].
  specialize (Hown key eq_refl).
  unfold JSLedger.onBPHChildRemoved, onBPHChildRemoved.
  cbn [JSLedger.bph JSLedger.lastBPH JSLedger.bphRemoveTimeouts ledgerOf].
  rewrite hasProperty_own by exact Hown.
  destruct (propIn key (bph s)) eqn:Hin; cbn [negb]; [|reflexivity].
  rewrite changeAt_own by exact Hin. cbn.
  destruct (propGet key (bphRemoveTimeouts s)); reflexivity.
Qed.

(** C7 (the code departs from it).  The claim: child-removed of an unknown
    key leaves the mirror and [lastBPH] unchanged, so that
    [lastBPH = Σ change] is kept.  The code, on [sessionBeforeRemoval]:
    the store had reported a child [toString] that is no entry, which the
    handler did not mirror and asked to be removed.  When the store then
    reports that child as removed, [toString] is unknown to the mirror,
    yet [key in this.#bph] is true of it, the name being inherited from
    [Object.prototype]; the handler subtracts the [undefined] it reads
    under [BPH_CHANGE], and [lastBPH] is [NaN] from then on while the
    mirror still sums to 3.  The removal of the unknown plain key [-k9]
    leaves the ledger as it is, as the claim says. *)
Theorem onBPHChildRemoved_inherited_key_breaks_ledger :
  let before :=
    fst (run [EvBPHChildAdded (Some "-k1") (JArr [JNum 1801000; JNum 3]) 500]
             (initSession "cQ" 42)) in
  let s := sessionBeforeRemoval in
  onBPHChildAdded (Some "toString") (JStr "bad") 600 before
  = (s, [StoreRemove "boops-per-hour/cQ/toString"])
  /\ s = before
  /\ bph s = [("-k1", (1801000, 3))]
  /\ JSLedger.consistent (ledgerOf s)
  /\ propIn "toString" (bph s) = false
  /\ JSLedger.hasProperty "toString" (bph s) = true
  /\ JSLedger.onBPHChildRemoved (Some "toString") (ledgerOf s)
     = ({| JSLedger.bph := [("-k1", (1801000, 3))];
           JSLedger.lastBPH := JSLedger.NaN;
           JSLedger.bphRemoveTimeouts := [("-k1", 1800500)] |}, [])
  /\ ~ JSLedger.consistent
         (fst (JSLedger.onBPHChildRemoved (Some "toString") (ledgerOf s)))
  /\ JSLedger.onBPHChildRemoved (Some "-k9") (ledgerOf s) = (ledgerOf s, []).
Proof.
  cbv zeta. unfold JSLedger.consistent.
  repeat split; try (vm_compute; reflexivity).
  vm_compute. discriminate.
Qed.

(* ================================================================= *)
(** ** The rate limiter *)

(** *** The sort of [#getCooldown] *)

Section SortFacts.
Variable m : list (string * BPHEntry).

Lemma insertSorted_perm (a : string) (sorted : list string) :
  Permutation (insertSorted (byValidUntil m) a sorted) (a :: sorted).
Proof.
  induction sorted as [|b rest IH]; cbn [insertSorted]; [reflexivity|].
  destruct (_ <=? 0); [reflexivity|].
  rewrite IH. apply perm_swap.
Qed.

Lemma sort_perm (keys : list string) :
  Permutation (sort (byValidUntil m) keys) keys.
Proof.
  induction keys as [|a rest IH]; cbn [sort fold_right]; [reflexivity|].
  fold (sort (byValidUntil m) rest).
  rewrite insertSorted_perm, IH. reflexivity.
Qed.

Lemma insertSorted_sorted (a : string) (sorted : list string) :
  StronglySorted (validUntilLe m) sorted ->
  StronglySorted (validUntilLe m) (insertSorted (byValidUntil m) a sorted).
Proof.
  induction sorted as [|b rest IH]; intros Hsorted; cbn [insertSorted].
  - repeat constructor.
  - apply StronglySorted_inv in Hsorted as [Hrest Hb].
    destruct (Z.leb_spec (byValidUntil m a b) 0) as [Hle|Hgt];
      unfold byValidUntil in *.
    + constructor; [constructor; assumption|].
      constructor; [unfold validUntilLe; lia|].
      eapply Forall_impl; [|exact Hb].
      unfold validUntilLe. intros c Hc. lia.
    + constructor; [apply IH, Hrest|].
      eapply Permutation_Forall;
        [symmetry; apply insertSorted_perm|].
      constructor; [unfold validUntilLe; lia|exact Hb].
Qed.

Lemma sort_sorted (keys : list string) :
  StronglySorted (validUntilLe m) (sort (byValidUntil m) keys).
Proof.
  induction keys as [|a rest IH]; cbn [sort fold_right]; [constructor|].
  apply insertSorted_sorted, IH.
Qed.
End SortFacts.

(** *** The walk of [#getCooldown] *)

Lemma removedChange_cons (m : list (string * BPHEntry)) (key : string)
    (rest : list string) (n : nat) :
  removedChange m (key :: rest) (S n)
  = changeOf (entryAt m key) + removedChange m rest n.
Proof. reflexivity. Qed.

Lemma removedChange_0 (m : list (string * BPHEntry)) (keys : list string) :
  removedChange m keys 0 = 0.
Proof. reflexivity. Qed.

(** The loop stops at the first key where the virtual sum drops below the
    limit, or runs through all keys without dropping below it. *)
Lemma virtuallyRemove_spec (m : list (string * BPHEntry)) :
  forall keys virtualBPH start,
    let result := virtuallyRemove m keys virtualBPH start in
    (fst result < BPH_LIMIT
     /\ exists n key,
          nth_error keys n = Some key
          /\ snd result = validUntilOf (entryAt m key)
          /\ virtualBPH - removedChange m keys (S n) < BPH_LIMIT
          /\ forall i, (i < n)%nat ->
               BPH_LIMIT <= virtualBPH - removedChange m keys (S i))
    \/ (BPH_LIMIT <= virtualBPH -> BPH_LIMIT <= fst result)
       /\ (forall i, (i < List.length keys)%nat ->
             BPH_LIMIT <= virtualBPH - removedChange m keys (S i))
       /\ (keys <> [] -> BPH_LIMIT <= fst result).
Proof.
  induction keys as [|key rest IH]; intros virtualBPH start; cbn zeta.
  - right. cbn [virtuallyRemove fst List.length]. repeat split.
    + auto.
    + intros i Hi. inversion Hi.
    + congruence.
  - cbn [virtuallyRemove]. cbv zeta.
    destruct (Z.ltb_spec (virtualBPH - changeOf (entryAt m key)) BPH_LIMIT)
      as [Hbelow|Hstill].
    + left. cbn [fst snd]. split; [exact Hbelow|].
      exists 0%nat, key. repeat split.
      * rewrite removedChange_cons, removedChange_0. lia.
      * intros i Hi. inversion Hi.
    + specialize (IH (virtualBPH - changeOf (entryAt m key))
                     (validUntilOf (entryAt m key))).
      cbv zeta in IH.
      destruct IH as [[Hlt (n & k & Hnth & Hsoon & Hdrop & Hbefore)]
                     |(Hkeep & Hall & Hne)].
      * left. split; [exact Hlt|].
        exists (S n), k. repeat split; try assumption.
        -- rewrite removedChange_cons. lia.
        -- intros [|i] Hi.
           ++ rewrite removedChange_cons, removedChange_0. lia.
           ++ rewrite removedChange_cons.
              specialize (Hbefore i ltac:(lia)). lia.
      * right. repeat split.
        -- intros _. apply Hkeep, Hstill.
        -- intros [|i] Hi.
           ++ rewrite removedChange_cons, removedChange_0. lia.
           ++ rewrite removedChange_cons. cbn [List.length] in Hi.
              specialize (Hall i ltac:(lia)). lia.
        -- intros _. apply Hkeep, Hstill.
Qed.

(** [Soonest] determines its result. *)
Lemma Soonest_unique (m : list (string * BPHEntry)) (keys : list string)
    (virtualBPH now t1 t2 : Z) :
  Soonest m keys virtualBPH now t1 -> Soonest m keys virtualBPH now t2 ->
  t1 = t2.
Proof.
  intros [n1 k1 Hnth1 Hdrop1 Hbefore1|Hnever1]
         [n2 k2 Hnth2 Hdrop2 Hbefore2|Hnever2].
  - destruct (Nat.lt_trichotomy n1 n2) as [Hlt|[Heq|Hgt]].
    + specialize (Hbefore2 n1 Hlt). lia.
    + subst. congruence.
    + specialize (Hbefore1 n2 Hgt). lia.
  - assert (Hlen : (n1 < List.length keys)%nat)
      by (apply nth_error_Some; congruence).
    specialize (Hnever2 (S n1) ltac:(lia)). lia.
  - assert (Hlen : (n2 < List.length keys)%nat)
      by (apply nth_error_Some; congruence).
    specialize (Hnever1 (S n2) ltac:(lia)). lia.
  - reflexivity.
Qed.

(** The saturated branch of [#getCooldown], in terms of [Soonest]. *)
Lemma getCooldown_saturated (now : Z) (s : Session) :
  bphSaturated s ->
  exists soonest,
    Soonest (bph s) (sort (byValidUntil (bph s)) (keysOf (bph s)))
            (lastBPH s + unsyncedBPH s) now soonest
    /\ getCooldown now s = (now + Z.max 0 (soonest - now), s).
Proof.
  unfold bphSaturated. intros Hsat. unfold getCooldown.
  destruct (Z.leb_spec BPH_LIMIT (lastBPH s + unsyncedBPH s)) as [_|Hno];
    [|lia].
  pose proof (virtuallyRemove_spec (bph s)
                (sort (byValidUntil (bph s)) (keysOf (bph s)))
                (lastBPH s + unsyncedBPH s) 0) as Hwalk.
  cbv zeta in Hwalk.
  destruct (virtuallyRemove _ _ _ _) as [virtualBPH soonest].
  cbn [fst snd] in Hwalk.
  destruct Hwalk as [[Hlt (n & key & Hnth & Hsoon & Hdrop & Hbefore)]
                    |(Hkeep & Hall & _)].
  - exists soonest. split.
    + subst soonest. econstructor; eassumption.
    + destruct (Z.leb_spec BPH_LIMIT virtualBPH); [lia|reflexivity].
  - exists (now + ONE_HOUR). split.
    + apply SoonestInAnHour. intros [|i] Hi.
      * rewrite removedChange_0. lia.
      * apply Hall. lia.
    + specialize (Hkeep Hsat).
      destruct (Z.leb_spec BPH_LIMIT virtualBPH); [reflexivity|lia].
Qed.

(** The minute-window branch of [#getCooldown]. *)
Lemma getCooldown_minute_window (now : Z) (s : Session) :
  ~ bphSaturated s ->
  BPM_LIMIT <= Z.of_nat (List.length (bpmBoops s)) ->
  getCooldown now s
  = if ONE_MINUTE <=? now - nth 0 (bpmBoops s) 0
    then (0, set_bpmBoops
               (filter (fun t => now - t <? ONE_MINUTE) (bpmBoops s)) s)
    else (now + Z.max 0 (ONE_MINUTE - (now - nth 0 (bpmBoops s) 0)), s).
Proof.
  unfold bphSaturated. intros Hfree Hfull. unfold getCooldown.
  destruct (Z.leb_spec BPH_LIMIT (lastBPH s + unsyncedBPH s)); [lia|].
  destruct (Z.leb_spec BPM_LIMIT (Z.of_nat (List.length (bpmBoops s))));
    [reflexivity|lia].
Qed.

(** Below both limits nothing is computed. *)
Lemma getCooldown_below_limits (now : Z) (s : Session) :
  ~ bphSaturated s ->
  Z.of_nat (List.length (bpmBoops s)) < BPM_LIMIT ->
  getCooldown now s = (0, s).
Proof.
  unfold bphSaturated. intros Hfree Hroom. unfold getCooldown.
  destruct (Z.leb_spec BPH_LIMIT (lastBPH s + unsyncedBPH s)); [lia|].
  destruct (Z.leb_spec BPM_LIMIT (Z.of_nat (List.length (bpmBoops s))));
    [lia|reflexivity].
Qed.

(** C1, as the code has it.  [getCooldown(now)] returns a point in time,
    not a duration (0 still means admit): with a saturated hourly ledger
    it is [now + max(0, soonest - now)], where [soonest] is the
    [validUntil] of the entry at which the walk over the entries, ascending
    by [validUntil], first brings the virtual sum below [BPH_LIMIT], or
    [now + 3_600_000] if it never does; with only the minute window full
    and its oldest entry younger than a minute it is
    [now + (60_000 - (now - oldest))].  The session is left as it was.
    The boop handler stores a nonzero result in [cooldownUntil] and sends
    its distance from [now] in the reject frame. *)
Theorem getCooldown_returns_timestamp (now : Z) (s : Session) :
  (bphSaturated s ->
     let keys := sort (byValidUntil (bph s)) (keysOf (bph s)) in
     Permutation keys (keysOf (bph s))
     /\ StronglySorted (validUntilLe (bph s)) keys
     /\ exists soonest,
          Soonest (bph s) keys (lastBPH s + unsyncedBPH s) now soonest
          /\ getCooldown now s = (now + Z.max 0 (soonest - now), s))
  /\ (~ bphSaturated s ->
      BPM_LIMIT <= Z.of_nat (List.length (bpmBoops s)) ->
      forall oldest,
        hd_error (bpmBoops s) = Some oldest ->
        now - oldest < ONE_MINUTE ->
        getCooldown now s = (now + (ONE_MINUTE - (now - oldest)), s))
  /\ (forall boopId,
        fst (getCooldown now s) <> 0 ->
        onBoopFresh now boopId s
        = (set_cooldownUntil (fst (getCooldown now s))
                             (snd (getCooldown now s)),
           [WsSend (PROTO_BOOP_REJECT ++ toString36 boopId ++ "," ++
                    toString36 (fst (getCooldown now s) - now))])).
Proof.
  split; [|split].
  - intros Hsat keys. split; [apply sort_perm|]. split; [apply sort_sorted|].
    apply getCooldown_saturated, Hsat.
  - intros Hfree Hfull oldest Hhead Hyoung.
    rewrite getCooldown_minute_window by assumption.
    destruct (bpmBoops s) as [|first rest]; [discriminate|].
    cbn [hd_error] in Hhead. injection Hhead as ->. cbn [nth].
    destruct (Z.leb_spec ONE_MINUTE (now - oldest)); [lia|].
    rewrite Z.max_r by lia. reflexivity.
  - intros boopId Hnonzero. unfold onBoopFresh.
    destruct (getCooldown now s) as [cooldown s1]. cbn [fst snd] in *.
    destruct (Z.eqb_spec cooldown 0); [contradiction|]. reflexivity.
Qed.

(** The claim of C1 fails on the code.  In [saturatedSession] at
    [now = 1000] the walk stops at the only entry, so [soonest] is
    1_801_000 and the claimed result is [max(0, soonest - now) = 1_800_000];
    the code returns 1_801_000.  In [fullWindowSession] at [now = 1000] the
    oldest boop is from 500 and the claimed result is
    [60_000 - (now - oldest) = 59_500]; the code returns 60_500. *)
Lemma getCooldown_is_not_a_duration :
  (bphSaturated saturatedSession
   /\ Soonest (bph saturatedSession)
        (sort (byValidUntil (bph saturatedSession))
              (keysOf (bph saturatedSession)))
        (lastBPH saturatedSession + unsyncedBPH saturatedSession)
        1000 1801000
   /\ fst (getCooldown 1000 saturatedSession) = 1801000
   /\ fst (getCooldown 1000 saturatedSession) <> Z.max 0 (1801000 - 1000))
  /\ (~ bphSaturated fullWindowSession
      /\ BPM_LIMIT <= Z.of_nat (List.length (bpmBoops fullWindowSession))
      /\ hd_error (bpmBoops fullWindowSession) = Some 500
      /\ fst (getCooldown 1000 fullWindowSession) = 60500
      /\ fst (getCooldown 1000 fullWindowSession) <> 60000 - (1000 - 500)).
Proof.
  split; [split; [|split; [|split]]|split; [|split; [|split; [|split]]]].
  - vm_compute. discriminate.
  - replace 1801000
      with (validUntilOf (entryAt (bph saturatedSession) "-k1"))
      by (vm_compute; reflexivity).
    apply (SoonestAt _ _ _ _ 0%nat "-k1");
      [reflexivity|vm_compute; reflexivity|].
    intros i Hi. inversion Hi.
  - vm_compute. reflexivity.
  - vm_compute. discriminate.
  - vm_compute. intros H. apply H. reflexivity.
  - vm_compute. discriminate.
  - vm_compute. reflexivity.
  - vm_compute. reflexivity.
  - vm_compute. discriminate.
Qed.

(** Witness of C1: both branches at
    [now = 1000]. *)
Lemma getCooldown_returns_timestamp_witness :
  (exists soonest,
      Soonest (bph saturatedSession)
        (sort (byValidUntil (bph saturatedSession))
              (keysOf (bph saturatedSession)))
        (lastBPH saturatedSession + unsyncedBPH saturatedSession)
        1000 soonest
      /\ getCooldown 1000 saturatedSession
         = (1000 + Z.max 0 (soonest - 1000), saturatedSession))
  /\ getCooldown 1000 fullWindowSession
     = (1000 + (ONE_MINUTE - (1000 - 500)), fullWindowSession).
Proof.
  split.
  - apply (proj1 (getCooldown_returns_timestamp 1000 saturatedSession)).
    vm_compute. discriminate.
  - apply (proj1 (proj2 (getCooldown_returns_timestamp 1000 fullWindowSession))).
    + vm_compute. intros H. apply H. reflexivity.
    + vm_compute. discriminate.
    + vm_compute. reflexivity.
    + vm_compute. reflexivity.
Defined.

(** *** The minute window *)

Lemma filter_within_minute (now : Z) (window : list Z) :
  Forall (fun t => now - t < ONE_MINUTE)
         (filter (fun t => now - t <? ONE_MINUTE) window).
Proof.
  apply Forall_forall. intros t Hin.
  apply filter_In in Hin as [_ Hlt]. apply Z.ltb_lt, Hlt.
Qed.

(** C5, as the code has it.  The minute window is pruned lazily.
    [getCooldown(now)] drops the timestamps [t] with [now - t >= 60_000]
    only when the hourly ledger is not saturated, the window holds at
    least [BPM_LIMIT] entries and the oldest of them is at least a minute
    old; right after that every entry is within the last minute, and the
    boop that triggered it is admitted and appended.  In every other case
    the cooldown computation leaves the window as it is, old timestamps
    included. *)
Theorem bpmBoops_pruned_lazily (now : Z) (s : Session) :
  (~ bphSaturated s ->
   BPM_LIMIT <= Z.of_nat (List.length (bpmBoops s)) ->
   ONE_MINUTE <= now - nth 0 (bpmBoops s) 0 ->
   let pruned := filter (fun t => now - t <? ONE_MINUTE) (bpmBoops s) in
   getCooldown now s = (0, set_bpmBoops pruned s)
   /\ Forall (fun t => now - t < ONE_MINUTE) pruned
   /\ forall boopId,
        bpmBoops (fst (onBoopFresh now boopId s)) = (pruned ++ [now])%list
        /\ Forall (fun t => now - t < ONE_MINUTE)
                  (bpmBoops (fst (onBoopFresh now boopId s))))
  /\ (bphSaturated s
      \/ Z.of_nat (List.length (bpmBoops s)) < BPM_LIMIT
      \/ now - nth 0 (bpmBoops s) 0 < ONE_MINUTE ->
      bpmBoops (snd (getCooldown now s)) = bpmBoops s).
Proof.
  split.
  - intros Hfree Hfull Hold pruned.
    assert (Hprune : getCooldown now s = (0, set_bpmBoops pruned s)).
    { rewrite getCooldown_minute_window by assumption.
      destruct (Z.leb_spec ONE_MINUTE (now - nth 0 (bpmBoops s) 0));
        [reflexivity|lia]. }
    split; [exact Hprune|]. split; [apply filter_within_minute|].
    intros boopId.
    assert (Hwindow : bpmBoops (fst (onBoopFresh now boopId s))
                      = (pruned ++ [now])%list).
    { unfold onBoopFresh. rewrite Hprune. cbn [Z.eqb negb].
      normalize_helpers. reflexivity. }
    split; [exact Hwindow|]. rewrite Hwindow.
    apply Forall_app. split; [apply filter_within_minute|].
    constructor; [unfold ONE_MINUTE; lia|constructor].
  - intros Hother. unfold getCooldown, bphSaturated in *.
    destruct (Z.leb_spec BPH_LIMIT (lastBPH s + unsyncedBPH s)).
    + destruct (virtuallyRemove _ _ _ _). reflexivity.
    + destruct (Z.leb_spec BPM_LIMIT (Z.of_nat (List.length (bpmBoops s))));
        [|reflexivity].
      destruct (Z.leb_spec ONE_MINUTE (now - nth 0 (bpmBoops s) 0));
        [lia|reflexivity].
Qed.

(** The claim of C5 fails on the code: after a boop admitted at 1000 and a
    cooldown query at 70_000 the window still holds 1000, which is older
    than a minute. *)
Lemma bpmBoops_keeps_old_timestamps :
  bpmBoops (fst (run [EvBoop 1000 1; EvCooldownQuery 1 70000] freshSession))
  = [1000]
  /\ ~ Forall (fun t => 70000 - t < 60000)
         (bpmBoops
            (fst (run [EvBoop 1000 1; EvCooldownQuery 1 70000] freshSession))).
Proof.
  assert (Hwindow :
    bpmBoops (fst (run [EvBoop 1000 1; EvCooldownQuery 1 70000] freshSession))
    = [1000]) by (vm_compute; reflexivity).
  split; [exact Hwindow|]. rewrite Hwindow.
  intros Hall. apply Forall_inv in Hall. lia.
Qed.

(** Witness of C5: in [staleWindowSession] at
    [now = 60_600] the 999 boops of time 500 are dropped and the one of
    60_400 is kept; in [fullWindowSession] at [now = 1000] nothing is
    dropped. *)
Lemma bpmBoops_pruned_lazily_witness :
  getCooldown 60600 staleWindowSession
  = (0, set_bpmBoops
          (filter (fun t => 60600 - t <? ONE_MINUTE)
                  (bpmBoops staleWindowSession)) staleWindowSession)
  /\ bpmBoops (snd (getCooldown 1000 fullWindowSession))
     = bpmBoops fullWindowSession.
Proof.
  split.
  - apply (proj1 (bpmBoops_pruned_lazily 60600 staleWindowSession)).
    + vm_compute. intros H. apply H. reflexivity.
    + vm_compute. discriminate.
    + vm_compute. discriminate.
  - apply (proj2 (bpmBoops_pruned_lazily 1000 fullWindowSession)).
    right. right. vm_compute. reflexivity.
Defined.

(** *** Active cooldown *)

(** [#getCooldown] does not read the cooldown fields. *)
Lemma getCooldown_set_cooldownUntil (now until : Z) (s : Session) :
  getCooldown now (set_cooldownUntil until s)
  = (fst (getCooldown now s),
     set_cooldownUntil until (snd (getCooldown now s))).
Proof.
  unfold getCooldown.
  cbn [lastBPH unsyncedBPH bph bpmBoops set_cooldownUntil].
  destruct (BPH_LIMIT <=? lastBPH s + unsyncedBPH s).
  - destruct (virtuallyRemove (bph s) _ _ _). reflexivity.
  - destruct (BPM_LIMIT <=? Z.of_nat (List.length (bpmBoops s)));
      [destruct (ONE_MINUTE <=? now - nth 0 (bpmBoops s) 0)|]; reflexivity.
Qed.

(** A boop request during an active cooldown: the failure counter goes up
    by one and the request is rejected, or the channel is closed when the
    counter had already reached [CD_FAIL_LIMIT]. *)
Lemma onBoop_active (now boopId : Z) (s : Session) :
  cooldownActive now s ->
  onBoop now boopId s
  = if CD_FAIL_LIMIT <=? cooldownFails s
    then (set_wsOpen false (set_cooldownFails (cooldownFails s + 1) s),
          [WsClose TOO_MANY_COOLDOWN_FAILS_ERRCODE
                   TOO_MANY_COOLDOWN_FAILS_ERRMSG])
    else (set_cooldownFails (cooldownFails s + 1) s,
          [WsSend (rejectFrame boopId now s)]).
Proof.
  intros [Hset Hbefore]. unfold onBoop.
  destruct (Z.eqb_spec (cooldownUntil s) 0); [contradiction|]. cbn [negb].
  destruct (Z.ltb_spec now (cooldownUntil s)); [|lia].
  reflexivity.
Qed.

(** Requests sent during an active cooldown are rejected one by one while
    the failure counter stays within [CD_FAIL_LIMIT]. *)
Lemma run_boops_rejected :
  forall (requests : list (Z * Z)) (s : Session),
    cooldownUntil s <> 0 ->
    Forall (fun r => fst r < cooldownUntil s) requests ->
    cooldownFails s + Z.of_nat (List.length requests) <= CD_FAIL_LIMIT ->
    run (boops requests) s
    = (set_cooldownFails (cooldownFails s + Z.of_nat (List.length requests)) s,
       rejects s requests).
Proof.
  induction requests as [|[now boopId] rest IH]; intros s Hset Hactive Hroom.
  - cbn. rewrite Z.add_0_r. destruct s; reflexivity.
  - apply Forall_cons_iff in Hactive as [Hnow Hrest]. cbn [fst] in Hnow.
    cbn [List.length] in Hroom. rewrite Nat2Z.inj_succ in Hroom.
    cbn [boops map run step fst snd]. fold (boops rest).
    rewrite onBoop_active by (split; assumption).
    destruct (Z.leb_spec CD_FAIL_LIMIT (cooldownFails s)); [lia|].
    rewrite IH; cbn [cooldownUntil cooldownFails set_cooldownFails];
      [|assumption|assumption|lia].
    cbn [List.length]. rewrite Nat2Z.inj_succ.
    f_equal.
    unfold set_cooldownFails; cbn. f_equal. lia.
Qed.

Lemma run_app (trace1 trace2 : list event) (s : Session) :
  run (trace1 ++ trace2) s
  = (fst (run trace2 (fst (run trace1 s))),
     (snd (run trace1 s) ++ snd (run trace2 (fst (run trace1 s))))%list).
Proof.
  revert s. induction trace1 as [|e rest IH]; intros s.
  - cbn [app run fst snd]. destruct (run trace2 s); reflexivity.
  - cbn [app run]. destruct (step e s) as [s1 effects1]. rewrite IH.
    destruct (run rest s1) as [s2 effects2]. cbn [fst snd].
    rewrite app_assoc. reflexivity.
Qed.

(** C3, as the code has it.  In an active cooldown entered with
    [cooldownFails = 0], six boop requests sent before it expires are
    handled as follows: each of the first five increments [cooldownFails]
    and is answered with the reject frame [r<boopId>,<cooldownUntil - now>];
    the sixth finds [cooldownFails = CD_FAIL_LIMIT = 5] and closes the
    channel with code 1002. *)
Theorem six_boops_in_cooldown_close_channel
    (s : Session) (firstFive : list (Z * Z)) (sixth : Z * Z) :
  cooldownUntil s <> 0 ->
  cooldownFails s = 0 ->
  List.length firstFive = 5%nat ->
  Forall (fun r => fst r < cooldownUntil s) (firstFive ++ [sixth]) ->
  (forall k, (k <= 5)%nat ->
     run (boops (firstn k firstFive)) s
     = (set_cooldownFails (Z.of_nat k) s, rejects s (firstn k firstFive)))
  /\ run (boops (firstFive ++ [sixth])) s
     = (set_wsOpen false (set_cooldownFails 6 s),
        (rejects s firstFive ++ [WsClose 1002 TOO_MANY_COOLDOWN_FAILS_ERRMSG])%list).
Proof.
  intros Hset Hzero Hfive Hactive.
  apply Forall_app in Hactive as [Hfirst Hsixth].
  apply Forall_inv in Hsixth.
  assert (Hprefix : forall k, (k <= 5)%nat ->
            run (boops (firstn k firstFive)) s
            = (set_cooldownFails (Z.of_nat k) s,
               rejects s (firstn k firstFive))).
  { intros k Hk.
    rewrite run_boops_rejected.
    - rewrite Hzero, length_firstn, Hfive, Nat.min_l by exact Hk.
      reflexivity.
    - exact Hset.
    - rewrite <- (firstn_skipn k firstFive) in Hfirst.
      apply Forall_app in Hfirst as [Hkept _]. exact Hkept.
    - rewrite Hzero, length_firstn, Hfive, Nat.min_l by exact Hk.
      unfold CD_FAIL_LIMIT. lia. }
  split; [exact Hprefix|].
  specialize (Hprefix 5%nat (Nat.le_refl 5)).
  rewrite <- Hfive, firstn_all in Hprefix.
  unfold boops. rewrite map_app. fold (boops firstFive). rewrite run_app.
  rewrite Hprefix. cbn [fst snd map run step].
  destruct sixth as [now boopId]. cbn [fst snd] in *.
  rewrite onBoop_active
    by (split; cbn [cooldownUntil set_cooldownFails]; assumption).
  cbn [cooldownFails set_cooldownFails]. rewrite Hfive.
  cbn [Z.of_nat Pos.of_succ_nat Pos.succ CD_FAIL_LIMIT Z.leb Z.compare
       Pos.compare Pos.compare_cont Z.add Pos.add fst snd].
  rewrite app_nil_r. reflexivity.
Qed.

(** The claim of C3 fails on the code.  [secondCooldownSession] is
    reached from a fresh session: a first cooldown (until 100) in which
    three boops were rejected, then a boop at 150 that started a second
    cooldown (until 5000) without any admission in between, so
    [cooldownFails] is still 3.  All of [sixBoops] arrive during the second
    cooldown, yet only two of them are rejected: the third one closes the
    channel with 1002. *)
Lemma third_boop_in_cooldown_closes_channel :
  cooldownUntil secondCooldownSession = 5000
  /\ cooldownFails secondCooldownSession = 3
  /\ Forall (fun r => cooldownActive (fst r) secondCooldownSession) sixBoops
  /\ snd (run (boops (firstn 3 sixBoops)) secondCooldownSession)
     = [WsSend "r6,3qp"; WsSend "r7,3qo";
        WsClose 1002 TOO_MANY_COOLDOWN_FAILS_ERRMSG]
  /\ snd (run (boops (firstn 5 sixBoops)) secondCooldownSession)
     <> rejects secondCooldownSession (firstn 5 sixBoops).
Proof.
  split; [vm_compute; reflexivity|].
  split; [vm_compute; reflexivity|].
  split.
  - unfold cooldownActive. repeat constructor; vm_compute; discriminate.
  - split; vm_compute; [reflexivity|discriminate].
Qed.

(** Witness of C3: the six requests
    of [sixBoops] in [firstCooldownSession], whose cooldown lasts until
    1_801_000 and whose failure counter is 0. *)
Lemma six_boops_in_cooldown_close_channel_witness :
  run (boops sixBoops) firstCooldownSession
  = (set_wsOpen false (set_cooldownFails 6 firstCooldownSession),
     [WsSend "r6,12ljl"; WsSend "r7,12ljk"; WsSend "r8,12ljj";
      WsSend "r9,12lji"; WsSend "ra,12ljh";
      WsClose 1002 TOO_MANY_COOLDOWN_FAILS_ERRMSG]).
Proof.
  refine (proj2 (six_boops_in_cooldown_close_channel
                   firstCooldownSession
                   (firstn 5 sixBoops) (156, 11) _ _ _ _)).
  - vm_compute. discriminate.
  - vm_compute. reflexivity.
  - reflexivity.
  - repeat constructor; vm_compute; reflexivity.
Defined.

(** *** Cooldown queries *)




(* ================================================================= *)
(** ** The GBC sync scheduler *)

(** *** The four ways through [#gbcSync] *)

Lemma gbcSync_pending (now : option Z) (finalSync : bool) (clock : Z)
    (s : Session) (captured : PendingGBCSync) :
  gbcSyncPromise s = Some captured ->
  gbcSync now finalSync clock s = (PromisePending captured, s, []).
Proof. intros Hpending. unfold gbcSync. rewrite Hpending. reflexivity. Qed.

Lemma gbcSync_too_early (now : option Z) (clock : Z) (s : Session) :
  gbcSyncPromise s = None ->
  orDateNow now clock - lastGBCSync s < GBC_SYNC_INTERVAL ->
  gbcSync now false clock s = (PromiseResolved, s, [ResetGBCSyncTimeout]).
Proof.
  intros Hidle Hearly. unfold gbcSync. rewrite Hidle. cbv zeta. cbn [orb].
  destruct (Z.leb_spec GBC_SYNC_INTERVAL (orDateNow now clock - lastGBCSync s));
    [lia|reflexivity].
Qed.

Lemma gbcSync_due (now : option Z) (finalSync : bool) (clock : Z)
    (s : Session) :
  gbcSyncPromise s = None ->
  finalSync = true
  \/ GBC_SYNC_INTERVAL <= orDateNow now clock - lastGBCSync s ->
  gbcSync now finalSync clock s
  = if unsyncedGBC s =? 0
    then (PromiseResolved, set_lastGBCSync (orDateNow now clock) s,
          [ResetGBCSyncTimeout])
    else (PromiseResolved,
          set_gbcSyncPromise (Some (unsyncedGBC s, finalSync))
            (set_lastGBC (lastGBC s + unsyncedGBC s)
               (set_unsyncedGBC 0
                  (set_lastGBCSync (orDateNow now clock) s))),
          [StoreAtomicAdd (unsyncedGBC s); ResetGBCSyncTimeout]).
Proof.
  intros Hidle Hdue. unfold gbcSync. rewrite Hidle. cbv zeta.
  replace (finalSync
           || (GBC_SYNC_INTERVAL <=? orDateNow now clock - lastGBCSync s))
    with true.
  - cbn [unsyncedGBC set_lastGBCSync]. destruct (unsyncedGBC s =? 0);
      reflexivity.
  - symmetry. apply orb_true_iff.
    destruct Hdue as [->|Hdue]; [left; reflexivity|right].
    apply Z.leb_le, Hdue.
Qed.

Lemma gbcSync_outcome (now : option Z) (finalSync : bool) (clock : Z)
    (s : Session) :
  gbcSyncOutcome now finalSync clock s (gbcSync now finalSync clock s).
Proof.
  destruct (gbcSyncPromise s) as [captured|] eqn:Hpending.
  - rewrite (gbcSync_pending _ _ _ _ _ Hpending). constructor. exact Hpending.
  - destruct finalSync.
    + rewrite gbcSync_due by auto.
      destruct (Z.eqb_spec (unsyncedGBC s) 0); constructor; auto.
    + destruct (Z.le_gt_cases GBC_SYNC_INTERVAL
                  (orDateNow now clock - lastGBCSync s)) as [Hdue|Hearly].
      * rewrite gbcSync_due by auto.
        destruct (Z.eqb_spec (unsyncedGBC s) 0); constructor; auto.
      * rewrite gbcSync_too_early by assumption. constructor; auto.
Qed.

Lemma atomicAdds_app (effects1 effects2 : list effect) :
  atomicAdds (effects1 ++ effects2)
  = (atomicAdds effects1 ++ atomicAdds effects2)%list.
Proof. unfold atomicAdds. apply flat_map_app. Qed.

Lemma atomicAdds_sendBoopCount (s : Session) :
  atomicAdds (sendBoopCount s) = [].
Proof. unfold sendBoopCount. destruct (wsOpen s); reflexivity. Qed.

(** *** What a boop does to the GBC fields *)

(** An admitted boop adds one to [unsyncedGBC] and calls
    [gbcSync(now)]; a rejected one leaves the GBC fields alone. *)
Lemma onBoop_gbc (now boopId : Z) (s : Session) :
  if boopAccepted now s then
    exists s0 : Session,
      lastGBC s0 = lastGBC s /\ unsyncedGBC s0 = unsyncedGBC s + 1
      /\ lastGBCSync s0 = lastGBCSync s
      /\ gbcSyncPromise s0 = gbcSyncPromise s
      /\ exists returned s1 effects,
           gbcSync (Some now) false now s0 = (returned, s1, effects)
           /\ lastGBC (fst (onBoop now boopId s)) = lastGBC s1
           /\ unsyncedGBC (fst (onBoop now boopId s)) = unsyncedGBC s1
           /\ lastGBCSync (fst (onBoop now boopId s)) = lastGBCSync s1
           /\ gbcSyncPromise (fst (onBoop now boopId s)) = gbcSyncPromise s1
           /\ atomicAdds (snd (onBoop now boopId s)) = atomicAdds effects
  else
    lastGBC (fst (onBoop now boopId s)) = lastGBC s
    /\ unsyncedGBC (fst (onBoop now boopId s)) = unsyncedGBC s
    /\ lastGBCSync (fst (onBoop now boopId s)) = lastGBCSync s
    /\ gbcSyncPromise (fst (onBoop now boopId s)) = gbcSyncPromise s
    /\ atomicAdds (snd (onBoop now boopId s)) = [].
Proof.
  assert (Hfresh : forall s0 : Session,
    if fst (getCooldown now s0) =? 0 then
      exists s1 : Session,
        lastGBC s1 = lastGBC s0 /\ unsyncedGBC s1 = unsyncedGBC s0 + 1
        /\ lastGBCSync s1 = lastGBCSync s0
        /\ gbcSyncPromise s1 = gbcSyncPromise s0
        /\ exists returned s2 effects,
             gbcSync (Some now) false now s1 = (returned, s2, effects)
             /\ lastGBC (fst (onBoopFresh now boopId s0)) = lastGBC s2
             /\ unsyncedGBC (fst (onBoopFresh now boopId s0)) = unsyncedGBC s2
             /\ lastGBCSync (fst (onBoopFresh now boopId s0)) = lastGBCSync s2
             /\ gbcSyncPromise (fst (onBoopFresh now boopId s0))
                = gbcSyncPromise s2
             /\ atomicAdds (snd (onBoopFresh now boopId s0))
                = atomicAdds effects
    else
      lastGBC (fst (onBoopFresh now boopId s0)) = lastGBC s0
      /\ unsyncedGBC (fst (onBoopFresh now boopId s0)) = unsyncedGBC s0
      /\ lastGBCSync (fst (onBoopFresh now boopId s0)) = lastGBCSync s0
      /\ gbcSyncPromise (fst (onBoopFresh now boopId s0)) = gbcSyncPromise s0
      /\ atomicAdds (snd (onBoopFresh now boopId s0)) = []).
  { intros s0. unfold onBoopFresh.
    destruct (getCooldown_cases now s0) as (cooldown & window & ->).
    cbn [fst]. destruct (cooldown =? 0); cbn [negb].
    - match goal with
      | |- context [gbcSync ?a ?b ?c ?x] =>
          exists x; repeat (split; [reflexivity|]);
          destruct (gbcSync a b c x) as [[returned s2] effects]
      end.
      exists returned, s2, effects. split; [reflexivity|].
      cbn [fst snd]. rewrite !atomicAdds_app, atomicAdds_sendBoopCount.
      cbn. rewrite app_nil_r. repeat split; reflexivity.
    - cbn. repeat split; reflexivity. }
  unfold onBoop, boopAccepted.
  destruct (Z.eqb_spec (cooldownUntil s) 0) as [Hzero|Hset]; cbn [negb andb].
  - apply Hfresh.
  - destruct (Z.ltb_spec now (cooldownUntil s)) as [Hlt|Hge]; cbn [negb andb].
    + destruct (CD_FAIL_LIMIT <=? cooldownFails s); cbn;
        repeat split; reflexivity.
    + specialize (Hfresh (set_cooldownUntil 0 s)).
      rewrite getCooldown_set_cooldownUntil in Hfresh. cbn [fst] in Hfresh.
      exact Hfresh.
Qed.

(** *** What one call of [#gbcSync] guarantees *)

Lemma gbcSync_facts (now : option Z) (finalSync : bool) (clock : Z)
    (s : Session) :
  gbcSyncFacts (orDateNow now clock) finalSync s
    (snd (fst (gbcSync now finalSync clock s)))
    (snd (gbcSync now finalSync clock s)).
Proof.
  unfold gbcSyncFacts, displayed, countersNonNegative, inFlight.
  destruct (gbcSync_outcome now finalSync clock s)
    as [captured Hpending|Hidle Hfinal Hearly|Hidle Hdue Hzero|Hidle Hdue Hnz];
    cbn [fst snd lastGBC unsyncedGBC lastGBCSync gbcSyncPromise
         set_gbcSyncPromise set_lastGBC set_unsyncedGBC set_lastGBCSync
         atomicAdds flat_map app];
    try rewrite Hidle.
  - repeat split; auto; tauto.
  - repeat split; auto; tauto.
  - repeat split; auto; tauto.
  - repeat split; try lia; auto.
    intros Hnonfinal Hearly. destruct Hdue as [->|Hdue]; [discriminate|lia].
Qed.

Lemma orDateNow_same (now : Z) : orDateNow (Some now) now = now.
Proof. unfold orDateNow. destruct (Z.eqb_spec now 0); congruence. Qed.

(** *** What one event guarantees *)

(** The facts only read the GBC fields of the resulting session. *)
Lemma gbcSyncFacts_transfer (at_ : Z) (finalSync : bool)
    (s0 s1 s' : Session) (effects effects' : list effect) :
  gbcSyncFacts at_ finalSync s0 s1 effects ->
  lastGBC s' = lastGBC s1 -> unsyncedGBC s' = unsyncedGBC s1 ->
  lastGBCSync s' = lastGBCSync s1 -> gbcSyncPromise s' = gbcSyncPromise s1 ->
  atomicAdds effects' = atomicAdds effects ->
  gbcSyncFacts at_ finalSync s0 s' effects'.
Proof.
  unfold gbcSyncFacts, displayed, countersNonNegative, inFlight.
  intros Hfacts Hl Hu Ht Hp Ha. rewrite Hl, Hu, Ht, Hp, Ha. exact Hfacts.
Qed.

(** Queries and ledger events leave the GBC fields alone and add nothing. *)
Lemma step_gbc_frame (e : event) (s : Session) :
  match e with
  | EvBoop _ _ | EvGBCSyncTimeout _ | EvGBCSyncSettled _ _ | EvGBCChange _ =>
      True
  | _ =>
      lastGBC (fst (step e s)) = lastGBC s
      /\ unsyncedGBC (fst (step e s)) = unsyncedGBC s
      /\ lastGBCSync (fst (step e s)) = lastGBCSync s
      /\ gbcSyncPromise (fst (step e s)) = gbcSyncPromise s
      /\ atomicAdds (snd (step e s)) = []
  end.
Proof.
  destruct e; cbn [step]; try exact I;
    unfold onCooldownQuery, onCooldownQueryFresh, syncBPH, syncBPHFailed,
      onBPHChildAdded, onBPHChildRemoved, onRemoveTimeout;
    try match goal with
      | |- context [match ?key with Some _ => _ | None => _ end] =>
          destruct key
      end;
    break_conditions; normalize_helpers; cbn; break_conditions;
    try match goal with
      | |- context [match ?t with Some _ => _ | None => _ end] => destruct t
      end;
    cbn; repeat split; reflexivity.
Qed.

(** What one event does to the GBC fields: the balance of unsynced and
    in-flight boops, the displayed count, the atomic adds and the time of
    the last sync. *)
Lemma step_gbc (e : event) (s : Session) :
  let s' := fst (step e s) in
  let adds := atomicAdds (snd (step e s)) in
  unsyncedGBC s' + inFlight s'
  = unsyncedGBC s + inFlight s + acceptedBy e s - addedBy e s
  /\ (countersNonNegative s -> notifiesAhead e s ->
      displayed s <= displayed s' /\ countersNonNegative s')
  /\ (adds = []
      \/ (exists change, adds = [change])
         /\ exists t, clockOf e = Some t /\ lastGBCSync s' = t)
  /\ (forall t, clockOf e = Some t ->
                t - lastGBCSync s < GBC_SYNC_INTERVAL -> adds = [])
  /\ (lastGBCSync s' = lastGBCSync s
      \/ exists t, clockOf e = Some t /\ lastGBCSync s' = t).
Proof.
  cbv zeta.
  pose proof (step_gbc_frame e s) as Hframe.
  destruct e;
    try (destruct Hframe as (Hl & Hu & Ht & Hp & Ha);
         unfold displayed, countersNonNegative, inFlight;
         rewrite Hl, Hu, Ht, Hp, Ha; cbn [acceptedBy addedBy];
         repeat split; try lia; auto; intuition (auto; lia));
    clear Hframe; cbn [step clockOf acceptedBy addedBy notifiesAhead].
  - (* a boop *)
    pose proof (onBoop_gbc now boopId s) as Hboop.
    destruct (boopAccepted now s).
    + destruct Hboop as (s0 & Hl0 & Hu0 & Ht0 & Hp0 & returned & s1 & effects
                         & Hsync & Hl & Hu & Ht & Hp & Ha).
      pose proof (gbcSync_facts (Some now) false now s0) as Hfacts.
      rewrite Hsync, orDateNow_same in Hfacts. cbn [fst snd] in Hfacts.
      apply (gbcSyncFacts_transfer _ _ _ _ _ _ _ Hfacts Hl Hu Ht Hp) in Ha.
      clear Hfacts Hl Hu Ht Hp Hsync.
      unfold gbcSyncFacts, displayed, countersNonNegative, inFlight in *.
      rewrite Hl0, Hu0, Ht0, Hp0 in Ha.
      destruct Ha as (Hsum & Hshown & Hpos & Hadds & Hearly & Hat).
      split; [lia|].
      split; [intros [Hunsynced Hflight] _; split; [lia|apply Hpos; lia]|].
      split; [|split].
      * destruct Hadds as [Hnone|(Hone & _ & Hnow)]; [left; exact Hnone|].
        right. split; [eauto|]. exists now. auto.
      * intros t Ht' Hclose. injection Ht' as <-. apply Hearly; auto.
      * destruct Hat as [Hsame|Hnow]; [left; exact Hsame|].
        right. exists now. auto.
    + destruct Hboop as (Hl & Hu & Ht & Hp & Ha).
      unfold displayed, countersNonNegative, inFlight.
      rewrite Hl, Hu, Ht, Hp, Ha.
      repeat split; try lia; auto; intuition (auto; lia).
  - (* the trailing timer *)
    pose proof (gbcSync_facts None false clock s) as Hfacts.
    destruct (gbcSync None false clock s) as [[returned s1] effects].
    cbn [fst snd orDateNow] in *.
    unfold gbcSyncFacts, displayed, countersNonNegative, inFlight in *.
    destruct Hfacts as (Hsum & Hshown & Hpos & Hadds & Hearly & Hat).
    split; [lia|].
    split; [intros Hnn _; split; [lia|apply Hpos, Hnn]|].
    split; [|split].
    + destruct Hadds as [Hnone|(Hone & _ & Hnow)]; [left; exact Hnone|].
      right. split; [eauto|]. exists clock. auto.
    + intros t Ht' Hclose. injection Ht' as <-. apply Hearly; auto.
    + destruct Hat as [Hsame|Hnow]; [left; exact Hsame|].
      right. exists clock. auto.
  - (* the pending write settles *)
    unfold gbcSyncSettled.
    destruct (gbcSyncPromise s) as [[change finalSync]|] eqn:Hpending.
    2:{ cbn [fst snd atomicAdds flat_map].
        unfold displayed, countersNonNegative, inFlight.
        rewrite !Hpending.
        destruct ok; repeat split; try lia; auto; intuition (auto; lia). }
    set (s1 := if ok then s
               else set_unsyncedGBC (unsyncedGBC s + change) s).
    set (s2 := set_gbcSyncPromise None s1).
    assert (Hs2 : lastGBC s2 = lastGBC s
                  /\ unsyncedGBC s2
                     = unsyncedGBC s + (if ok then 0 else change)
                  /\ lastGBCSync s2 = lastGBCSync s
                  /\ gbcSyncPromise s2 = None).
    { subst s2 s1. destruct ok; cbn; repeat split; lia. }
    destruct Hs2 as (Hl2 & Hu2 & Ht2 & Hp2).
    assert (Hflight : inFlight s = change)
      by (unfold inFlight; rewrite Hpending; reflexivity).
    destruct finalSync.
    { cbn [fst snd atomicAdds flat_map].
      unfold displayed, countersNonNegative. rewrite Hflight.
      unfold inFlight. rewrite Hl2, Hu2, Ht2, Hp2.
      destruct ok; repeat split; try lia; auto; intuition (auto; lia). }
    rewrite Ht2.
    destruct (Z.leb_spec GBC_SYNC_INTERVAL (clock - lastGBCSync s))
      as [Hdue|Hearly].
    2:{ cbn [fst snd atomicAdds flat_map].
        unfold displayed, countersNonNegative. rewrite Hflight.
        unfold inFlight. rewrite Hl2, Hu2, Ht2, Hp2.
        destruct ok; repeat split; try lia; auto; intuition (auto; lia). }
    set (s3 := if negb (gbcSyncInterwalWarningShown s2)
               then set_gbcSyncInterwalWarningShown true s2 else s2).
    assert (Hs3 : lastGBC s3 = lastGBC s2 /\ unsyncedGBC s3 = unsyncedGBC s2
                  /\ lastGBCSync s3 = lastGBCSync s2
                  /\ gbcSyncPromise s3 = gbcSyncPromise s2).
    { subst s3. destruct (negb _); cbn; repeat split; reflexivity. }
    destruct Hs3 as (Hl3 & Hu3 & Ht3 & Hp3).
    pose proof (gbcSync_facts (Some clock) false clock s3) as Hfacts.
    destruct (gbcSync (Some clock) false clock s3) as [[returned s4] effects].
    rewrite orDateNow_same in Hfacts. cbn [fst snd] in *.
    unfold gbcSyncFacts, displayed, countersNonNegative in *.
    rewrite Hflight.
    assert (Hflight3 : inFlight s3 = 0)
      by (unfold inFlight; rewrite Hp3, Hp2; reflexivity).
    rewrite Hflight3, Hl3, Hu3, Ht3, Hl2, Hu2, Ht2 in Hfacts.
    destruct Hfacts as (Hsum & Hshown & Hpos & Hadds & Hclose & Hat).
    split; [destruct ok; lia|].
    split; [intros [Hunsynced Hchange] _;
            split; [destruct ok; lia|apply Hpos; destruct ok; lia]|].
    split; [|split].
    + destruct Hadds as [Hnone|(Hone & _ & Hnow)]; [left; exact Hnone|].
      right. split; [eauto|]. exists clock. auto.
    + intros t Ht' Hnear. injection Ht' as <-. lia.
    + destruct Hat as [Hsame|Hnow]; [left; exact Hsame|].
      right. exists clock. auto.
  - (* the store notifies a value *)
    unfold onGBCChange, displayed, countersNonNegative, inFlight.
    destruct val as [| |val| | |];
      try (cbn [fst snd atomicAdds flat_map];
           repeat split; try lia; auto; intuition (auto; lia)).
    destruct (Z.eqb_spec val (lastGBC s)) as [->|Hnew];
      cbn [fst snd atomicAdds flat_map].
    + repeat split; try lia; auto; intuition (auto; lia).
    + rewrite atomicAdds_sendBoopCount. cbn.
      repeat split; try lia; auto; intuition (auto; lia).
Qed.

(* ================================================================= *)
(** ** Traces *)

Lemma run_cons (e : event) (rest : list event) (s : Session) :
  run (e :: rest) s
  = (fst (run rest (fst (step e s))),
     (snd (step e s) ++ snd (run rest (fst (step e s))))%list).
Proof.
  cbn [run]. destruct (step e s) as [s1 effects1]. cbn [fst snd].
  destruct (run rest s1) as [s2 effects2]. reflexivity.
Qed.

(** *** The displayed count *)

Lemma countersNonNegative_init (id : string) (gbc : Z) :
  countersNonNegative (initSession id gbc).
Proof. unfold countersNonNegative, inFlight. cbn. lia. Qed.

Lemma displayedAlong_bounded :
  forall trace s,
    countersNonNegative s -> notifiedAhead trace s ->
    Forall (fun shown => displayed s <= shown) (displayedAlong trace s).
Proof.
  induction trace as [|e rest IH]; intros s Hnn Hahead.
  - cbn. repeat constructor. lia.
  - cbn [displayedAlong]. destruct Hahead as [Hnow Hrest].
    destruct (step_gbc e s) as (_ & Hshown & _).
    destruct (Hshown Hnn Hnow) as [Hle Hnn'].
    constructor; [lia|].
    eapply Forall_impl; [|apply (IH _ Hnn' Hrest)].
    cbn beta. intros shown Hshown'. lia.
Qed.

(** C4, as the code has it.  The displayed count [lastGBC + unsyncedGBC]
    never decreases along a session -- across boop requests, GBC syncs,
    atomic adds that succeed or fail, queries and ledger events -- provided
    every value the store notifies is at least the [lastGBC] the session
    holds when the notification is delivered. *)
Theorem displayed_monotone_when_notified_ahead :
  forall trace s,
    countersNonNegative s -> notifiedAhead trace s ->
    StronglySorted Z.le (displayedAlong trace s).
Proof.
  induction trace as [|e rest IH]; intros s Hnn Hahead.
  - cbn. repeat constructor.
  - pose proof (displayedAlong_bounded (e :: rest) s Hnn Hahead) as Hall.
    cbn [displayedAlong] in *. destruct Hahead as [Hnow Hrest].
    destruct (step_gbc e s) as (_ & Hshown & _).
    destruct (Hshown Hnn Hnow) as [Hle Hnn'].
    constructor; [apply IH; assumption|].
    apply Forall_inv_tail in Hall. exact Hall.
Qed.

(** The claim of C4 fails on the code.  Along [overtakenTrace] the store
    counter never decreases, yet the displayed count drops from 45 to 44
    at the last notification: [lastGBC] had been advanced to 45 when the
    atomic add of 2 was issued, and the notified 44 overwrites it.  Along
    [failedAddTrace] that add fails, the displayed count rises to 47, and
    the same notification brings it down to 46. *)
Lemma displayed_decreases_though_store_grows :
  (storeNeverDecreases 42 overtakenTrace
   /\ displayedAlong overtakenTrace freshSession
      = [42; 43; 43; 43; 44; 45; 45; 44]
   /\ ~ StronglySorted Z.le (displayedAlong overtakenTrace freshSession))
  /\ (storeNeverDecreases 42 failedAddTrace
      /\ displayedAlong failedAddTrace freshSession
         = [42; 43; 43; 43; 44; 45; 45; 47; 46]
      /\ ~ StronglySorted Z.le (displayedAlong failedAddTrace freshSession)).
Proof.
  assert (Hshown : displayedAlong overtakenTrace freshSession
                   = [42; 43; 43; 43; 44; 45; 45; 44])
    by (vm_compute; reflexivity).
  assert (Hfailed : displayedAlong failedAddTrace freshSession
                    = [42; 43; 43; 43; 44; 45; 45; 47; 46])
    by (vm_compute; reflexivity).
  split; (split; [cbn; lia|]).
  - split; [exact Hshown|]. rewrite Hshown. intros Hsorted.
    do 5 (apply StronglySorted_inv in Hsorted as [Hsorted _]).
    apply StronglySorted_inv in Hsorted as [_ Hall].
    apply Forall_inv_tail, Forall_inv in Hall. lia.
  - split; [exact Hfailed|]. rewrite Hfailed. intros Hsorted.
    do 7 (apply StronglySorted_inv in Hsorted as [Hsorted _]).
    apply StronglySorted_inv in Hsorted as [_ Hall].
    apply Forall_inv in Hall. lia.
Qed.

(** Witness of C4: along
    [aheadTrace] the displayed count goes 42, 43, 44, 51, 52. *)
Lemma displayed_monotone_when_notified_ahead_witness :
  countersNonNegative freshSession
  /\ notifiedAhead aheadTrace freshSession
  /\ displayedAlong aheadTrace freshSession = [42; 43; 44; 51; 52]
  /\ StronglySorted Z.le (displayedAlong aheadTrace freshSession).
Proof.
  assert (Hnn : countersNonNegative freshSession)
    by (split; vm_compute; discriminate).
  assert (Hahead : notifiedAhead aheadTrace freshSession)
    by (repeat split; vm_compute; discriminate).
  split; [exact Hnn|]. split; [exact Hahead|].
  split; [vm_compute; reflexivity|].
  exact (displayed_monotone_when_notified_ahead aheadTrace freshSession
           Hnn Hahead).
Defined.

(** *** Coalescing *)

(** Once a sync happened at or after [start], no event of the interval
    that begins at [start] issues an atomic add. *)
Lemma no_adds_after_sync (start : Z) :
  forall trace s,
    withinOneInterval start trace ->
    start <= lastGBCSync s ->
    atomicAdds (snd (run trace s)) = [].
Proof.
  induction trace as [|e rest IH]; intros s Hwithin Hsynced; [reflexivity|].
  apply Forall_cons_iff in Hwithin as [Hnow Hrest].
  rewrite run_cons. cbn [snd]. rewrite atomicAdds_app.
  destruct (step_gbc e s) as (_ & _ & Hadds & Hearly & Hat).
  assert (Hnone : atomicAdds (snd (step e s)) = []).
  { destruct (clockOf e) as [t|] eqn:Hclock.
    - apply (Hearly t eq_refl). lia.
    - destruct Hadds as [Hnone|(_ & t & Habsurd & _)];
        [exact Hnone|discriminate]. }
  rewrite Hnone. cbn [app]. apply IH; [exact Hrest|].
  destruct Hat as [->|(t & Hclock & ->)]; [exact Hsynced|].
  rewrite Hclock in Hnow. lia.
Qed.

(** Within one sync interval at most one atomic add is issued. *)
Lemma at_most_one_add_per_interval (start : Z) :
  forall trace s,
    withinOneInterval start trace ->
    (List.length (atomicAdds (snd (run trace s))) <= 1)%nat.
Proof.
  induction trace as [|e rest IH]; intros s Hwithin; [cbn; lia|].
  pose proof Hwithin as Hall.
  apply Forall_cons_iff in Hwithin as [Hnow Hrest].
  rewrite run_cons. cbn [snd]. rewrite atomicAdds_app, length_app.
  destruct (step_gbc e s) as (_ & _ & Hadds & _ & _).
  destruct Hadds as [->|([change ->] & t & Hclock & Hsynced)].
  - cbn [List.length]. apply IH, Hrest.
  - rewrite (no_adds_after_sync start rest _ Hrest).
    + cbn. lia.
    + rewrite Hsynced. rewrite Hclock in Hnow. lia.
Qed.

(** Unsynced plus in-flight boops are the admitted boops that no
    successful add has covered. *)
Lemma unsynced_balance :
  forall trace s n,
    n = unsyncedGBC s + inFlight s ->
    acceptedNotAdded trace s n
    = unsyncedGBC (fst (run trace s)) + inFlight (fst (run trace s)).
Proof.
  induction trace as [|e rest IH]; intros s n Hn; [exact Hn|].
  cbn [acceptedNotAdded]. rewrite run_cons. cbn [fst].
  apply IH. destruct (step_gbc e s) as (Hsum & _). lia.
Qed.

(** C8.  GBC syncs coalesce.
    - While the write of a previous sync is in flight, [gbcSync] returns
      that pending promise, changes nothing and issues nothing.
    - A call with [finalSync] false made less than [GBC_SYNC_INTERVAL]
      after the last sync issues no atomic add and leaves the session as
      it is; whatever events a session handles within one interval, it
      issues at most one atomic add.
    - The delta of an atomic add is [unsyncedGBC] as it was at the call,
      which is then zeroed and added to [lastGBC]; in a session grown from
      a fresh one along [trace] this is the number of boops admitted and
      not covered by an earlier successful add. *)
Theorem gbcSync_coalesces :
  (forall now finalSync clock s captured,
      gbcSyncPromise s = Some captured ->
      gbcSync now finalSync clock s = (PromisePending captured, s, []))
  /\ (forall now clock s,
        orDateNow now clock - lastGBCSync s < GBC_SYNC_INTERVAL ->
        atomicAdds (snd (gbcSync now false clock s)) = []
        /\ snd (fst (gbcSync now false clock s)) = s)
  /\ (forall start trace s,
        withinOneInterval start trace ->
        (List.length (atomicAdds (snd (run trace s))) <= 1)%nat)
  /\ (forall now finalSync clock s change,
        In (StoreAtomicAdd change) (snd (gbcSync now finalSync clock s)) ->
        let s' := snd (fst (gbcSync now finalSync clock s)) in
        change = unsyncedGBC s
        /\ atomicAdds (snd (gbcSync now finalSync clock s)) = [change]
        /\ unsyncedGBC s' = 0
        /\ lastGBC s' = lastGBC s + change
        /\ gbcSyncPromise s' = Some (change, finalSync))
  /\ (forall id gbc trace now finalSync clock change,
        let s := fst (run trace (initSession id gbc)) in
        In (StoreAtomicAdd change) (snd (gbcSync now finalSync clock s)) ->
        change = acceptedNotAdded trace (initSession id gbc) 0).
Proof.
  assert (Hdelta : forall now finalSync clock s change,
    In (StoreAtomicAdd change) (snd (gbcSync now finalSync clock s)) ->
    change = unsyncedGBC s /\ gbcSyncPromise s = None
    /\ atomicAdds (snd (gbcSync now finalSync clock s)) = [change]
    /\ unsyncedGBC (snd (fst (gbcSync now finalSync clock s))) = 0
    /\ lastGBC (snd (fst (gbcSync now finalSync clock s)))
       = lastGBC s + change
    /\ gbcSyncPromise (snd (fst (gbcSync now finalSync clock s)))
       = Some (change, finalSync)).
  { intros now finalSync clock s change Hin.
    destruct (gbcSync_outcome now finalSync clock s)
      as [captured Hpending|Hidle Hfinal Hearly|Hidle Hdue Hzero
         |Hidle Hdue Hnz]; cbn [snd fst In] in *.
    - contradiction.
    - destruct Hin as [Habsurd|[]]. discriminate.
    - destruct Hin as [Habsurd|[]]. discriminate.
    - destruct Hin as [Heq|[Habsurd|[]]]; [|discriminate].
      injection Heq as <-. cbn. repeat split; auto. }
  split; [exact gbcSync_pending|].
  split; [|split; [exact at_most_one_add_per_interval|split]].
  - intros now clock s Hearly.
    destruct (gbcSyncPromise s) as [captured|] eqn:Hpending.
    + rewrite (gbcSync_pending _ _ _ _ _ Hpending). split; reflexivity.
    + rewrite gbcSync_too_early by assumption. split; reflexivity.
  - intros now finalSync clock s change Hin.
    destruct (Hdelta _ _ _ _ _ Hin) as (H1 & _ & H2 & H3 & H4 & H5).
    cbv zeta. auto.
  - intros id gbc trace now finalSync clock change s Hin.
    destruct (Hdelta _ _ _ _ _ Hin) as (Hchange & Hidle & _).
    rewrite (unsynced_balance trace (initSession id gbc) 0)
      by (unfold inFlight; reflexivity).
    fold s. unfold inFlight. rewrite Hidle. lia.
Qed.

(** Witness of C8: the five events of [burstTrace]
    fall within one interval and issue the single add of the first boop;
    a sync of [twoUnsyncedSession] adds 2, the boops admitted since the
    add of the first boop succeeded. *)
Lemma gbcSync_coalesces_witness :
  withinOneInterval 1000 burstTrace
  /\ atomicAdds (snd (run burstTrace freshSession)) = [1]
  /\ (List.length (atomicAdds (snd (run burstTrace freshSession))) <= 1)%nat
  /\ In (StoreAtomicAdd 2) (snd (gbcSync None false 1350 twoUnsyncedSession))
  /\ 2 = acceptedNotAdded twoUnsyncedTrace (initSession "cQ" 42) 0.
Proof.
  assert (Hwithin : withinOneInterval 1000 burstTrace)
    by (repeat constructor; vm_compute; discriminate).
  assert (Hin : In (StoreAtomicAdd 2)
                   (snd (gbcSync None false 1350 twoUnsyncedSession)))
    by (vm_compute; left; reflexivity).
  destruct gbcSync_coalesces as (_ & _ & Hone & _ & Hcount).
  split; [exact Hwithin|]. split; [vm_compute; reflexivity|].
  split; [exact (Hone 1000 burstTrace freshSession Hwithin)|].
  split; [exact Hin|].
  apply (Hcount "cQ" 42 twoUnsyncedTrace None false 1350 2).
  vm_compute. left. reflexivity.
Defined.

(** *** A failed atomic add *)

(** The [.catch]/[.finally] callbacks after a failed write raise the
    displayed count by the captured change, whatever happened to the
    session while the write was in flight. *)
Lemma gbcSyncSettled_failed_displayed (clock : Z) (s : Session)
    (change : Z) (finalSync : bool) :
  gbcSyncPromise s = Some (change, finalSync) ->
  displayed (fst (gbcSyncSettled false clock s)) = displayed s + change.
Proof.
  intros Hpending. unfold gbcSyncSettled. rewrite Hpending.
  destruct finalSync; [unfold displayed; cbn; lia|].
  cbn [lastGBCSync set_gbcSyncPromise set_unsyncedGBC].
  destruct (GBC_SYNC_INTERVAL <=? clock - lastGBCSync s);
    [|unfold displayed; cbn; lia].
  match goal with
  | |- context [gbcSync ?a ?b ?c ?x] =>
      pose proof (gbcSync_facts a b c x) as Hfacts;
      destruct (gbcSync a b c x) as [[returned s4] effects]
  end.
  cbn [fst snd] in *. destruct Hfacts as (_ & Hshown & _).
  rewrite Hshown. unfold displayed.
  destruct (negb _); cbn; lia.
Qed.

(** C9.  When the atomic add issued by [gbcSync] fails, [unsyncedGBC] gets
    the snapshotted [change] back while [lastGBC], which was incremented by
    [change] before the write, is not reverted: the displayed count, which
    the sync itself left unchanged, exceeds its value before the sync by
    [change].  This lasts until a store notification overwrites [lastGBC].
    (When the failure is reported a full interval after the sync, the
    [.finally] callback at once re-issues the restored batch; the displayed
    count is the same.) *)
Theorem failed_add_counts_batch_twice
    (now : option Z) (finalSync : bool) (clock settledAt : Z) (s : Session) :
  gbcSyncPromise s = None ->
  unsyncedGBC s <> 0 ->
  finalSync = true
  \/ GBC_SYNC_INTERVAL <= orDateNow now clock - lastGBCSync s ->
  let change := unsyncedGBC s in
  let syncing := snd (fst (gbcSync now finalSync clock s)) in
  let failed := fst (gbcSyncSettled false settledAt syncing) in
  snd (gbcSync now finalSync clock s)
  = [StoreAtomicAdd change; ResetGBCSyncTimeout]
  /\ lastGBC syncing = lastGBC s + change
  /\ unsyncedGBC syncing = 0
  /\ displayed syncing = displayed s
  /\ displayed failed = displayed s + change
  /\ (finalSync = true
      \/ settledAt - orDateNow now clock < GBC_SYNC_INTERVAL ->
      lastGBC failed = lastGBC s + change
      /\ unsyncedGBC failed = change
      /\ gbcSyncPromise failed = None
      /\ snd (gbcSyncSettled false settledAt syncing) = [])
  /\ (forall later,
        gbcSyncPromise later = Some (change, finalSync) ->
        displayed (fst (gbcSyncSettled false settledAt later))
        = displayed later + change)
  /\ (forall val,
        val <> lastGBC failed ->
        lastGBC (fst (onGBCChange (JNum val) failed)) = val
        /\ displayed (fst (onGBCChange (JNum val) failed))
           = val + unsyncedGBC failed).
Proof.
  intros Hidle Hnz Hdue change syncing failed.
  assert (Hsync : gbcSync now finalSync clock s
                  = (PromiseResolved,
                     set_gbcSyncPromise (Some (change, finalSync))
                       (set_lastGBC (lastGBC s + change)
                          (set_unsyncedGBC 0
                             (set_lastGBCSync (orDateNow now clock) s))),
                     [StoreAtomicAdd change; ResetGBCSyncTimeout])).
  { rewrite gbcSync_due by assumption.
    destruct (Z.eqb_spec (unsyncedGBC s) 0); [contradiction|reflexivity]. }
  assert (Hpending : gbcSyncPromise syncing = Some (change, finalSync))
    by (subst syncing; rewrite Hsync; reflexivity).
  assert (Hshown : displayed syncing = displayed s)
    by (subst syncing; rewrite Hsync; unfold displayed; cbn; lia).
  split; [rewrite Hsync; reflexivity|].
  split; [subst syncing; rewrite Hsync; reflexivity|].
  split; [subst syncing; rewrite Hsync; reflexivity|].
  split; [exact Hshown|].
  split; [subst failed;
          rewrite (gbcSyncSettled_failed_displayed _ _ _ _ Hpending); lia|].
  split; [|split].
  - intros Hquiet. subst failed syncing. rewrite Hsync. cbn [fst snd].
    unfold gbcSyncSettled. cbn [gbcSyncPromise set_gbcSyncPromise].
    destruct finalSync; [cbn; repeat split; lia|].
    destruct Hquiet as [Habsurd|Hquiet]; [discriminate|].
    cbn [lastGBCSync set_gbcSyncPromise set_lastGBC set_unsyncedGBC
         set_lastGBCSync].
    destruct (Z.leb_spec GBC_SYNC_INTERVAL (settledAt - orDateNow now clock));
      [lia|].
    cbn. repeat split; lia.
  - intros later Hlater.
    apply (gbcSyncSettled_failed_displayed _ _ _ _ Hlater).
  - intros val Hnew. unfold onGBCChange.
    destruct (Z.eqb_spec val (lastGBC failed)); [contradiction|].
    unfold displayed. cbn. split; reflexivity.
Qed.

(** Witness of C9: the trailing timer
    syncs the two unsynced boops of [twoUnsyncedSession] (displayed 45),
    the add fails 50 ms later, and the displayed count is 47. *)
Lemma failed_add_counts_batch_twice_witness :
  displayed twoUnsyncedSession = 45
  /\ displayed
       (fst (gbcSyncSettled false 1400
               (snd (fst (gbcSync None false 1350 twoUnsyncedSession)))))
     = 45 + 2.
Proof.
  split; [vm_compute; reflexivity|].
  refine (proj1 (proj2 (proj2 (proj2 (proj2
            (failed_add_counts_batch_twice None false 1350 1400
               twoUnsyncedSession _ _ _)))))).
  - vm_compute. reflexivity.
  - vm_compute. discriminate.
  - right. vm_compute. discriminate.
Defined.

(* ================================================================= *)
(** ** The frame codec *)

Lemma digit36_value (d : Z) :
  0 <= d < 36 ->
  isBase36Digit (digit36 d) = true /\ digitValue36 (digit36 d) = d.
Proof.
  intros Hd.
  destruct d as [|p|p]; [split; reflexivity| |lia].
  do 6 (try (destruct p as [p|p|]; try lia)); split; reflexivity.
Qed.

Lemma allBase36Digits_app (s1 s2 : string) :
  allBase36Digits (s1 ++ s2)%string
  = allBase36Digits s1 && allBase36Digits s2.
Proof.
  induction s1 as [|c rest IH]; cbn [String.append allBase36Digits];
    [reflexivity|].
  rewrite IH. apply andb_assoc.
Qed.

Lemma string_length_app (s1 s2 : string) :
  String.length (s1 ++ s2)%string
  = (String.length s1 + String.length s2)%nat.
Proof.
  induction s1 as [|c rest IH]; cbn [String.append String.length];
    [reflexivity|].
  rewrite IH. reflexivity.
Qed.

Lemma string_app_assoc (s1 s2 s3 : string) :
  ((s1 ++ s2) ++ s3 = s1 ++ (s2 ++ s3))%string.
Proof.
  induction s1 as [|c rest IH]; cbn [String.append]; [reflexivity|].
  rewrite IH. reflexivity.
Qed.

Lemma digits36_step (fuel : nat) (n : Z) (acc : string) :
  digits36 (S fuel) n acc
  = if n / 36 =? 0 then String (digit36 (n mod 36)) acc
    else digits36 fuel (n / 36) (String (digit36 (n mod 36)) acc).
Proof. reflexivity. Qed.

(** The digits written for [n], followed by [acc]: they are base-36
    digits, as few as [n] needs, and reading them back multiplies what was
    read so far by [36 ^ length] and adds [n]. *)
Lemma digits36_spec :
  forall fuel n acc,
    0 <= n < 36 ^ Z.of_nat (S fuel) ->
    exists written,
      digits36 (S fuel) n acc = (written ++ acc)%string
      /\ allBase36Digits written = true
      /\ (1 <= String.length written)%nat
      /\ (String.length written = 1%nat
          \/ 36 ^ (Z.of_nat (String.length written) - 1) <= n)
      /\ forall rest a,
           parseDigits36 (written ++ rest) a
           = parseDigits36 rest
               (a * 36 ^ Z.of_nat (String.length written) + n).
Proof.
  induction fuel as [|fuel IH]; intros n acc Hn.
  - change (36 ^ Z.of_nat 1) with 36 in Hn.
    exists (String (digit36 n) EmptyString).
    rewrite digits36_step. rewrite Z.mod_small, Z.div_small by lia.
    destruct (digit36_value n Hn) as [Hdigit Hvalue].
    cbn [Z.eqb String.append allBase36Digits String.length parseDigits36].
    rewrite Hdigit, Hvalue.
    repeat split; auto; try (intros rest a; f_equal; lia).
  - assert (Hmod : 0 <= n mod 36 < 36) by (apply Z.mod_pos_bound; lia).
    destruct (digit36_value (n mod 36) Hmod) as [Hdigit Hvalue].
    rewrite digits36_step.
    destruct (Z.eqb_spec (n / 36) 0) as [Hsmall|Hlarge].
    + exists (String (digit36 (n mod 36)) EmptyString).
      assert (Hlt : n < 36).
      { pose proof (Z.div_mod n 36 ltac:(lia)). lia. }
      cbn [String.append allBase36Digits String.length parseDigits36].
      rewrite Hdigit, Hvalue, Z.mod_small by lia.
      repeat split; auto; try (intros rest a; f_equal; lia).
    + assert (Hdiv : 0 <= n / 36 < 36 ^ Z.of_nat (S fuel)).
      { split; [apply Z.div_pos; lia|].
        apply Z.div_lt_upper_bound; [lia|].
        rewrite <- Z.pow_succ_r by lia. rewrite <- Nat2Z.inj_succ. lia. }
      destruct (IH (n / 36) (String (digit36 (n mod 36)) acc) Hdiv)
        as (high & Hwritten & Hall & Hone & Hmin & Hparse).
      exists (high ++ String (digit36 (n mod 36)) EmptyString)%string.
      assert (Hlen : String.length
                       (high ++ String (digit36 (n mod 36)) EmptyString)
                     = S (String.length high)).
      { rewrite string_length_app. cbn [String.length]. lia. }
      split; [rewrite Hwritten, string_app_assoc; reflexivity|].
      split; [rewrite allBase36Digits_app, Hall; cbn [allBase36Digits];
              rewrite Hdigit; reflexivity|].
      rewrite Hlen. split; [lia|]. split.
      * right. rewrite Nat2Z.inj_succ.
        replace (Z.succ (Z.of_nat (String.length high)) - 1)
          with (Z.succ (Z.of_nat (String.length high) - 1)) by lia.
        rewrite Z.pow_succ_r by lia.
        pose proof (Z.div_mod n 36 ltac:(lia)) as Hsplit.
        destruct Hmin as [Hfirst|Hmin].
        -- rewrite Hfirst. change (36 ^ (Z.of_nat 1 - 1)) with 1.
           assert (1 <= n / 36) by lia. lia.
        -- nia.
      * intros rest a. rewrite string_app_assoc, Hparse.
        cbn [String.append parseDigits36]. rewrite Hdigit, Hvalue.
        f_equal. rewrite Nat2Z.inj_succ, Z.pow_succ_r by lia.
        pose proof (Z.div_mod n 36 ltac:(lia)). lia.
Qed.

Lemma toString36_fuel (n : Z) :
  0 <= n -> n < 36 ^ Z.of_nat (S (Z.to_nat (Z.log2 n))).
Proof.
  intros Hn. rewrite Nat2Z.inj_succ, Z2Nat.id by apply Z.log2_nonneg.
  destruct (Z.eq_dec n 0) as [->|Hpos]; [cbn; lia|].
  pose proof (Z.log2_spec n ltac:(lia)) as [_ Hlt].
  eapply Z.lt_le_trans; [exact Hlt|].
  apply Z.pow_le_mono_l. pose proof (Z.log2_nonneg n). lia.
Qed.

(** [toString(36)] of a non-negative integer, read back by the request
    pattern and [parseInt(_, 36)]. *)
Lemma toString36_parseInt36 (n : Z) :
  0 <= n ->
  allBase36Digits (toString36 n) = true
  /\ (1 <= String.length (toString36 n))%nat
  /\ parseInt36 (toString36 n) = n
  /\ (n < 36 ^ 11 -> matchBase36 (toString36 n) = Some (toString36 n)).
Proof.
  intros Hn. unfold toString36.
  destruct (Z.ltb_spec n 0); [lia|].
  destruct (digits36_spec (Z.to_nat (Z.log2 n)) n EmptyString
              (conj Hn (toString36_fuel n Hn)))
    as (written & Hwritten & Hall & Hone & Hmin & Hparse).
  assert (Hnil : forall s, (s ++ EmptyString)%string = s).
  { induction s as [|c rest IH]; cbn [String.append]; congruence. }
  rewrite Hwritten, Hnil.
  split; [exact Hall|]. split; [exact Hone|]. split.
  - unfold parseInt36. specialize (Hparse EmptyString 0).
    rewrite Hnil in Hparse. rewrite Hparse. cbn [parseDigits36]. lia.
  - intros Hsmall. unfold matchBase36. rewrite Hall. cbn [andb].
    destruct (Z.leb_spec 1 (Z.of_nat (String.length written))); [|lia].
    destruct (Z.leb_spec (Z.of_nat (String.length written)) 11);
      [reflexivity|].
    destruct Hmin as [Hfirst|Hmin]; [lia|].
    assert (36 ^ 11 <= 36 ^ (Z.of_nat (String.length written) - 1))
      by (apply Z.pow_le_mono_r; lia).
    lia.
Qed.

(* ================================================================= *)
(** ** Boop requests and cooldown queries, case by case *)

(** A nonzero result of [#getCooldown] is never before [now]. *)
Lemma getCooldown_not_before (now : Z) (s : Session) :
  fst (getCooldown now s) = 0 \/ now <= fst (getCooldown now s).
Proof.
  unfold getCooldown.
  destruct (BPH_LIMIT <=? lastBPH s + unsyncedBPH s).
  - destruct (virtuallyRemove (bph s) _ _ _) as [virtualBPH soonest].
    cbn [fst]. right. lia.
  - destruct (BPM_LIMIT <=? Z.of_nat (List.length (bpmBoops s)));
      [destruct (ONE_MINUTE <=? now - nth 0 (bpmBoops s) 0)|]; cbn [fst];
      [left; reflexivity|right; lia|left; reflexivity].
Qed.

(** [#gbcSync] sends nothing on the channel. *)
Lemma gbcSync_sends_nothing (now : option Z) (finalSync : bool) (clock : Z)
    (s : Session) :
  forall e, In e (snd (gbcSync now finalSync clock s)) ->
            (exists change, e = StoreAtomicAdd change)
            \/ e = ResetGBCSyncTimeout.
Proof.
  intros e Hin.
  destruct (gbcSync_outcome now finalSync clock s); cbn [snd In] in Hin;
    intuition eauto.
Qed.

(** [#gbcSync] touches the GBC fields only. *)
Lemma gbcSync_frame (now : option Z) (finalSync : bool) (clock : Z)
    (s : Session) :
  let s' := snd (fst (gbcSync now finalSync clock s)) in
  clientId s' = clientId s /\ wsOpen s' = wsOpen s /\ bph s' = bph s
  /\ lastBPH s' = lastBPH s /\ unsyncedBPH s' = unsyncedBPH s
  /\ cooldownUntil s' = cooldownUntil s /\ cooldownFails s' = cooldownFails s
  /\ bpmBoops s' = bpmBoops s
  /\ bphRemoveTimeouts s' = bphRemoveTimeouts s.
Proof.
  destruct (gbcSync_cases now finalSync clock s)
    as (returned & syncedAt & unsynced & last & pending & effects & ->).
  cbn. repeat split; reflexivity.
Qed.

(** What [#onBoop] does once no cooldown is active: it rejects with the
    time left until the computed cooldown ends, or admits the boop. *)
Lemma onBoopFresh_cases (now boopId : Z) (s : Session) :
  let cooldown := fst (getCooldown now s) in
  let checked := snd (getCooldown now s) in
  let s' := fst (onBoopFresh now boopId s) in
  (cooldown <> 0
   /\ onBoopFresh now boopId s
      = (set_cooldownUntil cooldown checked,
         [WsSend (PROTO_BOOP_REJECT ++ toString36 boopId ++ "," ++
                  toString36 (cooldown - now))]))
  \/ (cooldown = 0
      /\ (exists syncEffects,
            snd (onBoopFresh now boopId s)
            = (syncEffects
                 ++ [WsSend (PROTO_BOOP_REPLY ++ toString36 boopId)]
                 ++ sendBoopCount s')%list
            /\ forall e, In e syncEffects ->
                 (exists change, e = StoreAtomicAdd change)
                 \/ e = ResetGBCSyncTimeout)
      /\ displayed s' = displayed s + 1
      /\ unsyncedBPH s' = unsyncedBPH s + 1
      /\ bpmBoops s' = (bpmBoops checked ++ [now])%list
      /\ cooldownFails s' = 0
      /\ cooldownUntil s' = cooldownUntil s
      /\ wsOpen s' = wsOpen s
      /\ bph s' = bph s /\ lastBPH s' = lastBPH s).
Proof.
  cbv zeta. unfold onBoopFresh.
  destruct (getCooldown_cases now s) as (cooldown & window & ->).
  cbn [fst snd].
  destruct (Z.eqb_spec cooldown 0) as [->|Hnonzero]; cbn [negb].
  - right. split; [reflexivity|].
    match goal with
    | |- context [gbcSync ?a ?b ?c ?x] =>
        pose proof (gbcSync_facts a b c x) as Hfacts;
        pose proof (gbcSync_frame a b c x) as Hframe;
        pose proof (gbcSync_sends_nothing a b c x) as Hquiet;
        destruct (gbcSync a b c x) as [[returned s1] effects]
    end.
    cbn [fst snd] in *. cbv zeta in Hframe.
    destruct Hfacts as (_ & Hshown & _).
    destruct Hframe as (_ & Hopen & Hbph & Hlast & Hunsynced & Huntil
                        & Hfails & Hwindow & _).
    unfold displayed in *. cbn in *.
    split; [exists effects; split; [reflexivity|exact Hquiet]|].
    repeat split; try congruence; lia.
  - left. split; [exact Hnonzero|reflexivity].
Qed.

(** What [#onBoop] does, in all: during an active cooldown it rejects or,
    past [CD_FAIL_LIMIT] failures, closes; otherwise it behaves as
    [onBoopFresh] on a session whose [cooldownUntil] is 0. *)
Lemma onBoop_cases (now boopId : Z) (s : Session) :
  (cooldownActive now s
   /\ onBoop now boopId s
      = if CD_FAIL_LIMIT <=? cooldownFails s
        then (set_wsOpen false (set_cooldownFails (cooldownFails s + 1) s),
              [WsClose TOO_MANY_COOLDOWN_FAILS_ERRCODE
                       TOO_MANY_COOLDOWN_FAILS_ERRMSG])
        else (set_cooldownFails (cooldownFails s + 1) s,
              [WsSend (rejectFrame boopId now s)]))
  \/ (~ cooldownActive now s
      /\ onBoop now boopId s = onBoopFresh now boopId (set_cooldownUntil 0 s)).
Proof.
  destruct (Z.eq_dec (cooldownUntil s) 0) as [Hzero|Hset].
  - right. split; [intros [Hset _]; contradiction|].
    unfold onBoop. rewrite Hzero. cbn [Z.eqb negb].
    f_equal. destruct s; cbn in *; subst; reflexivity.
  - destruct (Z.lt_ge_cases now (cooldownUntil s)) as [Hlt|Hge].
    + left. split; [split; assumption|].
      apply onBoop_active. split; assumption.
    + right. split; [intros [_ Hlt]; lia|].
      unfold onBoop.
      destruct (Z.eqb_spec (cooldownUntil s) 0); [contradiction|].
      cbn [negb]. destruct (Z.ltb_spec now (cooldownUntil s)); [lia|].
      reflexivity.
Qed.

(** X2.  Every boop request gets exactly one answer.  Either it is
    rejected with one frame [r<boopId>,<remaining>], [remaining] being the
    non-negative time left until [cooldownUntil], and nothing is counted;
    or the channel is closed with code 1002 (only after [CD_FAIL_LIMIT]
    failures), and nothing is counted; or it is admitted: the frames are
    [b<boopId>] and then the count, preceded by store operations only, the
    displayed count and [unsyncedBPH] both grow by one, [now] ends the
    minute window, and the cooldown state is cleared. *)
Theorem onBoop_answers_once (now boopId : Z) (s : Session) :
  let s' := fst (onBoop now boopId s) in
  let effects := snd (onBoop now boopId s) in
  (exists remaining,
      0 <= remaining
      /\ effects = [WsSend (PROTO_BOOP_REJECT ++ toString36 boopId ++ "," ++
                            toString36 remaining)]
      /\ cooldownUntil s' = now + remaining
      /\ displayed s' = displayed s /\ unsyncedBPH s' = unsyncedBPH s
      /\ wsOpen s' = wsOpen s)
  \/ (effects = [WsClose 1002 TOO_MANY_COOLDOWN_FAILS_ERRMSG]
      /\ cooldownActive now s /\ CD_FAIL_LIMIT <= cooldownFails s
      /\ wsOpen s' = false
      /\ displayed s' = displayed s /\ unsyncedBPH s' = unsyncedBPH s)
  \/ (exists syncEffects,
        effects = (syncEffects
                     ++ [WsSend (PROTO_BOOP_REPLY ++ toString36 boopId)]
                     ++ sendBoopCount s')%list
        /\ (forall e, In e syncEffects ->
              (exists change, e = StoreAtomicAdd change)
              \/ e = ResetGBCSyncTimeout)
        /\ displayed s' = displayed s + 1
        /\ unsyncedBPH s' = unsyncedBPH s + 1
        /\ (exists earlier, bpmBoops s' = (earlier ++ [now])%list)
        /\ cooldownFails s' = 0 /\ cooldownUntil s' = 0
        /\ wsOpen s' = wsOpen s).
Proof.
  cbv zeta.
  destruct (onBoop_cases now boopId s) as [[Hactive ->]|[Hidle ->]].
  - destruct Hactive as [Hset Hbefore].
    destruct (Z.leb_spec CD_FAIL_LIMIT (cooldownFails s)) as [Hmany|Hfew].
    + right. left. cbn. repeat split; auto.
    + left. exists (cooldownUntil s - now). cbn.
      repeat split; auto; lia.
  - pose proof (onBoopFresh_cases now boopId (set_cooldownUntil 0 s))
      as Hfresh.
    cbv zeta in Hfresh. rewrite getCooldown_set_cooldownUntil in Hfresh.
    cbn [fst snd] in Hfresh.
    destruct Hfresh as [[Hnonzero ->]|(Hzero & Hsent & Hshown & Hbph & Hwindow
                                       & Hfails & Huntil & Hopen & _)].
    + left. exists (fst (getCooldown now s) - now).
      destruct (getCooldown_not_before now s) as [Habsurd|Hlater];
        [contradiction|].
      destruct (getCooldown_cases now s) as (cooldown & window & Hcooldown).
      rewrite Hcooldown in *. cbn [fst snd] in *. unfold displayed. cbn.
      repeat split; auto; lia.
    + right. right. destruct Hsent as (syncEffects & Heffects & Hquiet).
      exists syncEffects. unfold displayed in *. cbn in Hshown, Hbph, Huntil,
        Hopen.
      repeat split; auto. eexists. exact Hwindow.
Qed.

(** X1.  The requests a client writes are read back as written: for an
    id that is a non-negative safe integer the frame [b<id in base 36>]
    is handled as the boop request [id], and [d<id in base 36>] as the
    cooldown query [id]. *)
Theorem onMessage_decodes_requests (now id : Z) (c : Connection) :
  0 <= id <= MAX_SAFE_INTEGER ->
  onMessage (StringData (PROTO_BOOP_REQUEST ++ toString36 id)) now c
  = ofSession (onBoop now id (session c)) c
  /\ onMessage (StringData (PROTO_COOLDOWN_QUERY ++ toString36 id)) now c
     = ofSession (onCooldownQuery id now (session c)) c.
Proof.
  intros [Hlow Hhigh].
  destruct (toString36_parseInt36 id Hlow) as (_ & _ & Hparse & Hmatch).
  assert (Hsafe : MAX_SAFE_INTEGER < 36 ^ 11) by (vm_compute; reflexivity).
  specialize (Hmatch ltac:(lia)).
  split.
  - unfold onMessage.
    change (PROTO_BOOP_REQUEST ++ toString36 id)%string
      with (String "b" (toString36 id)).
    cbn [String.eqb Ascii.eqb Bool.eqb PROTO_HEARTBEAT].
    cbn [sliceAfter PROTO_BOOP_REQUEST Ascii.eqb Bool.eqb].
    rewrite Hmatch, Hparse. reflexivity.
  - unfold onMessage, onMessageQuery.
    change (PROTO_COOLDOWN_QUERY ++ toString36 id)%string
      with (String "d" (toString36 id)).
    cbn [String.eqb Ascii.eqb Bool.eqb PROTO_HEARTBEAT].
    cbn [sliceAfter PROTO_BOOP_REQUEST PROTO_COOLDOWN_QUERY Ascii.eqb Bool.eqb].
    rewrite Hmatch, Hparse. reflexivity.
Qed.

(** Witness of X1: the boop request 1001 travels as [brt]. *)
Lemma onMessage_decodes_requests_witness :
  PROTO_BOOP_REQUEST ++ toString36 1001 = "brt"
  /\ onMessage (StringData "brt") 5000
       {| session := freshSession; heartbeatTimeout := true |}
     = ofSession (onBoop 5000 1001 freshSession)
         {| session := freshSession; heartbeatTimeout := true |}.
Proof.
  split; [vm_compute; reflexivity|].
  refine (proj1 (onMessage_decodes_requests 5000 1001
                   {| session := freshSession; heartbeatTimeout := true |} _)).
  vm_compute. split; discriminate.
Defined.

(** When [#getCooldown] answers 0, at a positive time. *)
Lemma getCooldown_zero_iff (now : Z) (s : Session) :
  0 < now ->
  fst (getCooldown now s) = 0
  <-> ~ bphSaturated s
      /\ (Z.of_nat (List.length (bpmBoops s)) < BPM_LIMIT
          \/ ONE_MINUTE <= now - nth 0 (bpmBoops s) 0).
Proof.
  intros Hnow. unfold getCooldown, bphSaturated.
  destruct (Z.leb_spec BPH_LIMIT (lastBPH s + unsyncedBPH s)) as [Hsat|Hfree].
  - destruct (virtuallyRemove (bph s) _ _ _) as [virtualBPH soonest].
    cbn [fst]. split; [lia|intros [Hno _]; contradiction].
  - destruct (Z.leb_spec BPM_LIMIT (Z.of_nat (List.length (bpmBoops s))))
      as [Hfull|Hroom].
    + destruct (Z.leb_spec ONE_MINUTE (now - nth 0 (bpmBoops s) 0))
        as [Hold|Hyoung]; cbn [fst].
      * split; [intros _; split; [lia|right; exact Hold]|reflexivity].
      * split; [lia|intros [_ [Hroom|Hold]]; lia].
    + cbn [fst]. split; [intros _; split; [lia|left; exact Hroom]|reflexivity].
Qed.

(** X3.  The admission criterion.  At a positive time, a boop request is
    answered with [b<boopId>] exactly when no cooldown is active, the
    hourly ledger is below [BPH_LIMIT], and the minute window either holds
    fewer than [BPM_LIMIT] timestamps or its oldest one is at least a
    minute old. *)
Theorem boop_accepted_iff (now boopId : Z) (s : Session) :
  0 < now ->
  In (WsSend (PROTO_BOOP_REPLY ++ toString36 boopId))
     (snd (onBoop now boopId s))
  <-> ~ cooldownActive now s
      /\ ~ bphSaturated s
      /\ (Z.of_nat (List.length (bpmBoops s)) < BPM_LIMIT
          \/ ONE_MINUTE <= now - nth 0 (bpmBoops s) 0).
Proof.
  intros Hnow.
  pose proof (getCooldown_zero_iff now s Hnow) as Hzero.
  destruct (onBoop_cases now boopId s) as [[Hactive ->]|[Hidle ->]].
  - split; [|intros [Habsurd _]; contradiction].
    destruct (CD_FAIL_LIMIT <=? cooldownFails s); cbn [snd In];
      intros [Hframe|[]]; discriminate.
  - pose proof (onBoopFresh_cases now boopId (set_cooldownUntil 0 s))
      as Hfresh.
    cbv zeta in Hfresh. rewrite getCooldown_set_cooldownUntil in Hfresh.
    cbn [fst snd] in Hfresh.
    destruct Hfresh as [[Hnonzero ->]|(Hgo & (syncEffects & -> & _) & _)].
    + cbn [snd In]. split.
      * intros [Hframe|[]]. discriminate.
      * intros (_ & Hlimits). apply Hzero in Hlimits. contradiction.
    + split.
      * intros _. split; [exact Hidle|]. apply Hzero, Hgo.
      * intros _. apply in_or_app. right. left. reflexivity.
Qed.

(** Witness of X3: a fresh session admits its first boop. *)
Lemma boop_accepted_iff_witness :
  In (WsSend "b1") (snd (onBoop 5000 1 freshSession)).
Proof.
  apply (proj2 (boop_accepted_iff 5000 1 freshSession ltac:(lia))).
  split; [intros [Hset _]; apply Hset; reflexivity|].
  split; [vm_compute; intros H; apply H; reflexivity|].
  left. vm_compute. reflexivity.
Defined.

(* ================================================================= *)
(** ** Frames the server takes for requests *)

Lemma sliceAfter_spec (tag data payload : string) :
  sliceAfter tag data = Some payload <-> data = (tag ++ payload)%string.
Proof.
  revert data. induction tag as [|t tag IH]; intros data.
  - cbn. split; congruence.
  - destruct data as [|d data]; cbn [sliceAfter append].
    + split; discriminate.
    + destruct (Ascii.eqb_spec t d) as [->|Hne].
      * rewrite IH. split; [intros ->; reflexivity|intros [= ->]; reflexivity].
      * split; [discriminate|intros [= -> _]; contradiction].
Qed.

Lemma matchBase36_spec (s capture : string) :
  matchBase36 s = Some capture
  <-> capture = s /\ allBase36Digits s = true
      /\ (1 <= String.length s <= 11)%nat.
Proof.
  unfold matchBase36.
  destruct (allBase36Digits s); cbn [andb].
  - destruct (Z.leb_spec 1 (Z.of_nat (String.length s))); cbn [andb].
    + destruct (Z.leb_spec (Z.of_nat (String.length s)) 11).
      * split; [intros [= <-]; repeat split; lia|intros (-> & _); reflexivity].
      * split; [discriminate|intros (_ & _ & Hlen); lia].
    + split; [discriminate|intros (_ & _ & Hlen); lia].
  - split; [discriminate|intros (_ & Habsurd & _); discriminate].
Qed.

(** A frame is a request exactly when the slice after its tag matches. *)
Lemma isRequestFrame_match (tag data : string) :
  isRequestFrame tag data
  <-> exists payload,
        sliceAfter tag data = Some payload
        /\ matchBase36 payload = Some payload.
Proof.
  unfold isRequestFrame. split; intros (payload & Hslice & Hmatch).
  - exists payload. split; [apply sliceAfter_spec, Hslice|].
    apply matchBase36_spec. tauto.
  - exists payload. split; [apply sliceAfter_spec, Hslice|].
    apply matchBase36_spec in Hmatch. tauto.
Qed.

(** The handlers of requests never answer [i]. *)
Lemma onBoop_never_invalid (now boopId : Z) (s : Session) :
  ~ In (WsSend PROTO_INVALID) (snd (onBoop now boopId s)).
Proof.
  destruct (onBoop_cases now boopId s) as [[_ ->]|[_ ->]].
  - destruct (CD_FAIL_LIMIT <=? cooldownFails s); cbn [snd In];
      intros [Hframe|[]]; discriminate.
  - pose proof (onBoopFresh_cases now boopId (set_cooldownUntil 0 s))
      as Hfresh.
    cbv zeta in Hfresh.
    destruct Hfresh as [[_ ->]|(_ & (syncEffects & -> & Hquiet) & _)].
    + cbn [snd In]. intros [Hframe|[]]. discriminate.
    + intros Hin. apply in_app_or in Hin as [Hin|Hin].
      * destruct (Hquiet _ Hin) as [[change Habsurd]|Habsurd]; discriminate.
      * apply in_app_or in Hin as [[Hframe|[]]|Hin]; [discriminate|].
        unfold sendBoopCount in Hin.
        destruct (wsOpen _); [|destruct Hin].
        destruct Hin as [Hframe|[]]. discriminate.
Qed.

Lemma onCooldownQuery_never_invalid (queryId now : Z) (s : Session) :
  ~ In (WsSend PROTO_INVALID) (snd (onCooldownQuery queryId now s)).
Proof.
  assert (Hfresh : forall s0,
             ~ In (WsSend PROTO_INVALID)
                  (snd (onCooldownQueryFresh queryId now s0))).
  { intros s0. unfold onCooldownQueryFresh.
    destruct (getCooldown now s0) as [cooldown s1].
    destruct (negb (cooldown =? 0)); cbn [snd In];
      intros [Hframe|[]]; discriminate. }
  unfold onCooldownQuery.
  destruct (negb (cooldownUntil s =? 0)); [|apply Hfresh].
  destruct (now <? cooldownUntil s); [|apply Hfresh].
  cbn [snd In]. intros [Hframe|[]]. discriminate.
Qed.

Lemma ofSession_never_invalid (r : Session * list effect) (c : Connection) :
  ~ In (WsSend PROTO_INVALID) (snd r) ->
  ~ In (OfSession (WsSend PROTO_INVALID)) (snd (ofSession r c)).
Proof.
  intros Hnever Hin. unfold ofSession in Hin. cbn [snd] in Hin.
  apply in_map_iff in Hin as (e & [= ->] & Hin). exact (Hnever Hin).
Qed.

(** X13.  The answer [i].  A text frame that is neither the heartbeat nor
    a request (the tag [b] or [d], then 1 to 11 characters of [[0-9a-z]])
    is answered with [i] alone and changes nothing; and [i] is sent for no
    other frame. *)
Theorem onMessage_invalid_iff (data : string) (now : Z) (c : Connection) :
  let malformed :=
    data <> PROTO_HEARTBEAT
    /\ ~ isRequestFrame PROTO_BOOP_REQUEST data
    /\ ~ isRequestFrame PROTO_COOLDOWN_QUERY data in
  (malformed ->
   onMessage (StringData data) now c
   = (c, [OfSession (WsSend PROTO_INVALID)]))
  /\ (In (OfSession (WsSend PROTO_INVALID))
         (snd (onMessage (StringData data) now c)) -> malformed).
Proof.
  cbv zeta.
  assert (Hquery :
            (~ isRequestFrame PROTO_COOLDOWN_QUERY data ->
             onMessageQuery data now c
             = (c, [OfSession (WsSend PROTO_INVALID)]))
            /\ (In (OfSession (WsSend PROTO_INVALID))
                   (snd (onMessageQuery data now c)) ->
                ~ isRequestFrame PROTO_COOLDOWN_QUERY data)).
  { unfold onMessageQuery.
    destruct (sliceAfter PROTO_COOLDOWN_QUERY data) as [payload|] eqn:Hslice.
    - destruct (matchBase36 payload) as [capture|] eqn:Hmatch.
      + pose proof Hmatch as Hcapture.
        apply matchBase36_spec in Hcapture as [-> _].
        split.
        * intros Hnot. exfalso. apply Hnot, isRequestFrame_match. eauto.
        * intros Hin. exfalso.
          exact (ofSession_never_invalid _ c
                   (onCooldownQuery_never_invalid _ now (session c)) Hin).
      + split; [reflexivity|].
        intros _ Hreq. apply isRequestFrame_match in Hreq
          as (payload' & Hslice' & Hmatch'). congruence.
    - split; [reflexivity|].
      intros _ Hreq. apply isRequestFrame_match in Hreq
        as (payload' & Hslice' & _). congruence. }
  destruct Hquery as [Hquery_bad Hquery_only].
  unfold onMessage.
  destruct (String.eqb_spec data PROTO_HEARTBEAT) as [->|Hbeat].
  - split; [intros [Habsurd _]; contradiction|].
    unfold resetHeartbeatTimeout.
    destruct (heartbeatTimeout c); cbn [snd In app];
      intuition discriminate.
  - destruct (sliceAfter PROTO_BOOP_REQUEST data) as [payload|] eqn:Hslice.
    + destruct (matchBase36 payload) as [capture|] eqn:Hmatch.
      * pose proof Hmatch as Hcapture.
        apply matchBase36_spec in Hcapture as [-> _].
        split.
        -- intros (_ & Hnot & _). exfalso.
           apply Hnot, isRequestFrame_match. eauto.
        -- intros Hin. exfalso.
           exact (ofSession_never_invalid _ c
                    (onBoop_never_invalid now _ (session c)) Hin).
      * split; [intros (_ & _ & Hnot); apply Hquery_bad, Hnot|].
        intros Hin. split; [exact Hbeat|]. split; [|apply Hquery_only, Hin].
        intros Hreq. apply isRequestFrame_match in Hreq
          as (payload' & Hslice' & Hmatch'). congruence.
    + split; [intros (_ & _ & Hnot); apply Hquery_bad, Hnot|].
      intros Hin. split; [exact Hbeat|]. split; [|apply Hquery_only, Hin].
      intros Hreq. apply isRequestFrame_match in Hreq
        as (payload' & Hslice' & _). congruence.
Qed.

(* ================================================================= *)
(** ** The minute window along a trace *)

(** [boopAccepted] is the test under which [#onBoop] sends [b<boopId>]. *)
Lemma boopAccepted_reply (now boopId : Z) (s : Session) :
  boopAccepted now s = true
  <-> In (WsSend (PROTO_BOOP_REPLY ++ toString36 boopId))
         (snd (onBoop now boopId s)).
Proof.
  unfold boopAccepted.
  destruct (onBoop_cases now boopId s) as [[[Hset Hlt] ->]|[Hidle ->]].
  - destruct (Z.eqb_spec (cooldownUntil s) 0); [contradiction|].
    destruct (Z.ltb_spec now (cooldownUntil s)); [|lia]. cbn [negb andb].
    split; [discriminate|].
    destruct (CD_FAIL_LIMIT <=? cooldownFails s); cbn [snd In];
      intros [Hframe|[]]; discriminate.
  - assert (Hgate : negb (negb (cooldownUntil s =? 0)
                          && (now <? cooldownUntil s)) = true).
    { unfold cooldownActive in Hidle.
      destruct (Z.eqb_spec (cooldownUntil s) 0); [reflexivity|].
      destruct (Z.ltb_spec now (cooldownUntil s)); [tauto|reflexivity]. }
    rewrite Hgate. cbn [andb].
    pose proof (onBoopFresh_cases now boopId (set_cooldownUntil 0 s))
      as Hfresh.
    cbv zeta in Hfresh. rewrite getCooldown_set_cooldownUntil in Hfresh.
    cbn [fst snd] in Hfresh.
    destruct Hfresh as [[Hnonzero ->]|(Hgo & (syncEffects & -> & _) & _)].
    + cbn [snd In]. split.
      * intros Hzero. apply Z.eqb_eq in Hzero. contradiction.
      * intros [Hframe|[]]. discriminate.
    + rewrite Hgo. split; [|reflexivity].
      intros _. apply in_or_app. right. left. reflexivity.
Qed.

(** What [#getCooldown] does to the minute window: it leaves it alone, and
    then answers 0 at a positive time only if the window has room; or it
    answers 0 and prunes a full window whose oldest timestamp is a minute
    old. *)
Lemma getCooldown_window (now : Z) (s : Session) :
  (bpmBoops (snd (getCooldown now s)) = bpmBoops s
   /\ (0 < now -> fst (getCooldown now s) = 0 ->
       Z.of_nat (List.length (bpmBoops s)) < BPM_LIMIT))
  \/ (fst (getCooldown now s) = 0
      /\ bpmBoops (snd (getCooldown now s))
         = filter (withinLastMinute now) (bpmBoops s)
      /\ BPM_LIMIT <= Z.of_nat (List.length (bpmBoops s))
      /\ ONE_MINUTE <= now - nth 0 (bpmBoops s) 0).
Proof.
  unfold getCooldown.
  destruct (BPH_LIMIT <=? lastBPH s + unsyncedBPH s).
  - destruct (virtuallyRemove (bph s) _ _ _).
    left. cbn [fst snd]. split; [reflexivity|lia].
  - destruct (Z.leb_spec BPM_LIMIT (Z.of_nat (List.length (bpmBoops s))));
      [|left; cbn [fst snd]; split; [reflexivity|lia]].
    destruct (Z.leb_spec ONE_MINUTE (now - nth 0 (bpmBoops s) 0));
      [|left; cbn [fst snd]; split; [reflexivity|lia]].
    right. cbn. repeat split; auto.
Qed.

Lemma pushedChange_cons (e : effect) (effects : list effect) :
  pushedChange (e :: effects)
  = match e with
    | StorePush _ change => change + pushedChange effects
    | _ => pushedChange effects
    end.
Proof. reflexivity. Qed.

Lemma pushedChange_app (effects1 effects2 : list effect) :
  pushedChange (effects1 ++ effects2)
  = pushedChange effects1 + pushedChange effects2.
Proof.
  induction effects1 as [|e effects1 IH]; [reflexivity|].
  rewrite <- app_comm_cons, !pushedChange_cons. destruct e; lia.
Qed.

(** The GBC scheduler pushes nothing. *)
Lemma pushedChange_quiet (effects : list effect) :
  (forall e, In e effects ->
             (exists change, e = StoreAtomicAdd change)
             \/ e = ResetGBCSyncTimeout) ->
  pushedChange effects = 0.
Proof.
  induction effects as [|e effects IH]; [reflexivity|].
  intros Hquiet. rewrite pushedChange_cons.
  destruct (Hquiet e (or_introl eq_refl)) as [[change ->]| ->];
    apply IH; intros e' Hin; apply Hquiet; right; exact Hin.
Qed.

(** Events other than requests leave the window and [unsyncedBPH] alone,
    but for the two BPH sync events, which leave the window alone. *)
Lemma step_window_frame (e : event) (s : Session) :
  match e with
  | EvBoop _ _ | EvCooldownQuery _ _ => True
  | EvSyncBPHInterval _ | EvSyncBPHFailed _ =>
      bpmBoops (fst (step e s)) = bpmBoops s
  | _ => bpmBoops (fst (step e s)) = bpmBoops s
         /\ unsyncedBPH (fst (step e s)) = unsyncedBPH s
         /\ pushedChange (snd (step e s)) = 0
  end.
Proof.
  destruct e; cbn [step]; try exact I;
    unfold gbcSyncSettled, onGBCChange, syncBPH, syncBPHFailed,
      onBPHChildAdded, onBPHChildRemoved, onRemoveTimeout;
    try match goal with
      | |- context [match gbcSyncPromise ?s with _ => _ end] =>
          destruct (gbcSyncPromise s) as [[? ?]|]
      | |- context [match ?v with JNull => _ | _ => _ end] => destruct v
      | |- context [match ?key with Some _ => _ | None => _ end] =>
          destruct key
      end;
    break_conditions;
    try match goal with
      | |- context [gbcSync ?a ?b ?c ?x] =>
          pose proof (gbcSync_frame a b c x) as Hframe;
          pose proof (gbcSync_sends_nothing a b c x) as Hquiet;
          destruct (gbcSync a b c x) as [[returned s1] effects];
          cbv zeta in Hframe; cbn [fst snd] in *
      end;
    cbn; break_conditions;
    try match goal with
      | |- context [match ?t with Some _ => _ | None => _ end] => destruct t
      end;
    cbn; auto;
    try (repeat split; unfold sendBoopCount; break_conditions; reflexivity);
    destruct Hframe as (_ & _ & _ & _ & Hunsynced & _ & _ & Hwindow & _);
    cbn in Hunsynced, Hwindow;
    repeat split; try assumption; apply pushedChange_quiet, Hquiet.
Qed.

(** What a boop request does to the window and to [unsyncedBPH]. *)
Lemma onBoop_window (now boopId : Z) (s : Session) :
  let s' := fst (onBoop now boopId s) in
  pushedChange (snd (onBoop now boopId s)) = 0
  /\ if boopAccepted now s
     then bpmBoops s' = (bpmBoops (snd (getCooldown now s)) ++ [now])%list
          /\ unsyncedBPH s' = unsyncedBPH s + 1
          /\ fst (getCooldown now s) = 0
     else bpmBoops s' = bpmBoops s /\ unsyncedBPH s' = unsyncedBPH s.
Proof.
  cbv zeta. unfold boopAccepted.
  destruct (onBoop_cases now boopId s) as [[[Hset Hlt] ->]|[Hidle ->]].
  - destruct (Z.eqb_spec (cooldownUntil s) 0); [contradiction|].
    destruct (Z.ltb_spec now (cooldownUntil s)); [|lia]. cbn [negb andb].
    destruct (CD_FAIL_LIMIT <=? cooldownFails s); cbn; auto.
  - assert (Hgate : negb (negb (cooldownUntil s =? 0)
                          && (now <? cooldownUntil s)) = true).
    { unfold cooldownActive in Hidle.
      destruct (Z.eqb_spec (cooldownUntil s) 0); [reflexivity|].
      destruct (Z.ltb_spec now (cooldownUntil s)); [tauto|reflexivity]. }
    rewrite Hgate. cbn [andb].
    pose proof (onBoopFresh_cases now boopId (set_cooldownUntil 0 s))
      as Hfresh.
    cbv zeta in Hfresh. rewrite getCooldown_set_cooldownUntil in Hfresh.
    cbn [fst snd] in Hfresh.
    destruct Hfresh
      as [[Hnonzero ->]
         |(Hgo & (syncEffects & -> & Hquiet) & _ & Hunsynced & Hwindow & _)].
    + destruct (Z.eqb_spec (fst (getCooldown now s)) 0); [contradiction|].
      destruct (getCooldown_cases now s) as (cooldown & window & Hcases).
      destruct (getCooldown_window now s) as [[Hsame _]|(Habsurd & _)];
        [|contradiction].
      rewrite Hcases in *. cbn in *. auto.
    + rewrite Hgo. cbn [Z.eqb].
      split; [|repeat split; assumption].
      rewrite !pushedChange_app, (pushedChange_quiet _ Hquiet).
      unfold sendBoopCount. break_conditions; reflexivity.
Qed.

(** What a cooldown query does to the window and to [unsyncedBPH]. *)
Lemma onCooldownQuery_window (queryId now : Z) (s : Session) :
  let s' := fst (onCooldownQuery queryId now s) in
  pushedChange (snd (onCooldownQuery queryId now s)) = 0
  /\ unsyncedBPH s' = unsyncedBPH s
  /\ (bpmBoops s' = bpmBoops s
      \/ bpmBoops s' = bpmBoops (snd (getCooldown now s))).
Proof.
  cbv zeta.
  assert (Hfresh : forall s0,
             pushedChange (snd (onCooldownQueryFresh queryId now s0)) = 0
             /\ unsyncedBPH (fst (onCooldownQueryFresh queryId now s0))
                = unsyncedBPH s0
             /\ bpmBoops (fst (onCooldownQueryFresh queryId now s0))
                = bpmBoops (snd (getCooldown now s0))).
  { intros s0. unfold onCooldownQueryFresh.
    destruct (getCooldown_cases now s0) as (cooldown & window & ->).
    destruct (negb (cooldown =? 0)); cbn; auto. }
  unfold onCooldownQuery.
  destruct (negb (cooldownUntil s =? 0)); [|].
  - destruct (now <? cooldownUntil s); [cbn; auto|].
    destruct (Hfresh (set_cooldownUntil 0 s)) as (Hpush & Hunsynced & Hwindow).
    rewrite getCooldown_set_cooldownUntil in Hwindow.
    cbn in Hunsynced, Hwindow. auto.
  - destruct (Hfresh s) as (Hpush & Hunsynced & Hwindow). auto.
Qed.

(** What one event does to the minute window: it may first prune it, at
    the event's time and only when it is full and its oldest timestamp is
    a minute old, and then appends the time of the boop it admits.  A boop
    admitted at a positive time without pruning found room. *)
Lemma step_window (e : event) (s : Session) :
  exists kept,
    bpmBoops (fst (step e s)) = (kept ++ acceptedAt e s)%list
    /\ ((kept = bpmBoops s
         /\ (acceptedAt e s <> [] ->
             (forall now, clockOf e = Some now -> 0 < now) ->
             Z.of_nat (List.length (bpmBoops s)) < BPM_LIMIT))
        \/ exists now,
             clockOf e = Some now
             /\ kept = filter (withinLastMinute now) (bpmBoops s)
             /\ BPM_LIMIT <= Z.of_nat (List.length (bpmBoops s))
             /\ ONE_MINUTE <= now - nth 0 (bpmBoops s) 0).
Proof.
  pose proof (step_window_frame e s) as Hframe.
  destruct e;
    try (exists (bpmBoops s); cbn [acceptedAt]; rewrite app_nil_r;
         split; [first [exact Hframe|exact (proj1 Hframe)]|];
         left; split; [reflexivity|congruence]).
  - (* a boop *)
    cbn [step acceptedAt clockOf].
    pose proof (onBoop_window now boopId s) as [_ Hwindow].
    destruct (boopAccepted now s).
    + destruct Hwindow as (Hwindow & _ & Hgo).
      exists (bpmBoops (snd (getCooldown now s))).
      split; [exact Hwindow|].
      destruct (getCooldown_window now s)
        as [[Hsame Hroom]|(_ & Hpruned & Hfull & Hold)].
      * left. split; [exact Hsame|]. intros _ Hpos.
        apply Hroom; [apply Hpos; reflexivity|exact Hgo].
      * right. exists now. auto.
    + exists (bpmBoops s). rewrite app_nil_r.
      split; [exact (proj1 Hwindow)|]. left. split; [reflexivity|congruence].
  - (* a cooldown query *)
    cbn [step acceptedAt clockOf].
    pose proof (onCooldownQuery_window queryId now s)
      as (_ & _ & [Hsame|Hchecked]).
    + exists (bpmBoops s). rewrite app_nil_r. split; [exact Hsame|].
      left. split; [reflexivity|congruence].
    + exists (bpmBoops (snd (getCooldown now s))). rewrite app_nil_r.
      split; [exact Hchecked|].
      destruct (getCooldown_window now s)
        as [[Hsame _]|(_ & Hpruned & Hfull & Hold)].
      * left. split; [exact Hsame|congruence].
      * right. exists now. auto.
Qed.

(** Pruning a nonempty window whose oldest timestamp is a minute old
    drops at least that timestamp. *)
Lemma filter_drops_oldest (now : Z) (window : list Z) :
  window <> [] ->
  ONE_MINUTE <= now - nth 0 window 0 ->
  (List.length (filter (withinLastMinute now) window)
   < List.length window)%nat.
Proof.
  destruct window as [|oldest window]; [congruence|].
  intros _ Hold. cbn [nth] in Hold. cbn [filter].
  unfold withinLastMinute at 1.
  destruct (Z.ltb_spec (now - oldest) ONE_MINUTE); [lia|].
  cbn [List.length].
  pose proof (filter_length_le (withinLastMinute now) window). lia.
Qed.

(** An event admits at most one boop. *)
Lemma acceptedAt_length (e : event) (s : Session) :
  (List.length (acceptedAt e s) <= 1)%nat
  /\ (acceptedAt e s = [] \/ List.length (acceptedAt e s) = 1%nat).
Proof.
  destruct e; cbn [acceptedAt]; try (cbn; auto; fail).
  destruct (boopAccepted now s); cbn; auto.
Qed.

(** One event keeps the window within [BPM_LIMIT]. *)
Lemma step_window_bounded (e : event) (s : Session) :
  (forall now, clockOf e = Some now -> 0 < now) ->
  Z.of_nat (List.length (bpmBoops s)) <= BPM_LIMIT ->
  Z.of_nat (List.length (bpmBoops (fst (step e s)))) <= BPM_LIMIT.
Proof.
  intros Hpos Hbound.
  destruct (step_window e s) as (kept & -> & Hkept).
  rewrite length_app.
  destruct (acceptedAt_length e s) as [Hone [Hnone|Hsome]].
  - destruct Hkept as [[-> Hroom]|(now & _ & -> & Hfull & Hold)].
    + rewrite Hnone. cbn [List.length]. lia.
    + pose proof (filter_length_le (withinLastMinute now) (bpmBoops s)).
      rewrite Hnone. cbn [List.length]. lia.
  - destruct Hkept as [[-> Hroom]|(now & _ & -> & Hfull & Hold)].
    + assert (acceptedAt e s <> []) as Haccepted.
      { intros Hnil. rewrite Hnil in Hsome. discriminate. }
      specialize (Hroom Haccepted Hpos). lia.
    + assert (bpmBoops s <> []) as Hnonempty.
      { intros Hnil. rewrite Hnil in Hfull. cbn in Hfull.
        unfold BPM_LIMIT in Hfull. lia. }
      pose proof (filter_drops_oldest now (bpmBoops s) Hnonempty Hold). lia.
Qed.

(** A trace keeps the window within [BPM_LIMIT]. *)
Lemma run_window_bounded (trace : list event) (s : Session) :
  positiveClocks trace ->
  Z.of_nat (List.length (bpmBoops s)) <= BPM_LIMIT ->
  Z.of_nat (List.length (bpmBoops (fst (run trace s)))) <= BPM_LIMIT.
Proof.
  intros Hpos. revert s.
  induction Hpos as [|e trace He Hpos IH]; intros s Hbound; [exact Hbound|].
  rewrite run_cons. cbn [fst]. apply IH, step_window_bounded; [|exact Hbound].
  intros now Hclock. rewrite Hclock in He. exact He.
Qed.

(** X4.  The minute window never holds more than [BPM_LIMIT] timestamps:
    whatever events a connection handles at positive times, in whatever
    order, [bpmBoops] has at most [BPM_LIMIT] entries afterwards. *)
Theorem bpmBoops_bounded (trace : list event) (id : string) (gbc : Z) :
  positiveClocks trace ->
  Z.of_nat (List.length (bpmBoops (fst (run trace (initSession id gbc)))))
  <= BPM_LIMIT.
Proof.
  intros Hpos. apply run_window_bounded; [exact Hpos|].
  cbn. unfold BPM_LIMIT. lia.
Qed.

Lemma bpmBoops_bounded_witness :
  positiveClocks [EvBoop 1000 1; EvCooldownQuery 1 1500; EvBoop 2000 2]
  /\ Z.of_nat (List.length
       (bpmBoops
          (fst (run [EvBoop 1000 1; EvCooldownQuery 1 1500; EvBoop 2000 2]
                    (initSession "cQ" 42))))) <= BPM_LIMIT.
Proof.
  assert (Hpos : positiveClocks
                   [EvBoop 1000 1; EvCooldownQuery 1 1500; EvBoop 2000 2])
    by (repeat constructor).
  split; [exact Hpos|].
  exact (bpmBoops_bounded _ "cQ" 42 Hpos).
Defined.

(** *** The rate of admitted boops *)

(** Pruning at an earlier time does not show at a later one. *)
Lemma filter_within_later (now later : Z) (window : list Z) :
  now <= later ->
  filter (withinLastMinute later) (filter (withinLastMinute now) window)
  = filter (withinLastMinute later) window.
Proof.
  intros Hle. induction window as [|t window IH]; [reflexivity|].
  cbn [filter].
  destruct (withinLastMinute now t) eqn:Hin.
  - cbn [filter]. rewrite IH. reflexivity.
  - assert (Hout : withinLastMinute later t = false).
    { unfold withinLastMinute in *.
      apply Z.ltb_ge. apply Z.ltb_ge in Hin. lia. }
    rewrite Hout. exact IH.
Qed.

(** A chronological trace after a positive time has positive clocks. *)
Lemma chronological_positive (trace : list event) (from : Z) :
  0 < from -> chronological from trace -> positiveClocks trace.
Proof.
  revert from. induction trace as [|e trace IH]; intros from Hfrom Hchrono;
    [constructor|].
  cbn [chronological] in Hchrono.
  destruct (clockOf e) as [t|] eqn:Hclock.
  - destruct Hchrono as [Hle Hchrono].
    constructor; [rewrite Hclock; lia|]. apply (IH t); [lia|exact Hchrono].
  - constructor; [rewrite Hclock; exact I|]. apply (IH from); assumption.
Qed.

(** Seen from any time after the trace, the window holds the boops
    admitted in the last minute. *)
Lemma window_tracks_accepted (trace : list event) :
  forall (s : Session) (history : list Z) (from : Z),
    chronological from trace ->
    (forall now, from <= now ->
                 filter (withinLastMinute now) history
                 = filter (withinLastMinute now) (bpmBoops s)) ->
    forall now,
      lastClock from trace <= now ->
      filter (withinLastMinute now) (history ++ acceptedTimes trace s)
      = filter (withinLastMinute now) (bpmBoops (fst (run trace s))).
Proof.
  induction trace as [|e trace IH]; intros s history from Hchrono Hinv now Hnow.
  - cbn [acceptedTimes run fst lastClock] in *. rewrite app_nil_r.
    apply Hinv, Hnow.
  - cbn [acceptedTimes lastClock chronological] in *.
    rewrite run_cons, app_assoc. cbn [fst].
    destruct (step_window e s) as (kept & Hstep & Hkept).
    refine (IH (fst (step e s)) (history ++ acceptedAt e s)%list
               (match clockOf e with Some t => t | None => from end)
               _ _ now Hnow).
    + destruct (clockOf e); [exact (proj2 Hchrono)|exact Hchrono].
    + intros later Hlater. rewrite Hstep, !filter_app. f_equal.
      destruct Hkept as [[-> _]|(t & Hclock & -> & _)].
      * apply Hinv. destruct (clockOf e); [lia|exact Hlater].
      * rewrite Hclock in *. rewrite filter_within_later by exact Hlater.
        apply Hinv. lia.
Qed.

(** X5.  The rate limit on admitted boops.  Take the events a connection
    handles, with clocks that never go back and start positive, and any
    time [now] not before the last of them: at most [BPM_LIMIT] boops were
    admitted less than a minute before [now].  (A boop is admitted when
    [#onBoop] answers [b<boopId>], see [boopAccepted_reply].) *)
Theorem accepted_boops_rate_limited (trace : list event) (id : string)
    (gbc from now : Z) :
  0 < from ->
  chronological from trace ->
  lastClock from trace <= now ->
  Z.of_nat (List.length
              (filter (withinLastMinute now)
                      (acceptedTimes trace (initSession id gbc))))
  <= BPM_LIMIT.
Proof.
  intros Hfrom Hchrono Hnow.
  pose proof (window_tracks_accepted trace (initSession id gbc) [] from
                Hchrono (fun _ _ => eq_refl) now Hnow) as Htracks.
  cbn [app] in Htracks. rewrite Htracks.
  pose proof (filter_length_le (withinLastMinute now)
                (bpmBoops (fst (run trace (initSession id gbc))))) as Hle.
  assert (Hbound : Z.of_nat (List.length
                     (bpmBoops (fst (run trace (initSession id gbc)))))
                   <= BPM_LIMIT).
  { apply run_window_bounded;
      [exact (chronological_positive trace from Hfrom Hchrono)|].
    cbn. unfold BPM_LIMIT. lia. }
  lia.
Qed.

Lemma accepted_boops_rate_limited_witness :
  0 < 1000
  /\ chronological 1000
       [EvBoop 1000 1; EvCooldownQuery 1 1500; EvBoop 2000 2]
  /\ lastClock 1000 [EvBoop 1000 1; EvCooldownQuery 1 1500; EvBoop 2000 2]
     <= 2500
  /\ Z.of_nat (List.length
       (filter (withinLastMinute 2500)
          (acceptedTimes
             [EvBoop 1000 1; EvCooldownQuery 1 1500; EvBoop 2000 2]
             (initSession "cQ" 42)))) <= BPM_LIMIT.
Proof.
  assert (Hfrom : 0 < 1000) by lia.
  assert (Hchrono : chronological 1000
            [EvBoop 1000 1; EvCooldownQuery 1 1500; EvBoop 2000 2])
    by (cbn; lia).
  assert (Hnow : lastClock 1000
            [EvBoop 1000 1; EvCooldownQuery 1 1500; EvBoop 2000 2] <= 2500)
    by (cbn; lia).
  split; [exact Hfrom|]. split; [exact Hchrono|]. split; [exact Hnow|].
  exact (accepted_boops_rate_limited _ "cQ" 42 1000 2500 Hfrom Hchrono Hnow).
Defined.

(* ================================================================= *)
(** ** The hourly count of admitted boops *)

(** What one event does to [unsyncedBPH]. *)
Lemma step_unsyncedBPH (e : event) (s : Session) :
  unsyncedBPH (fst (step e s)) + pushedChange (snd (step e s))
  = unsyncedBPH s + Z.of_nat (List.length (acceptedAt e s))
    + failedChange [e].
Proof.
  pose proof (step_window_frame e s) as Hframe.
  destruct e; cbn [acceptedAt failedChange fold_right List.length];
    try (destruct Hframe as (_ & -> & ->); lia).
  - cbn [step].
    pose proof (onBoop_window now boopId s) as [Hpush Hcount].
    rewrite Hpush. destruct (boopAccepted now s).
    + destruct Hcount as (_ & -> & _). cbn [List.length]. lia.
    + destruct Hcount as (_ & ->). cbn [List.length]. lia.
  - cbn [step].
    pose proof (onCooldownQuery_window queryId now s) as (-> & -> & _). lia.
  - cbn [step]. unfold syncBPH.
    destruct (Z.eqb_spec (unsyncedBPH s) 0) as [Hzero|Hsome]; cbn; lia.
  - cbn. lia.
Qed.

Lemma failedChange_cons (e : event) (trace : list event) :
  failedChange (e :: trace) = failedChange [e] + failedChange trace.
Proof. unfold failedChange. cbn [fold_right]. destruct e; lia. Qed.

(** X6.  No admitted boop is lost to the hourly ledger: after any trace,
    [unsyncedBPH] plus the changes of all pushed BPH entries equals what
    [unsyncedBPH] was, plus one for each admitted boop, plus the changes
    the failed pushes gave back. *)
Theorem accepted_boops_pushed_or_pending (trace : list event) (s : Session) :
  unsyncedBPH (fst (run trace s)) + pushedChange (snd (run trace s))
  = unsyncedBPH s + Z.of_nat (List.length (acceptedTimes trace s))
    + failedChange trace.
Proof.
  revert s. induction trace as [|e trace IH]; intros s; [cbn; lia|].
  rewrite run_cons, failedChange_cons. cbn [fst snd acceptedTimes].
  rewrite pushedChange_app, length_app, Nat2Z.inj_add.
  specialize (IH (fst (step e s))).
  pose proof (step_unsyncedBPH e s). lia.
Qed.

(* ================================================================= *)
(** ** The mirror and its removal timers along a trace *)

Section PropAgree.
Context {V W : Type}.
Implicit Types (obj : list (string * V)) (map : list (string * W)).

Lemma propIn_agree key obj map :
  keysOf obj = keysOf map -> propIn key obj = propIn key map.
Proof.
  revert map. induction obj as [|[k v] rest IH]; intros [|[k' w] map] Hkeys;
    try discriminate; [reflexivity|].
  unfold keysOf in *. cbn [List.map fst] in Hkeys.
  injection Hkeys as <- Hkeys. cbn [propIn].
  destruct (String.eqb key k); [reflexivity|]. apply IH, Hkeys.
Qed.

Lemma keysOf_propSet_agree key (v : V) (w : W) obj map :
  keysOf obj = keysOf map ->
  keysOf (propSet key v obj) = keysOf (propSet key w map).
Proof.
  revert map. induction obj as [|[k v0] rest IH]; intros [|[k' w0] map] Hkeys;
    try discriminate; [reflexivity|].
  unfold keysOf in *. cbn [List.map fst] in Hkeys.
  injection Hkeys as <- Hkeys. cbn [propSet].
  destruct (String.eqb key k); cbn [List.map fst]; f_equal; auto.
Qed.

Lemma keysOf_propDelete_agree key obj map :
  keysOf obj = keysOf map ->
  keysOf (propDelete key obj) = keysOf (propDelete key map).
Proof.
  revert map. induction obj as [|[k v0] rest IH]; intros [|[k' w0] map] Hkeys;
    try discriminate; [reflexivity|].
  unfold keysOf in *. cbn [List.map fst] in Hkeys.
  injection Hkeys as <- Hkeys. cbn [propDelete].
  destruct (String.eqb key k); cbn [List.map fst]; [exact Hkeys|].
  f_equal. auto.
Qed.
End PropAgree.

(** Only the two child events touch the removal timers. *)
Lemma step_timers_frame (e : event) (s : Session) :
  match e with
  | EvBPHChildAdded _ _ _ | EvBPHChildRemoved _ => True
  | _ => bphRemoveTimeouts (fst (step e s)) = bphRemoveTimeouts s
  end.
Proof.
  destruct e; cbn [step]; try exact I;
    unfold onBoop, onBoopFresh, onCooldownQuery, onCooldownQueryFresh,
      gbcSyncSettled, onGBCChange, syncBPH, syncBPHFailed, onRemoveTimeout;
    try match goal with
      | |- context [match gbcSyncPromise ?s with _ => _ end] =>
          destruct (gbcSyncPromise s) as [[? ?]|]
      | |- context [match ?v with JNull => _ | _ => _ end] => destruct v
      end;
    break_conditions; normalize_helpers; cbn; break_conditions;
    reflexivity.
Qed.

(** One event keeps the timers on the keys of the mirror. *)
Lemma step_timers (e : event) (s : Session) :
  keysOf (bphRemoveTimeouts s) = keysOf (bph s) ->
  keysOf (bphRemoveTimeouts (fst (step e s))) = keysOf (bph (fst (step e s))).
Proof.
  intros Hkeys.
  pose proof (step_ledger_frame e s) as Hledger.
  pose proof (step_timers_frame e s) as Htimers.
  destruct e;
    try (match type of Hledger with
         | _ /\ _ => destruct Hledger as [-> _]; rewrite Htimers; exact Hkeys
         end);
    cbn [step].
  - unfold onBPHChildAdded. destruct key as [key|]; [|exact Hkeys].
    destruct (negb _); [exact Hkeys|]. cbn.
    apply keysOf_propSet_agree, Hkeys.
  - unfold onBPHChildRemoved. destruct key as [key|]; [|exact Hkeys].
    destruct (propIn key (bph s)) eqn:Hin; cbn [negb]; [|exact Hkeys].
    rewrite <- (propIn_agree key _ _ Hkeys) in Hin.
    destruct (propGet_propIn key _ Hin) as [timeout Htimeout].
    cbn. rewrite Htimeout. cbn.
    apply keysOf_propDelete_agree, Hkeys.
Qed.

(** X7.  The removal timers follow the mirror: whatever events a
    connection handles, as long as the keys the store reports are plain,
    the keys of [bphRemoveTimeouts] are the keys of the mirror [bph], in
    the same order.  So every mirrored entry has a timer recorded, the
    removal of an entry always finds and clears its timer, and no timer
    is recorded for an entry the mirror lacks. *)
Theorem timers_follow_mirror (trace : list event) (id : string) (gbc : Z) :
  plainKeys trace ->
  let s := fst (run trace (initSession id gbc)) in
  keysOf (bphRemoveTimeouts s) = keysOf (bph s)
  /\ forall key,
       propIn key (bph s) = true ->
       exists timeout,
         propGet key (bphRemoveTimeouts s) = Some timeout
         /\ onBPHChildRemoved (Some key) s
            = (set_bphRemoveTimeouts
                 (propDelete key (bphRemoveTimeouts s))
                 (set_bph (propDelete key (bph s))
                    (set_lastBPH
                       (lastBPH s - changeOf (entryAt (bph s) key)) s)),
               [ClearRemoveTimeout key]).
Proof.
  intros _. cbv zeta.
  assert (Hkeys : forall s,
             keysOf (bphRemoveTimeouts s) = keysOf (bph s) ->
             keysOf (bphRemoveTimeouts (fst (run trace s)))
             = keysOf (bph (fst (run trace s)))).
  { induction trace as [|e trace IH]; intros s Hs; [exact Hs|].
    rewrite run_cons. cbn [fst]. apply IH, step_timers, Hs. }
  specialize (Hkeys (initSession id gbc) eq_refl).
  split; [exact Hkeys|].
  intros key Hin.
  pose proof Hin as Htimer.
  rewrite <- (propIn_agree key _ _ Hkeys) in Htimer.
  destruct (propGet_propIn key _ Htimer) as [timeout Htimeout].
  exists timeout. split; [exact Htimeout|].
  unfold onBPHChildRemoved. rewrite Hin. cbn. rewrite Htimeout. reflexivity.
Qed.

Lemma timers_follow_mirror_witness :
  plainKeys
    [EvBPHChildAdded (Some "-k1") (JArr [JNum 3700000; JNum 2]) 100;
     EvBPHChildAdded (Some "-k2") (JArr [JNum 3700500; JNum 1]) 600;
     EvBPHChildRemoved (Some "-k1")]
  /\ keysOf (bphRemoveTimeouts
       (fst (run
          [EvBPHChildAdded (Some "-k1") (JArr [JNum 3700000; JNum 2]) 100;
           EvBPHChildAdded (Some "-k2") (JArr [JNum 3700500; JNum 1]) 600;
           EvBPHChildRemoved (Some "-k1")]
          (initSession "cQ" 42))))
     = keysOf (bph
       (fst (run
          [EvBPHChildAdded (Some "-k1") (JArr [JNum 3700000; JNum 2]) 100;
           EvBPHChildAdded (Some "-k2") (JArr [JNum 3700500; JNum 1]) 600;
           EvBPHChildRemoved (Some "-k1")]
          (initSession "cQ" 42)))).
Proof.
  assert (Hplain : plainKeys
    [EvBPHChildAdded (Some "-k1") (JArr [JNum 3700000; JNum 2]) 100;
     EvBPHChildAdded (Some "-k2") (JArr [JNum 3700500; JNum 1]) 600;
     EvBPHChildRemoved (Some "-k1")])
    by (repeat constructor).
  split; [exact Hplain|].
  exact (proj1 (timers_follow_mirror _ "cQ" 42 Hplain)).
Defined.

(** *** The sum of the mirror *)

(** One event keeps [lastBPH] the sum of the mirror, when it does not add
    a child the mirror holds. *)
Lemma step_ledgerConsistent (e : event) (s : Session) :
  match e with
  | EvBPHChildAdded (Some key) _ _ => propIn key (bph s) = false
  | _ => True
  end ->
  ledgerConsistent s ->
  ledgerConsistent (fst (step e s)).
Proof.
  unfold ledgerConsistent. intros Hfresh Hsum.
  pose proof (step_ledger_frame e s) as Hframe.
  destruct e;
    try (match type of Hframe with
         | _ /\ _ => destruct Hframe as [-> ->]; exact Hsum
         end);
    cbn [step].
  - unfold onBPHChildAdded. destruct key as [key|]; [|exact Hsum].
    destruct (negb _); [exact Hsum|]. cbn.
    rewrite propSet_new by exact Hfresh. rewrite sumOfChange_app, Hsum.
    cbn. lia.
  - unfold onBPHChildRemoved. destruct key as [key|]; [|exact Hsum].
    destruct (propIn key (bph s)) eqn:Hin; cbn [negb]; [|exact Hsum].
    cbn. destruct (propGet _ _); cbn;
      rewrite sumOfChange_propDelete by exact Hin; lia.
Qed.

(** X8.  Invariant 2 in every reachable state: along any trace in which
    the keys the store reports are plain and no child is reported as
    added while the mirror holds its key, [lastBPH] is the sum of the
    changes in the mirror, and the mirror has no key twice. *)
Theorem ledger_consistent_along_trace (trace : list event) (id : string)
    (gbc : Z) :
  plainKeys trace ->
  childrenAddedOnce trace (initSession id gbc) ->
  let s := fst (run trace (initSession id gbc)) in
  ledgerConsistent s /\ mirrorWF s.
Proof.
  intros _. cbv zeta.
  assert (Hinv : forall s,
             childrenAddedOnce trace s ->
             ledgerConsistent s /\ mirrorWF s ->
             ledgerConsistent (fst (run trace s))
             /\ mirrorWF (fst (run trace s))).
  { induction trace as [|e trace IH]; intros s Honce Hs; [exact Hs|].
    cbn [childrenAddedOnce] in Honce. destruct Honce as [Hfresh Honce].
    rewrite run_cons. cbn [fst]. apply IH; [exact Honce|].
    destruct Hs as [Hsum Hwf].
    split; [|exact (mirrorWF_step e s Hwf)].
    apply step_ledgerConsistent; [|exact Hsum].
    destruct e; try exact I. exact Hfresh. }
  intros Honce. apply Hinv; [exact Honce|].
  split; [reflexivity|constructor].
Qed.

Lemma ledger_consistent_along_trace_witness :
  plainKeys
    [EvBPHChildAdded (Some "-k1") (JArr [JNum 3700000; JNum 2]) 100;
     EvBoop 200 1;
     EvBPHChildAdded (Some "-k2") (JArr [JNum 3700500; JNum 1]) 600;
     EvBPHChildRemoved (Some "-k1")]
  /\ childrenAddedOnce
       [EvBPHChildAdded (Some "-k1") (JArr [JNum 3700000; JNum 2]) 100;
        EvBoop 200 1;
        EvBPHChildAdded (Some "-k2") (JArr [JNum 3700500; JNum 1]) 600;
        EvBPHChildRemoved (Some "-k1")]
       (initSession "cQ" 42)
  /\ ledgerConsistent
       (fst (run
          [EvBPHChildAdded (Some "-k1") (JArr [JNum 3700000; JNum 2]) 100;
           EvBoop 200 1;
           EvBPHChildAdded (Some "-k2") (JArr [JNum 3700500; JNum 1]) 600;
           EvBPHChildRemoved (Some "-k1")]
          (initSession "cQ" 42)))
  /\ mirrorWF
       (fst (run
          [EvBPHChildAdded (Some "-k1") (JArr [JNum 3700000; JNum 2]) 100;
           EvBoop 200 1;
           EvBPHChildAdded (Some "-k2") (JArr [JNum 3700500; JNum 1]) 600;
           EvBPHChildRemoved (Some "-k1")]
          (initSession "cQ" 42))).
Proof.
  assert (Hplain : plainKeys
    [EvBPHChildAdded (Some "-k1") (JArr [JNum 3700000; JNum 2]) 100;
     EvBoop 200 1;
     EvBPHChildAdded (Some "-k2") (JArr [JNum 3700500; JNum 1]) 600;
     EvBPHChildRemoved (Some "-k1")])
    by (repeat constructor).
  assert (Honce : childrenAddedOnce
    [EvBPHChildAdded (Some "-k1") (JArr [JNum 3700000; JNum 2]) 100;
     EvBoop 200 1;
     EvBPHChildAdded (Some "-k2") (JArr [JNum 3700500; JNum 1]) 600;
     EvBPHChildRemoved (Some "-k1")]
    (initSession "cQ" 42)) by (vm_compute; repeat split; reflexivity).
  split; [exact Hplain|]. split; [exact Honce|].
  exact (ledger_consistent_along_trace _ "cQ" 42 Hplain Honce).
Defined.

(* ================================================================= *)
(** ** The janitor: what a sweep removes *)

Section SweepFacts.
Import Janitor.
Variable now : Z.

(** The inner loop falls through exactly when every entry is well formed,
    and has then collected the stale ones. *)
Lemma sweepEntries_next (cleintId : string) :
  forall entries toRemove toRemove',
    sweepEntries now cleintId entries toRemove = Next toRemove'
    <-> existsb (fun kv => negb (isValidBPHEntry (snd kv))) entries = false
        /\ toRemove' = (toRemove ++ staleEntryPaths now cleintId entries)%list.
Proof.
  induction entries as [|[key value] rest IH]; intros toRemove toRemove'.
  - cbn. rewrite app_nil_r. split.
    + intros [= <-]. auto.
    + intros [_ ->]. reflexivity.
  - cbn [sweepEntries existsb staleEntryPaths flat_map snd fst].
    fold (staleEntryPaths now cleintId rest).
    destruct (negb (isValidBPHEntry value)); cbn [orb].
    + split; [discriminate|intros [Habsurd _]; discriminate].
    + destruct (_ <? now); rewrite IH.
      * rewrite <- app_assoc. reflexivity.
      * reflexivity.
Qed.

(** So does the outer loop. *)
Lemma sweepClients_next :
  forall clients toRemove toRemove',
    sweepClients now clients toRemove = Next toRemove'
    <-> existsb hasMalformedEntry clients = false
        /\ toRemove' = (toRemove ++ staleOrInvalidPaths now clients)%list.
Proof.
  induction clients as [|[cleintId bphEntries] rest IH];
    intros toRemove toRemove'.
  - cbn. rewrite app_nil_r. split.
    + intros [= <-]. auto.
    + intros [_ ->]. reflexivity.
  - cbn [sweepClients existsb staleOrInvalidPaths flat_map snd fst].
    fold (staleOrInvalidPaths now rest).
    destruct bphEntries as [| | | |items|entries];
      try (unfold hasMalformedEntry at 1; cbn [snd orb];
           rewrite IH, <- app_assoc; reflexivity).
    unfold hasMalformedEntry at 1. cbn [snd].
    destruct (sweepEntries now cleintId entries toRemove)
      as [collected|left] eqn:Hsweep.
    + apply sweepEntries_next in Hsweep as [-> ->]. cbn [orb].
      rewrite IH, <- app_assoc. reflexivity.
    + destruct (existsb _ entries) eqn:Hbad; cbn [orb].
      * split; [discriminate|intros [Habsurd _]; discriminate].
      * exfalso.
        assert (Hnext : sweepEntries now cleintId entries toRemove
                        = Next (toRemove
                                  ++ staleEntryPaths now cleintId entries)%list)
          by (apply sweepEntries_next; auto).
        congruence.
Qed.
End SweepFacts.

Lemma existsb_false_In {A : Type} (f : A -> bool) (l : list A) (x : A) :
  existsb f l = false -> In x l -> f x = false.
Proof.
  intros Hnone Hin. destruct (f x) eqn:Hfx; [|reflexivity].
  assert (Hsome : existsb f l = true)
    by (apply existsb_exists; exists x; auto).
  congruence.
Qed.

(** X9.  A sweep over a root without malformed entries is complete: it
    issues one removal for every client subtree that is not a map and for
    every entry more than an hour past its validity, in the order of the
    root, and then releases the app. *)
Theorem handleCron_removes_all_stale (clients : list (string * json))
    (now : Z) :
  existsb Janitor.hasMalformedEntry clients = false ->
  Janitor.handleCron (JObj clients) now
  = (map Janitor.OpRemove (staleOrInvalidPaths now clients)
       ++ [Janitor.OpDeleteApp])%list.
Proof.
  intros Hclean. unfold Janitor.handleCron.
  assert (Hnext : Janitor.sweepClients now clients []
                  = Janitor.Next (staleOrInvalidPaths now clients))
    by (apply sweepClients_next; auto).
  rewrite Hnext. reflexivity.
Qed.

Lemma handleCron_removes_all_stale_witness :
  existsb Janitor.hasMalformedEntry
    [("cA", JObj [("-k2", JArr [JNum 1; JNum 5])]);
     ("cB", JNum 7);
     ("cC", JObj [("-k3", JArr [JNum 9000000; JNum 7])])] = false
  /\ Janitor.handleCron
       (JObj [("cA", JObj [("-k2", JArr [JNum 1; JNum 5])]);
              ("cB", JNum 7);
              ("cC", JObj [("-k3", JArr [JNum 9000000; JNum 7])])])
       10000000
     = (map Janitor.OpRemove
          (staleOrInvalidPaths 10000000
             [("cA", JObj [("-k2", JArr [JNum 1; JNum 5])]);
              ("cB", JNum 7);
              ("cC", JObj [("-k3", JArr [JNum 9000000; JNum 7])])])
          ++ [Janitor.OpDeleteApp])%list.
Proof.
  split; [reflexivity|].
  apply handleCron_removes_all_stale. reflexivity.
Defined.

(** X10.  A sweep removes nothing else: every path [handleCron] removes,
    whatever the root holds, is a client subtree that is not a map, or a
    well-formed entry whose validity ended more than an hour before [now].
    A well-formed entry that is not that old is never removed. *)
Theorem handleCron_removes_only_stale (root : json) (now : Z) (path : string) :
  In path (Janitor.removals (Janitor.handleCron root now)) ->
  exists clients cleintId subtree,
    root = JObj clients
    /\ In (cleintId, subtree) clients
    /\ ((isObject subtree = false /\ path = BPH_KEY ++ "/" ++ cleintId)
        \/ exists entries key value,
             subtree = JObj entries
             /\ In (key, value) entries
             /\ isValidBPHEntry value = true
             /\ validUntilOf (bphEntryOf value) + ONE_HOUR < now
             /\ path = BPH_KEY ++ "/" ++ cleintId ++ "/" ++ key).
Proof.
  unfold Janitor.handleCron.
  destruct root as [| | | |items|clients]; try (cbn; intros [|[]]; fail);
    try (cbn; tauto).
  destruct (Janitor.sweepClients now clients []) as [toRemove|left] eqn:Hsweep;
    [|cbn; tauto].
  apply sweepClients_next in Hsweep as [Hclean ->]. cbn [app].
  intros Hin.
  assert (Hpath : In path (staleOrInvalidPaths now clients)).
  { unfold Janitor.removals in Hin. rewrite flat_map_app in Hin.
    apply in_app_or in Hin as [Hin|Hin]; [|cbn in Hin; tauto].
    apply in_flat_map in Hin as (op & Hop & Hin).
    apply in_map_iff in Hop as (p & <- & Hp).
    cbn in Hin. destruct Hin as [<-|[]]. exact Hp. }
  apply in_flat_map in Hpath as ([cleintId subtree] & Hclient & Hpath).
  exists clients, cleintId, subtree.
  split; [reflexivity|]. split; [exact Hclient|].
  cbn [fst snd] in Hpath.
  assert (Hmap : forall entries,
             subtree = JObj entries ->
             exists entries0 key value,
               subtree = JObj entries0
               /\ In (key, value) entries0
               /\ isValidBPHEntry value = true
               /\ validUntilOf (bphEntryOf value) + ONE_HOUR < now
               /\ path = BPH_KEY ++ "/" ++ cleintId ++ "/" ++ key).
  { intros entries ->.
    apply in_flat_map in Hpath as ([key value] & Hentry & Hpath).
    cbn [fst snd] in Hpath.
    destruct (Z.ltb_spec (validUntilOf (bphEntryOf value) + ONE_HOUR) now)
      as [Hstale|_]; [|destruct Hpath].
    destruct Hpath as [<-|[]].
    exists entries, key, value. repeat split; auto.
    pose proof (existsb_false_In _ _ _ Hclean Hclient) as Hvalid.
    unfold Janitor.hasMalformedEntry in Hvalid. cbn [snd] in Hvalid.
    pose proof (existsb_false_In _ _ _ Hvalid Hentry) as Hentry_valid.
    cbn [snd] in Hentry_valid.
    destruct (isValidBPHEntry value); [reflexivity|discriminate]. }
  destruct subtree; try (left; destruct Hpath as [<-|[]]; auto; fail).
  right. eapply Hmap. reflexivity.
Qed.

Lemma handleCron_removes_only_stale_witness :
  In "boops-per-hour/cA/-k2"
     (Janitor.removals (Janitor.handleCron rootWithoutMalformedEntry 10000000))
  /\ exists clients cleintId subtree,
       rootWithoutMalformedEntry = JObj clients
       /\ In (cleintId, subtree) clients
       /\ ((isObject subtree = false
            /\ "boops-per-hour/cA/-k2" = BPH_KEY ++ "/" ++ cleintId)
           \/ exists entries key value,
                subtree = JObj entries
                /\ In (key, value) entries
                /\ isValidBPHEntry value = true
                /\ validUntilOf (bphEntryOf value) + ONE_HOUR < 10000000
                /\ "boops-per-hour/cA/-k2"
                   = BPH_KEY ++ "/" ++ cleintId ++ "/" ++ key).
Proof.
  assert (Hin : In "boops-per-hour/cA/-k2"
                   (Janitor.removals
                      (Janitor.handleCron rootWithoutMalformedEntry 10000000)))
    by (vm_compute; left; reflexivity).
  split; [exact Hin|].
  exact (handleCron_removes_only_stale _ _ _ Hin).
Defined.

(* ================================================================= *)
(** ** Closing the connection *)

Lemma storeWrites_app (effects1 effects2 : list connEffect) :
  storeWrites (effects1 ++ effects2)
  = (storeWrites effects1 ++ storeWrites effects2)%list.
Proof. apply filter_app. Qed.

(** Clearing the removal timers writes nothing and arms nothing. *)
Lemma clearRemoveTimeouts_quiet (timeouts : list (string * Z)) :
  storeWrites
    (map (fun kv => OfSession (ClearRemoveTimeout (fst kv))) timeouts) = []
  /\ existsb armsGBCSyncTimeout
       (map (fun kv => OfSession (ClearRemoveTimeout (fst kv))) timeouts)
     = false.
Proof.
  induction timeouts as [|kv timeouts [IHwrites IHarms]]; [split; reflexivity|].
  split; [exact IHwrites|exact IHarms].
Qed.

(** The teardown of [#onClose] writes nothing and arms nothing. *)
Lemma teardown_quiet (c : Connection) :
  storeWrites (teardown c) = []
  /\ existsb armsGBCSyncTimeout (teardown c) = false
  /\ In ClearGBCSyncTimeout (teardown c).
Proof.
  unfold teardown.
  destruct (clearRemoveTimeouts_quiet (bphRemoveTimeouts (session c)))
    as [Hwrites Harms].
  split; [|split].
  - rewrite !storeWrites_app, Hwrites.
    destruct (heartbeatTimeout c); reflexivity.
  - rewrite !existsb_app, Harms. destruct (heartbeatTimeout c); reflexivity.
  - right. left. reflexivity.
Qed.

(** [#onClose] by its parts. *)
Lemma onClose_parts (clock : Z) (c : Connection) :
  let synced :=
    gbcSync (Some (clock + GBC_SYNC_INTERVAL + ONE_MINUTE)) false clock
            (set_bphRemoveTimeouts [] (session c)) in
  let pushed := syncBPH clock (snd (fst synced)) in
  onClose clock c
  = ({| session := fst pushed; heartbeatTimeout := heartbeatTimeout c |},
     (teardown c ++ map OfSession (snd synced)
        ++ map OfSession (snd pushed))%list).
Proof.
  cbv zeta. unfold onClose.
  destruct (gbcSync _ _ _ _) as [[returned s1] syncEffects]. cbn [fst snd].
  destruct (syncBPH clock s1) as [s2 pushEffects]. reflexivity.
Qed.

(** [#syncBPH] zeroes [unsyncedBPH], pushes it when it was not 0, and
    touches nothing else. *)
Lemma syncBPH_flush (clock : Z) (s : Session) :
  let s' := fst (syncBPH clock s) in
  snd (syncBPH clock s)
  = (if unsyncedBPH s =? 0 then []
     else [StorePush (clock + ONE_HOUR) (unsyncedBPH s)])
  /\ unsyncedBPH s' = 0
  /\ unsyncedGBC s' = unsyncedGBC s /\ lastGBC s' = lastGBC s
  /\ lastGBCSync s' = lastGBCSync s
  /\ gbcSyncPromise s' = gbcSyncPromise s
  /\ bphRemoveTimeouts s' = bphRemoveTimeouts s.
Proof.
  cbv zeta. unfold syncBPH.
  destruct (Z.eqb_spec (unsyncedBPH s) 0) as [Hzero|Hsome]; cbn; auto 10.
Qed.

(** X11.  Closing flushes both counters.  When no atomic add is in flight
    (and the last sync is not more than a minute ahead of the clock),
    [#onClose] writes exactly the unsynced part of the global count, if
    any, then the unsynced part of the hourly count, if any; it leaves
    both counters at 0, the displayed count as it was and no removal timer
    recorded.  The GBC sync timer it cleared in the teardown is armed
    again by the [#gbcSync] it calls. *)
Theorem onClose_flushes_counters (clock : Z) (c : Connection) :
  0 < clock ->
  gbcSyncPromise (session c) = None ->
  lastGBCSync (session c) <= clock + ONE_MINUTE ->
  let s := session c in
  let s' := session (fst (onClose clock c)) in
  let effects := snd (onClose clock c) in
  storeWrites effects
  = ((if unsyncedGBC s =? 0 then []
      else [OfSession (StoreAtomicAdd (unsyncedGBC s))])
     ++ (if unsyncedBPH s =? 0 then []
         else [OfSession (StorePush (clock + ONE_HOUR) (unsyncedBPH s))]))%list
  /\ unsyncedGBC s' = 0 /\ unsyncedBPH s' = 0
  /\ displayed s' = displayed s
  /\ bphRemoveTimeouts s' = []
  /\ lastGBCSync s' = clock + GBC_SYNC_INTERVAL + ONE_MINUTE
  /\ In ClearGBCSyncTimeout effects
  /\ In (OfSession ResetGBCSyncTimeout) effects.
Proof.
  intros Hclock Hidle Hlast. cbv zeta.
  pose proof (onClose_parts clock c) as Hparts. cbv zeta in Hparts.
  rewrite Hparts. clear Hparts. cbn [fst snd session].
  destruct (teardown_quiet c) as (Hwrites & _ & Hcleared).
  assert (Hnow : orDateNow (Some (clock + GBC_SYNC_INTERVAL + ONE_MINUTE)) clock
                 = clock + GBC_SYNC_INTERVAL + ONE_MINUTE).
  { unfold orDateNow, GBC_SYNC_INTERVAL, ONE_MINUTE.
    destruct (Z.eqb_spec (clock + 250 + 60000) 0); [lia|reflexivity]. }
  rewrite gbcSync_due; [|exact Hidle|right; rewrite Hnow; cbn; lia].
  rewrite Hnow. cbn [unsyncedGBC set_bphRemoveTimeouts].
  match goal with
  | |- context [syncBPH clock ?x] =>
      pose proof (syncBPH_flush clock x) as Hflush;
      cbv zeta in Hflush;
      destruct Hflush as (Hpush & Hbph & Hgbc & Hlastgbc & Hsync & _ & Htimers)
  end.
  unfold displayed. rewrite !storeWrites_app, Hwrites.
  destruct (Z.eqb_spec (unsyncedGBC (session c)) 0) as [Hzero|Hsome];
    cbn [fst snd] in *;
    rewrite Hpush, Hbph, Hgbc, Hlastgbc, Hsync, Htimers;
    cbn [unsyncedBPH unsyncedGBC lastGBC lastGBCSync bphRemoveTimeouts
         set_lastGBCSync set_bphRemoveTimeouts set_gbcSyncPromise
         set_lastGBC set_unsyncedGBC];
    (split; [destruct (unsyncedBPH (session c) =? 0); reflexivity|]);
    repeat split; try lia;
    try (apply in_or_app; left; exact Hcleared);
    apply in_or_app; right; apply in_or_app; left; cbn; auto.
Qed.

Lemma onClose_flushes_counters_witness :
  let c := {| session := twoUnsyncedSession; heartbeatTimeout := true |} in
  0 < 5000
  /\ gbcSyncPromise (session c) = None
  /\ lastGBCSync (session c) <= 5000 + ONE_MINUTE
  /\ unsyncedGBC (session (fst (onClose 5000 c))) = 0.
Proof.
  cbv zeta.
  assert (Hclock : 0 < 5000) by lia.
  assert (Hidle : gbcSyncPromise
            (session {| session := twoUnsyncedSession;
                        heartbeatTimeout := true |}) = None)
    by (vm_compute; reflexivity).
  assert (Hlast : lastGBCSync
            (session {| session := twoUnsyncedSession;
                        heartbeatTimeout := true |}) <= 5000 + ONE_MINUTE)
    by (vm_compute; discriminate).
  split; [exact Hclock|]. split; [exact Hidle|]. split; [exact Hlast|].
  exact (proj1 (proj2 (onClose_flushes_counters 5000 _ Hclock Hidle Hlast))).
Defined.

(** X12.  Closing while an atomic add is in flight writes no part of the
    global count: [#gbcSync] returns the pending promise, so the boops
    counted since that write began stay in [unsyncedGBC], and the GBC sync
    timer cleared by the teardown is not armed again.  When the write then
    settles less than [GBC_SYNC_INTERVAL] after it began, its callback
    does not sync either: those boops (and the batch itself, if the write
    failed) remain unwritten with no timer left to write them. *)
Theorem onClose_during_write_writes_no_count (clock settled change : Z)
    (ok : bool) (c : Connection) :
  gbcSyncPromise (session c) = Some (change, false) ->
  settled - lastGBCSync (session c) < GBC_SYNC_INTERVAL ->
  let s := session c in
  let s1 := session (fst (onClose clock c)) in
  let effects := snd (onClose clock c) in
  let s2 := fst (gbcSyncSettled ok settled s1) in
  storeWrites effects
  = (if unsyncedBPH s =? 0 then []
     else [OfSession (StorePush (clock + ONE_HOUR) (unsyncedBPH s))])
  /\ In ClearGBCSyncTimeout effects
  /\ existsb armsGBCSyncTimeout effects = false
  /\ unsyncedGBC s1 = unsyncedGBC s
  /\ snd (gbcSyncSettled ok settled s1) = []
  /\ unsyncedGBC s2 = unsyncedGBC s + (if ok then 0 else change)
  /\ gbcSyncPromise s2 = None.
Proof.
  intros Hpending Hearly. cbv zeta.
  pose proof (onClose_parts clock c) as Hparts. cbv zeta in Hparts.
  rewrite Hparts. clear Hparts. cbn [fst snd session].
  destruct (teardown_quiet c) as (Hwrites & Harms & Hcleared).
  rewrite (gbcSync_pending _ _ _ _ (change, false)) by exact Hpending.
  cbn [fst snd map app].
  match goal with
  | |- context [syncBPH clock ?x] =>
      pose proof (syncBPH_flush clock x) as Hflush;
      cbv zeta in Hflush;
      destruct Hflush as (Hpush & Hbph & Hgbc & Hlastgbc & Hsync & Hpromise
                          & Htimers)
  end.
  cbn [unsyncedBPH unsyncedGBC lastGBC lastGBCSync gbcSyncPromise
       set_bphRemoveTimeouts] in Hpush, Hgbc, Hlastgbc, Hsync, Hpromise.
  rewrite !storeWrites_app, !existsb_app, Hwrites, Harms, Hpush, Hgbc.
  unfold gbcSyncSettled. rewrite Hpromise, Hpending.
  assert (Hlate : (GBC_SYNC_INTERVAL
                   <=? settled - lastGBCSync
                         (set_gbcSyncPromise None
                            (if ok
                             then fst (syncBPH clock
                                    (set_bphRemoveTimeouts [] (session c)))
                             else set_unsyncedGBC
                                    (unsyncedGBC
                                       (fst (syncBPH clock
                                          (set_bphRemoveTimeouts []
                                             (session c)))) + change)
                                    (fst (syncBPH clock
                                       (set_bphRemoveTimeouts []
                                          (session c))))))) = false).
  { apply Z.leb_gt. destruct ok; cbn [lastGBCSync set_gbcSyncPromise
                                      set_unsyncedGBC]; rewrite Hsync; lia. }
  cbv zeta. rewrite Hlate.
  split; [destruct (unsyncedBPH (session c) =? 0); reflexivity|].
  split; [apply in_or_app; left; exact Hcleared|].
  split; [destruct (unsyncedBPH (session c) =? 0); reflexivity|].
  split; [reflexivity|]. split; [reflexivity|].
  destruct ok; cbn; rewrite ?Hgbc; split; try reflexivity; lia.
Qed.

Lemma onClose_during_write_writes_no_count_witness :
  let c := {| session := fst (run [EvBoop 1000 1; EvBoop 1100 2]
                                  (initSession "cQ" 42));
              heartbeatTimeout := true |} in
  gbcSyncPromise (session c) = Some (1, false)
  /\ 1200 - lastGBCSync (session c) < GBC_SYNC_INTERVAL
  /\ unsyncedGBC (fst (gbcSyncSettled true 1200
                         (session (fst (onClose 1150 c))))) = 1.
Proof.
  cbv zeta.
  assert (Hpending : gbcSyncPromise
            (session {| session := fst (run [EvBoop 1000 1; EvBoop 1100 2]
                                            (initSession "cQ" 42));
                        heartbeatTimeout := true |}) = Some (1, false))
    by (vm_compute; reflexivity).
  assert (Hearly : 1200 - lastGBCSync
            (session {| session := fst (run [EvBoop 1000 1; EvBoop 1100 2]
                                            (initSession "cQ" 42));
                        heartbeatTimeout := true |}) < GBC_SYNC_INTERVAL)
    by (vm_compute; reflexivity).
  split; [exact Hpending|]. split; [exact Hearly|].
  pose proof (onClose_during_write_writes_no_count 1150 1200 1 true _
                Hpending Hearly) as Hclose.
  cbv zeta in Hclose.
  destruct Hclose as (_ & _ & _ & _ & _ & Hunsynced & _).
  rewrite Hunsynced. vm_compute. reflexivity.
Defined.

(* ================================================================= *)
(** ** The Firebase token and its two caches *)

(** The two ways through the shared part. *)
Lemma tokenFromKV_cases (kvResp : json) (generated : option string) (now : Z) :
  (liveTokenData kvResp now = true
   /\ tokenFromKV kvResp generated now
      = (Some (tokenOf kvResp, expiresAtOf kvResp), []))
  \/ (liveTokenData kvResp now = false
      /\ tokenFromKV kvResp generated now
         = match generated with
           | None => (None, [GenerateToken])
           | Some token =>
               (Some (token, now + FB_TOKEN_TTL),
                [GenerateToken;
                 KVPut (tokenData token (now + FB_TOKEN_TTL)) FB_TOKEN_TTL_S])
           end).
Proof.
  unfold tokenFromKV. destruct (liveTokenData kvResp now); [left|right];
    split; try reflexivity; destruct generated; reflexivity.
Qed.

(** Token data read back is what was written. *)
Lemma tokenData_fields (token : string) (expiresAt : Z) :
  isTokenData (tokenData token expiresAt) = true
  /\ tokenOf (tokenData token expiresAt) = token
  /\ expiresAtOf (tokenData token expiresAt) = expiresAt.
Proof. repeat split. Qed.

(** Live token data is token data that expires more than the threshold
    after [now]. *)
Lemma liveTokenData_spec (data : json) (now : Z) :
  liveTokenData data now = true
  <-> isTokenData data = true
      /\ now + FB_TOKEN_CLOSE_CALL_THRESHOLD < expiresAtOf data.
Proof.
  unfold liveTokenData. rewrite andb_true_iff, Z.ltb_lt. reflexivity.
Qed.

(** Live token data as any holder of it sees it. *)
Lemma liveTokenData_same (data : json) (now : Z) :
  liveTokenData data now = true ->
  liveTokenData (tokenData (tokenOf data) (expiresAtOf data)) now = true.
Proof.
  rewrite !liveTokenData_spec. intros [_ Hlive].
  destruct (tokenData_fields (tokenOf data) (expiresAtOf data))
    as (-> & _ & ->). auto.
Qed.

(** X14.  What [#getToken] writes and when it generates.  Whatever the two
    caches hold: a value put into the edge cache is live token data
    holding the returned token, with a max-age of at least ten seconds
    that is the whole seconds left until its expiry; a value put into KV
    is the newly generated token with the expiry [now + FB_TOKEN_TTL] and
    the TTL [FB_TOKEN_TTL_S]; the token service is called exactly when
    neither cache holds live token data; and the call fails exactly when
    the token service was called and failed, in which case nothing is
    put anywhere. *)
Theorem getToken_writes_live_tokens (cacheResp : option json) (kvResp : json)
    (generated : option string) (now : Z) :
  let result := fst (WSToken.getToken cacheResp kvResp generated now) in
  let effects := snd (WSToken.getToken cacheResp kvResp generated now) in
  let cacheLive :=
    match cacheResp with
    | Some cachedValue => liveTokenData cachedValue now
    | None => false
    end in
  (forall value maxAge,
      In (CachePut value maxAge) effects ->
      liveTokenData value now = true
      /\ result = Some (tokenOf value)
      /\ maxAge = (expiresAtOf value - now) / ONE_SECOND
      /\ FB_TOKEN_CLOSE_CALL_THRESHOLD / ONE_SECOND <= maxAge)
  /\ (forall value expirationTtl,
         In (KVPut value expirationTtl) effects ->
         exists token,
           generated = Some token /\ result = Some token
           /\ value = tokenData token (now + FB_TOKEN_TTL)
           /\ expirationTtl = FB_TOKEN_TTL_S)
  /\ (In GenerateToken effects
      <-> cacheLive = false /\ liveTokenData kvResp now = false)
  /\ (result = None <-> In GenerateToken effects /\ generated = None)
  /\ (result = None ->
      forall e, In e effects -> e = CacheDelete \/ e = GenerateToken).
Proof.
  cbv zeta.
  assert (Hage : forall expiresAt,
             now + FB_TOKEN_CLOSE_CALL_THRESHOLD < expiresAt ->
             FB_TOKEN_CLOSE_CALL_THRESHOLD / ONE_SECOND
             <= (expiresAt - now) / ONE_SECOND).
  { intros expiresAt Hlive. apply Z.div_le_mono; [reflexivity|lia]. }
  assert (Hnew : forall token,
             liveTokenData (tokenData token (now + FB_TOKEN_TTL)) now = true
             /\ FB_TOKEN_CLOSE_CALL_THRESHOLD / ONE_SECOND
                <= (now + FB_TOKEN_TTL - now) / ONE_SECOND).
  { intros token. split.
    - apply liveTokenData_spec. split; [reflexivity|].
      cbn. unfold FB_TOKEN_TTL, FB_TOKEN_CLOSE_CALL_THRESHOLD,
             ONE_HOUR, ONE_SECOND. lia.
    - apply Hage. unfold FB_TOKEN_TTL, FB_TOKEN_CLOSE_CALL_THRESHOLD,
                    ONE_HOUR, ONE_SECOND. lia. }
  unfold WSToken.getToken.
  destruct cacheResp as [cachedValue|];
    [destruct (liveTokenData cachedValue now) eqn:Hcache|];
    try (cbn [fst snd In]; repeat split; try tauto; try discriminate;
         intros [Habsurd _]; discriminate);
    (destruct (tokenFromKV_cases kvResp generated now)
       as [[Hlive ->]|[Hdead ->]];
     [pose proof (liveTokenData_same _ _ Hlive) as Hsame;
      pose proof (proj2 (proj1 (liveTokenData_spec _ _) Hlive)) as Hlater
     |destruct generated as [token|];
      [destruct (Hnew token) as [Hfresh Hfresh_age]|]]);
    cbn [fst snd app In];
    (split; [intros value maxAge Hin|]);
    try (repeat match goal with
           | H : _ \/ _ |- _ => destruct H
           | H : False |- _ => destruct H
           | H : CachePut _ _ = CachePut _ _ |- _ => injection H as <- <-
           | H : _ = CachePut _ _ |- _ => discriminate H
           end;
         cbn [tokenOf expiresAtOf tokenData propGet String.eqb Ascii.eqb
              Bool.eqb];
         repeat split; auto; fail);
    (split; [intros value expirationTtl Hin|]);
    try (repeat match goal with
           | H : _ \/ _ |- _ => destruct H
           | H : False |- _ => destruct H
           | H : KVPut _ _ = KVPut _ _ |- _ => injection H as <- <-
           | H : _ = KVPut _ _ |- _ => discriminate H
           end;
         eexists; repeat split; fail);
    (split; [split; [intros Hin|intros [_ Hkv]]|]);
    try (repeat match goal with
           | H : _ \/ _ |- _ => destruct H
           | H : False |- _ => destruct H
           | H : _ = GenerateToken |- _ => discriminate H
           end;
         auto; congruence);
    try (auto 6; fail);
    (split; [split; [intros Hnone|intros [Hin Hnone]]|intros Hnone e Hin]);
    try discriminate;
    try (repeat match goal with
           | H : _ \/ _ |- _ => destruct H
           | H : False |- _ => destruct H
           | H : _ = GenerateToken |- _ => discriminate H
           end;
         auto 6; fail).
Qed.

(** X15.  A generated token is reused until ten seconds before it
    expires.  When neither cache holds live token data and the token
    service answers [token] at [now], both token functions write
    [{token, expiresAt: now + FB_TOKEN_TTL}] to KV.  A later call that
    reads this value back, from KV or from the edge cache, returns the
    same token without calling the token service, as long as more than
    [FB_TOKEN_CLOSE_CALL_THRESHOLD] is left of the hour; from then on the
    value no longer counts and the token service is called again. *)
Theorem generated_token_is_reused (token : string) (now later : Z)
    (cacheResp : option json) (kvResp : json) :
  liveTokenData kvResp now = false ->
  match cacheResp with
  | Some cachedValue => liveTokenData cachedValue now = false
  | None => True
  end ->
  let written := tokenData token (now + FB_TOKEN_TTL) in
  CronHandler.getToken kvResp (Some token) now
  = (Some token, [GenerateToken; KVPut written FB_TOKEN_TTL_S])
  /\ (exists before,
         WSToken.getToken cacheResp kvResp (Some token) now
         = (Some token,
            (before ++ [GenerateToken; KVPut written FB_TOKEN_TTL_S;
                        CachePut written FB_TOKEN_TTL_S])%list)
         /\ forall e, In e before -> e = CacheDelete)
  /\ (later + FB_TOKEN_CLOSE_CALL_THRESHOLD < now + FB_TOKEN_TTL ->
      forall kvResp' generated,
        CronHandler.getToken written generated later = (Some token, [])
        /\ WSToken.getToken (Some written) kvResp' generated later
           = (Some token, [])
        /\ WSToken.getToken None written generated later
           = (Some token,
              [CachePut written ((now + FB_TOKEN_TTL - later) / ONE_SECOND)]))
  /\ (now + FB_TOKEN_TTL <= later + FB_TOKEN_CLOSE_CALL_THRESHOLD ->
      forall generated,
        In GenerateToken (snd (CronHandler.getToken written generated later))
        /\ In GenerateToken
             (snd (WSToken.getToken (Some written) written generated later))).
Proof.
  intros Hkv Hcache. cbv zeta.
  assert (Hhour : (now + FB_TOKEN_TTL - now) / ONE_SECOND = FB_TOKEN_TTL_S).
  { replace (now + FB_TOKEN_TTL - now) with FB_TOKEN_TTL by lia. reflexivity. }
  split; [|split; [|split]].
  - unfold CronHandler.getToken, tokenFromKV. rewrite Hkv. reflexivity.
  - unfold WSToken.getToken, tokenFromKV. rewrite Hkv.
    destruct cacheResp as [cachedValue|].
    + rewrite Hcache. exists [CacheDelete]. rewrite Hhour.
      split; [reflexivity|]. intros e [<-|[]]. reflexivity.
    + exists []. rewrite Hhour. split; [reflexivity|]. intros e [].
  - intros Hleft kvResp' generated.
    assert (Hlive : liveTokenData (tokenData token (now + FB_TOKEN_TTL)) later
                    = true)
      by (apply liveTokenData_spec; split; [reflexivity|exact Hleft]).
    unfold CronHandler.getToken, WSToken.getToken, tokenFromKV.
    rewrite Hlive. repeat split.
  - intros Hlate generated.
    assert (Hdead : liveTokenData (tokenData token (now + FB_TOKEN_TTL)) later
                    = false).
    { destruct (liveTokenData _ later) eqn:Hlive; [|reflexivity].
      apply liveTokenData_spec in Hlive as [_ Hlive].
      change (expiresAtOf (tokenData token (now + FB_TOKEN_TTL)))
        with (now + FB_TOKEN_TTL) in Hlive.
      lia. }
    unfold CronHandler.getToken, WSToken.getToken, tokenFromKV.
    rewrite Hdead.
    destruct generated; cbn [fst snd app In]; auto.
Qed.

Lemma generated_token_is_reused_witness :
  liveTokenData JNull 1000 = false
  /\ CronHandler.getToken (tokenData "tok" (1000 + FB_TOKEN_TTL)) None 3000000
     = (Some "tok", []).
Proof.
  assert (Hkv : liveTokenData JNull 1000 = false) by reflexivity.
  split; [exact Hkv|].
  pose proof (generated_token_is_reused "tok" 1000 3000000 None JNull Hkv I)
    as (_ & _ & Hreuse & _).
  apply (Hreuse ltac:(vm_compute; reflexivity) JNull None).
Defined.

(* ================================================================= *)
(** ** The client: frames of the server read back *)

Lemma isBase36Digit_not_comma (c : ascii) :
  isBase36Digit c = true -> Ascii.eqb c "," = false.
Proof.
  intros Hdigit. destruct (Ascii.eqb_spec c ",") as [->|_]; [|reflexivity].
  vm_compute in Hdigit. discriminate.
Qed.

(** A run of digits ends at the comma that follows it. *)
Lemma splitAtComma_digits (first second : string) :
  allBase36Digits first = true ->
  MareClient.splitAtComma (first ++ "," ++ second) = Some (first, second).
Proof.
  induction first as [|c first IH]; intros Hall; [reflexivity|].
  cbn [allBase36Digits] in Hall. apply andb_true_iff in Hall as [Hc Hall].
  cbn [String.append MareClient.splitAtComma].
  rewrite (isBase36Digit_not_comma c Hc).
  change (first ++ String "," second)%string
    with (first ++ "," ++ second)%string.
  rewrite IH by exact Hall. reflexivity.
Qed.

(** A run of digits followed by a comma is no run of digits. *)
Lemma matchBase36_comma (first second : string) :
  matchBase36 (first ++ "," ++ second) = None.
Proof.
  unfold matchBase36.
  assert (Hnot : allBase36Digits (first ++ "," ++ second) = false).
  { rewrite allBase36Digits_app. cbn [String.append allBase36Digits].
    replace (isBase36Digit ",") with false by (vm_compute; reflexivity).
    cbn [andb]. apply andb_false_r. }
  rewrite Hnot. reflexivity.
Qed.

(** A safe integer as the server writes it, as the client reads it. *)
Lemma toString36_safe (n : Z) :
  0 <= n <= MAX_SAFE_INTEGER ->
  matchBase36 (toString36 n) = Some (toString36 n)
  /\ parseInt36 (toString36 n) = n
  /\ allBase36Digits (toString36 n) = true.
Proof.
  intros [Hlow Hhigh].
  destruct (toString36_parseInt36 n Hlow) as (Hall & _ & Hparse & Hmatch).
  assert (Hsafe : MAX_SAFE_INTEGER < 36 ^ 11) by (vm_compute; reflexivity).
  repeat split; auto. apply Hmatch. lia.
Qed.

Lemma matchBase36Pair_safe (a b : Z) :
  0 <= a <= MAX_SAFE_INTEGER -> 0 <= b <= MAX_SAFE_INTEGER ->
  MareClient.matchBase36Pair (toString36 a ++ "," ++ toString36 b)
  = Some (toString36 a, toString36 b).
Proof.
  intros Ha Hb.
  destruct (toString36_safe a Ha) as (Hmatch_a & _ & Hall_a).
  destruct (toString36_safe b Hb) as (Hmatch_b & _ & _).
  unfold MareClient.matchBase36Pair.
  rewrite splitAtComma_digits by exact Hall_a.
  rewrite Hmatch_a, Hmatch_b. reflexivity.
Qed.

(** The head of the client's [#onMessage] on a tagged frame. *)
Lemma client_onMessage_tagged (tag : ascii) (payload : string)
    (c : MareClient.Client) :
  MareClient.onMessage (StringData (String tag payload)) c
  = let c0 := MareClient.set_reconnectAttempts 0 c in
    if String.eqb (String tag payload) PROTO_HEARTBEAT then (c0, [])
    else if String.eqb (String tag payload) PROTO_INVALID then (c0, [])
    else if Ascii.eqb "c" tag then
      match matchBase36 payload with
      | Some capture =>
          (c0, [MareClient.DispatchBoopCount (parseInt36 capture)])
      | None => (c0, [])
      end
    else if Ascii.eqb "b" tag then MareClient.onBoopReply payload c0
    else if Ascii.eqb "r" tag then MareClient.onBoopReject payload c0
    else if Ascii.eqb "d" tag then MareClient.onCooldownReply payload c0
    else (c0, []).
Proof.
  unfold MareClient.onMessage. cbn [String.length Nat.eqb].
  cbn [sliceAfter PROTO_BOOP_COUNT PROTO_BOOP_REPLY PROTO_BOOP_REJECT
       PROTO_COOLDOWN_REPLY].
  destruct (String.eqb _ PROTO_HEARTBEAT); [reflexivity|].
  destruct (String.eqb _ PROTO_INVALID); [reflexivity|].
  destruct (Ascii.eqb "c" tag); [reflexivity|].
  destruct (Ascii.eqb "b" tag); [reflexivity|].
  destruct (Ascii.eqb "r" tag); [reflexivity|].
  destruct (Ascii.eqb "d" tag); reflexivity.
Qed.

(** A frame of digits after a tag is neither [h] nor [i]. *)
Lemma tagged_digits_not_bare (tag : ascii) (n : Z) (rest : string) :
  0 <= n ->
  String.eqb (String tag (toString36 n ++ rest)) PROTO_HEARTBEAT = false
  /\ String.eqb (String tag (toString36 n ++ rest)) PROTO_INVALID = false.
Proof.
  intros Hn. destruct (toString36_parseInt36 n Hn) as (_ & Hlen & _).
  destruct (toString36 n) as [|d digits]; [cbn in Hlen; lia|].
  cbn [String.append String.eqb PROTO_HEARTBEAT PROTO_INVALID].
  split; destruct (Ascii.eqb tag _); reflexivity.
Qed.

Lemma append_nil_r (s : string) : (s ++ "")%string = s.
Proof. induction s as [|c s IH]; cbn [String.append]; congruence. Qed.

(** The frames of the server, one by one. *)
Lemma client_reads_count (count : Z) (c : MareClient.Client) :
  0 <= count <= MAX_SAFE_INTEGER ->
  MareClient.onMessage (StringData (PROTO_BOOP_COUNT ++ toString36 count)) c
  = (MareClient.set_reconnectAttempts 0 c,
     [MareClient.DispatchBoopCount count]).
Proof.
  intros Hcount.
  destruct (toString36_safe count Hcount) as (Hmatch & Hparse & _).
  change (PROTO_BOOP_COUNT ++ toString36 count)%string
    with (String "c" (toString36 count)).
  rewrite client_onMessage_tagged. cbv zeta.
  destruct (tagged_digits_not_bare "c"%char count ""%string (proj1 Hcount))
    as [Hh Hi].
  rewrite append_nil_r in Hh, Hi. rewrite Hh, Hi. cbn [Ascii.eqb Bool.eqb].
  rewrite Hmatch, Hparse. reflexivity.
Qed.

Lemma client_reads_boop_reply (id : Z) (c : MareClient.Client) :
  0 <= id <= MAX_SAFE_INTEGER ->
  MareClient.onMessage (StringData (PROTO_BOOP_REPLY ++ toString36 id)) c
  = match MareClient.pendingGet id (MareClient.pendingBoops c) with
    | Some callbacks =>
        (MareClient.set_boops (MareClient.lastBoopId c)
           (MareClient.pendingDelete id (MareClient.pendingBoops c))
           (MareClient.set_reconnectAttempts 0 c),
         MareClient.settle MareClient.Boop id callbacks
           (MareClient.Resolve MareClient.Boop id 0))
    | None => (MareClient.set_reconnectAttempts 0 c, [])
    end.
Proof.
  intros Hid.
  destruct (toString36_safe id Hid) as (Hmatch & Hparse & _).
  change (PROTO_BOOP_REPLY ++ toString36 id)%string
    with (String "b" (toString36 id)).
  rewrite client_onMessage_tagged. cbv zeta.
  destruct (tagged_digits_not_bare "b"%char id ""%string (proj1 Hid))
    as [Hh Hi].
  rewrite append_nil_r in Hh, Hi. rewrite Hh, Hi. cbn [Ascii.eqb Bool.eqb].
  unfold MareClient.onBoopReply. rewrite Hmatch, Hparse.
  cbn [MareClient.pendingBoops MareClient.set_reconnectAttempts
       MareClient.lastBoopId].
  reflexivity.
Qed.

Lemma client_reads_boop_reject (id remaining : Z) (c : MareClient.Client) :
  0 <= id <= MAX_SAFE_INTEGER ->
  0 <= remaining <= MAX_SAFE_INTEGER ->
  MareClient.onMessage
    (StringData (PROTO_BOOP_REJECT ++ toString36 id ++ "," ++
                 toString36 remaining)) c
  = match MareClient.pendingGet id (MareClient.pendingBoops c) with
    | Some callbacks =>
        (MareClient.set_boops (MareClient.lastBoopId c)
           (MareClient.pendingDelete id (MareClient.pendingBoops c))
           (MareClient.set_reconnectAttempts 0 c),
         MareClient.settle MareClient.Boop id callbacks
           (MareClient.Reject MareClient.Boop id
              (MareClient.BoopRejectedError id remaining)))
    | None => (MareClient.set_reconnectAttempts 0 c, [])
    end.
Proof.
  intros Hid Hremaining.
  destruct (toString36_safe id Hid) as (_ & Hparse_id & _).
  destruct (toString36_safe remaining Hremaining) as (_ & Hparse_rem & _).
  pose proof (matchBase36Pair_safe id remaining Hid Hremaining) as Hpair.
  change (PROTO_BOOP_REJECT ++ toString36 id ++ "," ++
          toString36 remaining)%string
    with (String "r" (toString36 id ++ "," ++ toString36 remaining)).
  rewrite client_onMessage_tagged. cbv zeta.
  destruct (tagged_digits_not_bare "r"%char id
              ("," ++ toString36 remaining)%string (proj1 Hid)) as [Hh Hi].
  rewrite Hh, Hi. cbn [Ascii.eqb Bool.eqb].
  unfold MareClient.onBoopReject. rewrite Hpair, Hparse_id, Hparse_rem.
  cbn [MareClient.pendingBoops MareClient.set_reconnectAttempts
       MareClient.lastBoopId].
  reflexivity.
Qed.

Lemma client_reads_cooldown_reply (id remaining : Z) (c : MareClient.Client) :
  0 <= id <= MAX_SAFE_INTEGER ->
  0 <= remaining <= MAX_SAFE_INTEGER ->
  let settled cooldown :=
    match MareClient.pendingGet id (MareClient.pendingCooldownQueries c) with
    | Some callbacks =>
        (MareClient.set_cooldownQueries (MareClient.lastCooldownQueryId c)
           (MareClient.pendingDelete id (MareClient.pendingCooldownQueries c))
           (MareClient.set_reconnectAttempts 0 c),
         MareClient.settle MareClient.CooldownQuery id callbacks
           (MareClient.Resolve MareClient.CooldownQuery id cooldown))
    | None => (MareClient.set_reconnectAttempts 0 c, [])
    end in
  MareClient.onMessage
    (StringData (PROTO_COOLDOWN_REPLY ++ toString36 id)) c = settled 0
  /\ MareClient.onMessage
       (StringData (PROTO_COOLDOWN_REPLY ++ toString36 id ++ "," ++
                    toString36 remaining)) c
     = settled remaining.
Proof.
  intros Hid Hremaining. cbv zeta.
  destruct (toString36_safe id Hid) as (Hmatch_id & Hparse_id & _).
  destruct (toString36_safe remaining Hremaining) as (_ & Hparse_rem & _).
  pose proof (matchBase36Pair_safe id remaining Hid Hremaining) as Hpair.
  pose proof (matchBase36_comma (toString36 id) (toString36 remaining))
    as Hcomma.
  split.
  - change (PROTO_COOLDOWN_REPLY ++ toString36 id)%string
      with (String "d" (toString36 id)).
    rewrite client_onMessage_tagged. cbv zeta.
    destruct (tagged_digits_not_bare "d"%char id ""%string (proj1 Hid))
      as [Hh Hi].
    rewrite append_nil_r in Hh, Hi. rewrite Hh, Hi. cbn [Ascii.eqb Bool.eqb].
    unfold MareClient.onCooldownReply, MareClient.matchBase36OptionalPair.
    rewrite Hmatch_id, Hparse_id.
    cbn [MareClient.pendingCooldownQueries MareClient.set_reconnectAttempts
         MareClient.lastCooldownQueryId].
    reflexivity.
  - change (PROTO_COOLDOWN_REPLY ++ toString36 id ++ "," ++
            toString36 remaining)%string
      with (String "d" (toString36 id ++ "," ++ toString36 remaining)).
    rewrite client_onMessage_tagged. cbv zeta.
    destruct (tagged_digits_not_bare "d"%char id
                ("," ++ toString36 remaining)%string (proj1 Hid)) as [Hh Hi].
    rewrite Hh, Hi. cbn [Ascii.eqb Bool.eqb].
    unfold MareClient.onCooldownReply, MareClient.matchBase36OptionalPair.
    rewrite Hcomma, Hpair, Hparse_id, Hparse_rem.
    cbn [MareClient.pendingCooldownQueries MareClient.set_reconnectAttempts
         MareClient.lastCooldownQueryId].
    reflexivity.
Qed.

(** X16.  The two ends agree on the frames.  For non-negative safe
    integers, the client reads each frame of the server as the server
    wrote it: [c<count>] dispatches [count]; [b<id>] resolves the pending
    boop [id]; [r<id>,<remaining>] rejects it with the cooldown
    [remaining]; [d<id>] resolves the pending cooldown query [id] with 0
    and [d<id>,<remaining>] with [remaining].  A settled request is
    deleted from its map, its timeout timer cleared first, and a frame for
    an id that is not pending does nothing; every frame resets
    [reconnectAttempts]. *)
Theorem client_reads_server_frames (count id remaining : Z)
    (c : MareClient.Client) :
  0 <= count <= MAX_SAFE_INTEGER ->
  0 <= id <= MAX_SAFE_INTEGER ->
  0 <= remaining <= MAX_SAFE_INTEGER ->
  let c0 := MareClient.set_reconnectAttempts 0 c in
  let settled kind pending outcome :=
    match MareClient.pendingGet id pending with
    | Some callbacks =>
        (match kind with
         | MareClient.Boop =>
             MareClient.set_boops (MareClient.lastBoopId c)
               (MareClient.pendingDelete id pending) c0
         | MareClient.CooldownQuery =>
             MareClient.set_cooldownQueries (MareClient.lastCooldownQueryId c)
               (MareClient.pendingDelete id pending) c0
         end,
         MareClient.settle kind id callbacks outcome)
    | None => (c0, [])
    end in
  MareClient.onMessage
    (StringData (PROTO_BOOP_COUNT ++ toString36 count)) c
  = (c0, [MareClient.DispatchBoopCount count])
  /\ MareClient.onMessage
       (StringData (PROTO_BOOP_REPLY ++ toString36 id)) c
     = settled MareClient.Boop (MareClient.pendingBoops c)
         (MareClient.Resolve MareClient.Boop id 0)
  /\ MareClient.onMessage
       (StringData (PROTO_BOOP_REJECT ++ toString36 id ++ "," ++
                    toString36 remaining)) c
     = settled MareClient.Boop (MareClient.pendingBoops c)
         (MareClient.Reject MareClient.Boop id
            (MareClient.BoopRejectedError id remaining))
  /\ MareClient.onMessage
       (StringData (PROTO_COOLDOWN_REPLY ++ toString36 id)) c
     = settled MareClient.CooldownQuery (MareClient.pendingCooldownQueries c)
         (MareClient.Resolve MareClient.CooldownQuery id 0)
  /\ MareClient.onMessage
       (StringData (PROTO_COOLDOWN_REPLY ++ toString36 id ++ "," ++
                    toString36 remaining)) c
     = settled MareClient.CooldownQuery (MareClient.pendingCooldownQueries c)
         (MareClient.Resolve MareClient.CooldownQuery id remaining).
Proof.
  intros Hcount Hid Hremaining. cbv zeta.
  split; [exact (client_reads_count count c Hcount)|].
  split; [exact (client_reads_boop_reply id c Hid)|].
  split; [exact (client_reads_boop_reject id remaining c Hid Hremaining)|].
  exact (client_reads_cooldown_reply id remaining c Hid Hremaining).
Qed.

Lemma client_reads_server_frames_witness :
  let c := {| MareClient.reconnectOnClose := true;
              MareClient.reconnectImmediately := false;
              MareClient.connectOnFocus := false;
              MareClient.reconnectAttempts := 2;
              MareClient.backoffTimeout := false;
              MareClient.heartbeatInterval := true;
              MareClient.lastBoopId := 5;
              MareClient.pendingBoops := [(4, None); (5, Some 3000)];
              MareClient.lastCooldownQueryId := 0;
              MareClient.pendingCooldownQueries := [] |} in
  0 <= 1001 <= MAX_SAFE_INTEGER
  /\ 0 <= 5 <= MAX_SAFE_INTEGER
  /\ 0 <= 1200 <= MAX_SAFE_INTEGER
  /\ snd (MareClient.onMessage (StringData "r5,xc") c)
     = [MareClient.ClearRequestTimeout MareClient.Boop 5;
        MareClient.Reject MareClient.Boop 5
          (MareClient.BoopRejectedError 5 1200)].
Proof.
  cbv zeta.
  assert (Hcount : 0 <= 1001 <= MAX_SAFE_INTEGER)
    by (vm_compute; split; discriminate).
  assert (Hid : 0 <= 5 <= MAX_SAFE_INTEGER)
    by (vm_compute; split; discriminate).
  assert (Hremaining : 0 <= 1200 <= MAX_SAFE_INTEGER)
    by (vm_compute; split; discriminate).
  split; [exact Hcount|]. split; [exact Hid|]. split; [exact Hremaining|].
  match goal with
  | |- snd (MareClient.onMessage _ ?c) = _ =>
      pose proof (client_reads_server_frames 1001 5 1200 c
                    Hcount Hid Hremaining) as Hframes
  end.
  cbv zeta in Hframes. destruct Hframes as (_ & _ & Hreject & _).
  change "r5,xc"%string
    with (PROTO_BOOP_REJECT ++ toString36 5 ++ "," ++ toString36 1200)%string.
  rewrite Hreject. reflexivity.
Defined.

(* ================================================================= *)
(** ** A boop from the client to the server and back *)

Section PendingFacts.
Import MareClient.

(** An id above all pending ones is not pending. *)
Lemma pendingGet_fresh (id : Z) (pending : Pending) :
  (forall k callbacks, In (k, callbacks) pending -> k < id) ->
  pendingGet id pending = None.
Proof.
  induction pending as [|[k v] rest IH]; intros Hbelow; [reflexivity|].
  cbn [pendingGet].
  destruct (Z.eqb_spec id k) as [->|_].
  - specialize (Hbelow k v (or_introl eq_refl)). lia.
  - apply IH. intros k' v' Hin. apply (Hbelow k' v'). right. exact Hin.
Qed.

Lemma pendingSet_new (id : Z) (callbacks : option Z) (pending : Pending) :
  pendingGet id pending = None ->
  pendingSet id callbacks pending = (pending ++ [(id, callbacks)])%list.
Proof.
  induction pending as [|[k v] rest IH]; cbn [pendingGet pendingSet app];
    [reflexivity|].
  destruct (id =? k); [discriminate|].
  intros Hrest. rewrite IH by exact Hrest. reflexivity.
Qed.

Lemma pendingGet_new (id : Z) (callbacks : option Z) (pending : Pending) :
  pendingGet id pending = None ->
  pendingGet id (pending ++ [(id, callbacks)])%list = Some callbacks.
Proof.
  induction pending as [|[k v] rest IH]; cbn [pendingGet app].
  - rewrite Z.eqb_refl. reflexivity.
  - destruct (id =? k); [discriminate|]. exact IH.
Qed.

Lemma pendingDelete_new (id : Z) (callbacks : option Z) (pending : Pending) :
  pendingGet id pending = None ->
  pendingDelete id (pending ++ [(id, callbacks)])%list = pending.
Proof.
  induction pending as [|[k v] rest IH]; cbn [pendingGet pendingDelete app].
  - rewrite Z.eqb_refl. reflexivity.
  - destruct (id =? k); [discriminate|].
    intros Hrest. rewrite IH by exact Hrest. reflexivity.
Qed.

Lemma outcomesOf_app (kind : request) (id : Z)
    (effects1 effects2 : list clientEffect) :
  outcomesOf kind id (effects1 ++ effects2)
  = (outcomesOf kind id effects1 ++ outcomesOf kind id effects2)%list.
Proof. apply filter_app. Qed.

(** Settling a request gives its one outcome. *)
Lemma outcomesOf_settle (kind : request) (id : Z) (callbacks : option Z)
    (outcome : clientEffect) :
  outcomesOf kind id [outcome] = [outcome] ->
  outcomesOf kind id (settle kind id callbacks outcome) = [outcome].
Proof.
  intros Houtcome. destruct callbacks; cbn [settle]; [|exact Houtcome].
  change [ClearRequestTimeout kind id; outcome]
    with ([ClearRequestTimeout kind id] ++ [outcome])%list.
  rewrite outcomesOf_app, Houtcome. reflexivity.
Qed.

(** Rejecting all pending requests gives no outcome for an id that is
    not pending, nor for one of the other kind. *)
Lemma outcomesOf_rejectAll_other (kind : request) (id : Z)
    (pending : Pending) :
  pendingGet id pending = None ->
  outcomesOf kind id (rejectAll kind pending) = [].
Proof.
  induction pending as [|[k v] rest IH]; cbn [pendingGet]; [reflexivity|].
  destruct (Z.eqb_spec id k) as [->|Hne]; [discriminate|].
  intros Hrest. unfold rejectAll. cbn [flat_map fst snd].
  rewrite outcomesOf_app. fold (rejectAll kind rest). rewrite IH by exact Hrest.
  rewrite app_nil_r.
  assert (Hother : (k =? id) = false) by (apply Z.eqb_neq; congruence).
  destruct v, kind; cbn; rewrite Hother; reflexivity.
Qed.

Lemma outcomesOf_rejectAll_kind (id : Z) (pending : Pending) :
  outcomesOf Boop id (rejectAll CooldownQuery pending) = [].
Proof.
  induction pending as [|[k v] rest IH]; [reflexivity|].
  unfold rejectAll. cbn [flat_map fst snd].
  rewrite outcomesOf_app. fold (rejectAll CooldownQuery rest). rewrite IH.
  destruct v; reflexivity.
Qed.

Lemma outcomesOf_rejectAll_new (id : Z) (callbacks : option Z)
    (pending : Pending) :
  pendingGet id pending = None ->
  outcomesOf Boop id (rejectAll Boop (pending ++ [(id, callbacks)])%list)
  = [Reject Boop id MareNetworkError].
Proof.
  intros Hnew. unfold rejectAll. rewrite flat_map_app, outcomesOf_app.
  fold (rejectAll Boop pending).
  rewrite outcomesOf_rejectAll_other by exact Hnew.
  cbn [flat_map fst snd app]. rewrite app_nil_r.
  apply outcomesOf_settle. cbn. rewrite Z.eqb_refl. reflexivity.
Qed.

(** A count frame, whatever it carries, settles nothing. *)
Lemma client_count_frame_settles_nothing (payload : string) (id : Z)
    (c : Client) :
  let r := onMessage (StringData (PROTO_BOOP_COUNT ++ payload)) c in
  pendingBoops (fst r) = pendingBoops c
  /\ outcomesOf Boop id (snd r) = [].
Proof.
  cbv zeta.
  change (PROTO_BOOP_COUNT ++ payload)%string with (String "c" payload).
  rewrite client_onMessage_tagged. cbv zeta.
  destruct (String.eqb _ PROTO_HEARTBEAT); [split; reflexivity|].
  destruct (String.eqb _ PROTO_INVALID); [split; reflexivity|].
  cbn [Ascii.eqb Bool.eqb].
  destruct (matchBase36 payload); split; reflexivity.
Qed.
End PendingFacts.

(** The frames among the effects of a session handler. *)
Lemma framesOf_session_app (effects1 effects2 : list effect) :
  framesOf (map OfSession (effects1 ++ effects2))
  = (framesOf (map OfSession effects1)
       ++ framesOf (map OfSession effects2))%list.
Proof. unfold framesOf. rewrite map_app, flat_map_app. reflexivity. Qed.

Lemma framesOf_quiet (effects : list effect) :
  (forall e, In e effects ->
             (exists change, e = StoreAtomicAdd change)
             \/ e = ResetGBCSyncTimeout) ->
  framesOf (map OfSession effects) = [].
Proof.
  induction effects as [|e effects IH]; [reflexivity|].
  intros Hquiet. cbn [map framesOf flat_map].
  fold (framesOf (map OfSession effects)).
  rewrite IH by (intros e' Hin; apply Hquiet; right; exact Hin).
  destruct (Hquiet e (or_introl eq_refl)) as [[change ->]| ->]; reflexivity.
Qed.

Lemma deliver_cons (data : string) (rest : list string)
    (c : MareClient.Client) :
  deliver (data :: rest) c
  = (fst (deliver rest (fst (MareClient.onMessage (StringData data) c))),
     (snd (MareClient.onMessage (StringData data) c)
        ++ snd (deliver rest
                  (fst (MareClient.onMessage (StringData data) c))))%list).
Proof.
  cbn [deliver]. destruct (MareClient.onMessage _ c) as [c1 effects1].
  cbn [fst snd]. destruct (deliver rest c1) as [c2 effects2]. reflexivity.
Qed.

(** What [boop] leaves in the client when the socket is open. *)
Lemma boop_registers (timeoutMs : option Z) (client : MareClient.Client) :
  pendingBoopsGiven client ->
  let boopId := MareClient.lastBoopId client + 1 in
  let sent := MareClient.boop timeoutMs true client in
  MareClient.pendingGet boopId (MareClient.pendingBoops client) = None
  /\ In (MareClient.Send (PROTO_BOOP_REQUEST ++ toString36 boopId)) (snd sent)
  /\ exists callbacks,
       MareClient.pendingBoops (fst sent)
       = (MareClient.pendingBoops client ++ [(boopId, callbacks)])%list.
Proof.
  intros Hgiven. cbv zeta.
  assert (Hnew : MareClient.pendingGet (MareClient.lastBoopId client + 1)
                   (MareClient.pendingBoops client) = None).
  { apply pendingGet_fresh. intros k callbacks Hin.
    specialize (Hgiven k callbacks Hin). lia. }
  split; [exact Hnew|].
  unfold MareClient.boop. cbn [negb].
  destruct (MareClient.normalizeTimeout timeoutMs =? 0); cbn [fst snd In];
    (split; [left; reflexivity|]);
    eexists; cbn [MareClient.pendingBoops MareClient.set_boops];
    apply pendingSet_new, Hnew.
Qed.

(** X17.  A boop, there and back.  The client sends a boop over an open
    socket, the server handles the frame, and the client reads whatever
    the server sends for it, in order.  Then the promise of that boop has
    exactly one outcome: it is resolved when the server admitted the
    boop, and rejected with the very cooldown the server computed when it
    did not; the request is no longer pending, the others still are.  Or
    the server closed the channel with code 1002, and the client's close
    handler rejects the boop with a network error, empties the map and
    does not reconnect. *)
Theorem boop_settled_by_answer (now : Z) (timeoutMs : option Z)
    (focused : bool) (client : MareClient.Client) (conn : Connection) :
  let boopId := MareClient.lastBoopId client + 1 in
  let request := (PROTO_BOOP_REQUEST ++ toString36 boopId)%string in
  let client1 := fst (MareClient.boop timeoutMs true client) in
  let answer := onMessage (StringData request) now conn in
  let remaining := cooldownUntil (session (fst answer)) - now in
  0 <= MareClient.lastBoopId client < MAX_SAFE_INTEGER ->
  pendingBoopsGiven client ->
  remaining <= MAX_SAFE_INTEGER ->
  In (MareClient.Send request) (snd (MareClient.boop timeoutMs true client))
  /\ ((snd answer
       = [OfSession (WsClose TOO_MANY_COOLDOWN_FAILS_ERRCODE
                             TOO_MANY_COOLDOWN_FAILS_ERRMSG)]
       /\ let closed :=
            MareClient.onCloseInner TOO_MANY_COOLDOWN_FAILS_ERRCODE focused
              client1 in
          fst (fst closed) = false
          /\ MareClient.pendingBoops (snd (fst closed)) = []
          /\ outcomesOf MareClient.Boop boopId (snd closed)
             = [MareClient.Reject MareClient.Boop boopId
                  MareClient.MareNetworkError])
      \/ (let delivered := deliver (framesOf (snd answer)) client1 in
          MareClient.pendingBoops (fst delivered)
          = MareClient.pendingBoops client
          /\ outcomesOf MareClient.Boop boopId (snd delivered)
             = [if boopAccepted now (session conn)
                then MareClient.Resolve MareClient.Boop boopId 0
                else MareClient.Reject MareClient.Boop boopId
                       (MareClient.BoopRejectedError boopId remaining)])).
Proof.
  intros boopId request client1 answer remaining Hid Hgiven Hremaining.
  destruct (boop_registers timeoutMs client Hgiven)
    as (Hnew & Hsent & callbacks & Hpending).
  fold boopId in Hnew, Hsent, Hpending. fold client1 in Hpending.
  split; [exact Hsent|].
  assert (Hsafe : 0 <= boopId <= MAX_SAFE_INTEGER) by (unfold boopId; lia).
  (* the server reads the request *)
  assert (Hanswer : answer = ofSession (onBoop now boopId (session conn)) conn).
  { destruct (toString36_safe boopId Hsafe) as (Hmatch & Hparse & _).
    unfold answer, request, onMessage.
    change (PROTO_BOOP_REQUEST ++ toString36 boopId)%string
      with (String "b" (toString36 boopId)).
    cbn [String.eqb Ascii.eqb Bool.eqb PROTO_HEARTBEAT].
    cbn [sliceAfter PROTO_BOOP_REQUEST Ascii.eqb Bool.eqb].
    rewrite Hmatch, Hparse. reflexivity. }
  assert (Hsession : session (fst answer)
                     = fst (onBoop now boopId (session conn)))
    by (rewrite Hanswer; reflexivity).
  assert (Heffects : snd answer
                     = map OfSession (snd (onBoop now boopId (session conn))))
    by (rewrite Hanswer; reflexivity).
  unfold remaining in *. rewrite Hsession in *. rewrite Heffects.
  clear Hanswer Hsession Heffects answer remaining.
  (* what the client does with a reject frame for this boop *)
  assert (Hreject : forall left,
             0 <= left <= MAX_SAFE_INTEGER ->
             let delivered :=
               deliver
                 [(PROTO_BOOP_REJECT ++ toString36 boopId ++ "," ++
                   toString36 left)%string] client1 in
             MareClient.pendingBoops (fst delivered)
             = MareClient.pendingBoops client
             /\ outcomesOf MareClient.Boop boopId (snd delivered)
                = [MareClient.Reject MareClient.Boop boopId
                     (MareClient.BoopRejectedError boopId left)]).
  { intros left Hleft. cbv zeta. rewrite deliver_cons. cbn [deliver fst snd].
    rewrite app_nil_r.
    rewrite (client_reads_boop_reject boopId left client1 Hsafe Hleft).
    rewrite Hpending, (pendingGet_new _ _ _ Hnew).
    cbn [fst snd MareClient.pendingBoops MareClient.set_boops].
    rewrite (pendingDelete_new _ _ _ Hnew). split; [reflexivity|].
    apply outcomesOf_settle. cbn. rewrite Z.eqb_refl. reflexivity. }
  pose proof (proj2 (boopAccepted_reply now boopId (session conn))) as Hreply.
  assert (Hnot : ~ In (WsSend (PROTO_BOOP_REPLY ++ toString36 boopId))
                      (snd (onBoop now boopId (session conn))) ->
                 boopAccepted now (session conn) = false).
  { intros Hnone. destruct (boopAccepted now (session conn)) eqn:Hacc;
      [|reflexivity].
    exfalso. apply Hnone, boopAccepted_reply, Hacc. }
  destruct (onBoop_cases now boopId (session conn))
    as [[[Hset Hlt] Hcase]|[Hidle Hcase]].
  - (* an active cooldown *)
    destruct (CD_FAIL_LIMIT <=? cooldownFails (session conn)).
    + (* the channel is closed *)
      left. rewrite Hcase. split; [reflexivity|].
      cbv zeta. unfold MareClient.onCloseInner.
      cbn [Z.eqb TOO_MANY_COOLDOWN_FAILS_ERRCODE Pos.eqb fst snd
           MareClient.pendingBoops].
      split; [reflexivity|]. split; [reflexivity|].
      rewrite !outcomesOf_app, Hpending.
      rewrite (outcomesOf_rejectAll_new _ _ _ Hnew).
      rewrite outcomesOf_rejectAll_kind.
      destruct (MareClient.heartbeatInterval client1),
        (MareClient.backoffTimeout client1); reflexivity.
    + (* a reject frame *)
      right. rewrite Hcase in *. cbn [fst snd map cooldownUntil
                                       set_cooldownFails] in *.
      rewrite Hnot by (cbn [In]; intros [Hframe|[]]; discriminate).
      unfold framesOf. cbn [flat_map app]. unfold rejectFrame.
      apply Hreject. lia.
  - rewrite Hcase in *. clear Hcase.
    pose proof (onBoopFresh_cases now boopId
                  (set_cooldownUntil 0 (session conn))) as Hfresh.
    cbv zeta in Hfresh.
    destruct Hfresh
      as [[Hnonzero Hcase]
         |(Hgo & (syncEffects & Hcase & Hquiet) & _)].
    + (* a reject frame with the cooldown just computed *)
      right. rewrite Hcase in *.
      cbn [fst snd map cooldownUntil set_cooldownUntil] in *.
      rewrite Hnot by (cbn [In]; intros [Hframe|[]]; discriminate).
      unfold framesOf. cbn [flat_map app].
      apply Hreject.
      destruct (getCooldown_not_before now
                  (set_cooldownUntil 0 (session conn))); [contradiction|lia].
    + (* admitted: the reply, then perhaps the count *)
      right. cbv zeta.
      assert (Hacc : boopAccepted now (session conn) = true).
      { apply Hreply. rewrite Hcase.
        apply in_or_app. right. left. reflexivity. }
      rewrite Hacc, Hcase, !framesOf_session_app.
      rewrite (framesOf_quiet _ Hquiet). cbn [app].
      change (framesOf
                (map OfSession
                   [WsSend (PROTO_BOOP_REPLY ++ toString36 boopId)]))
        with [(PROTO_BOOP_REPLY ++ toString36 boopId)%string].
      cbn [app]. rewrite deliver_cons.
      rewrite (client_reads_boop_reply boopId client1 Hsafe).
      rewrite Hpending, (pendingGet_new _ _ _ Hnew).
      cbn [fst snd]. rewrite (pendingDelete_new _ _ _ Hnew).
      rewrite outcomesOf_app.
      rewrite outcomesOf_settle by (cbn; rewrite Z.eqb_refl; reflexivity).
      unfold sendBoopCount. destruct (wsOpen _).
      * change (framesOf (map OfSession [WsSend ?frame])) with [frame].
        match goal with
        | |- context [deliver [?frame] ?c] =>
            change (deliver [frame] c)
              with (let '(c1, effects1) :=
                      MareClient.onMessage (StringData frame) c in
                    (c1, (effects1 ++ [])%list))
        end.
        match goal with
        | |- context [MareClient.onMessage
                        (StringData (PROTO_BOOP_COUNT ++ ?payload)) ?c] =>
            destruct (client_count_frame_settles_nothing payload boopId c)
              as [Hsame Hnone];
            destruct (MareClient.onMessage
                        (StringData (PROTO_BOOP_COUNT ++ payload)) c)
              as [c2 effects2]
        end.
        cbn [fst snd] in *. rewrite app_nil_r, Hnone, Hsame.
        split; reflexivity.
      * cbn. split; reflexivity.
Qed.

Lemma boop_settled_by_answer_witness :
  let client :=
    {| MareClient.reconnectOnClose := true;
       MareClient.reconnectImmediately := false;
       MareClient.connectOnFocus := false;
       MareClient.reconnectAttempts := 0;
       MareClient.backoffTimeout := false;
       MareClient.heartbeatInterval := true;
       MareClient.lastBoopId := 0;
       MareClient.pendingBoops := [];
       MareClient.lastCooldownQueryId := 0;
       MareClient.pendingCooldownQueries := [] |} in
  let conn := {| session := freshSession; heartbeatTimeout := true |} in
  0 <= MareClient.lastBoopId client < MAX_SAFE_INTEGER
  /\ pendingBoopsGiven client
  /\ cooldownUntil (session (fst (onMessage (StringData "b1") 5000 conn)))
     - 5000 <= MAX_SAFE_INTEGER
  /\ In (MareClient.Send "b1")
        (snd (MareClient.boop (Some 3000) true client)).
Proof.
  cbv zeta.
  match goal with
  | |- 0 <= MareClient.lastBoopId ?client < _ /\ _ /\
       cooldownUntil (session (fst (onMessage _ _ ?conn))) - _ <= _ /\ _ =>
      assert (Hid : 0 <= MareClient.lastBoopId client < MAX_SAFE_INTEGER)
        by (vm_compute; split; [discriminate|reflexivity]);
      assert (Hgiven : pendingBoopsGiven client) by (intros id callbacks []);
      assert (Hremaining :
                cooldownUntil
                  (session (fst (onMessage (StringData "b1") 5000 conn)))
                - 5000 <= MAX_SAFE_INTEGER)
        by (vm_compute; discriminate);
      split; [exact Hid|]; split; [exact Hgiven|];
      split; [exact Hremaining|];
      exact (proj1 (boop_settled_by_answer 5000 (Some 3000) true client conn
                      Hid Hgiven Hremaining))
  end.
Defined.

(* ================================================================= *)
(** ** The client: close *)

Section CloseFacts.
Import MareClient.

(** Rejecting all pending requests only clears timers and rejects, and
    rejects every pending request. *)
Lemma rejectAll_spec (kind : request) (pending : Pending) :
  (forall e, In e (rejectAll kind pending) ->
             exists id, e = ClearRequestTimeout kind id
                        \/ e = Reject kind id MareNetworkError)
  /\ (forall id callbacks,
         In (id, callbacks) pending ->
         In (Reject kind id MareNetworkError) (rejectAll kind pending)).
Proof.
  unfold rejectAll. split.
  - intros e Hin. apply in_flat_map in Hin as ([id callbacks] & _ & Hin).
    exists id. destruct callbacks; cbn in Hin; intuition auto.
  - intros id callbacks Hin. apply in_flat_map.
    exists (id, callbacks). split; [exact Hin|].
    destruct callbacks; cbn; auto.
Qed.

(** The part of [#onCloseInner] that every close runs neither reconnects
    nor arms the backoff timer. *)
Lemma rejections_spec (c : Client) :
  let rejections :=
    ((if heartbeatInterval c then [ClearHeartbeatInterval] else [])
       ++ rejectAll Boop (pendingBoops c)
       ++ rejectAll CooldownQuery (pendingCooldownQueries c)
       ++ [UnhookWS])%list in
  (forall e, In e rejections ->
             e <> NewWebSocket /\ forall delay, e <> SetBackoffTimeout delay)
  /\ (forall id callbacks,
         In (id, callbacks) (pendingBoops c) ->
         In (Reject Boop id MareNetworkError) rejections)
  /\ (forall id callbacks,
         In (id, callbacks) (pendingCooldownQueries c) ->
         In (Reject CooldownQuery id MareNetworkError) rejections).
Proof.
  cbv zeta.
  destruct (rejectAll_spec Boop (pendingBoops c)) as [Honly_b Hall_b].
  destruct (rejectAll_spec CooldownQuery (pendingCooldownQueries c))
    as [Honly_q Hall_q].
  split; [|split].
  - intros e Hin.
    apply in_app_or in Hin as [Hin|Hin].
    { destruct (heartbeatInterval c); [|destruct Hin].
      destruct Hin as [<-|[]]. split; [|intros delay]; discriminate. }
    apply in_app_or in Hin as [Hin|Hin].
    { destruct (Honly_b e Hin) as [id [->| ->]];
        (split; [|intros delay]; discriminate). }
    apply in_app_or in Hin as [Hin|[<-|[]]].
    { destruct (Honly_q e Hin) as [id [->| ->]];
        (split; [|intros delay]; discriminate). }
    split; [|intros delay]; discriminate.
  - intros id callbacks Hin. apply in_or_app. right. apply in_or_app. left.
    exact (Hall_b id callbacks Hin).
  - intros id callbacks Hin. apply in_or_app. right. apply in_or_app. right.
    apply in_or_app. left. exact (Hall_q id callbacks Hin).
Qed.
End CloseFacts.

(** X18.  What a close does at the client.  Every pending boop and
    cooldown query is rejected with a network error, both maps are
    emptied and the heartbeat interval is dropped.  After the code 1002
    the client never reconnects: no socket is made, no backoff timer is
    armed, and the flags that would reconnect later are all cleared.  A
    backoff timer, when one is armed, waits
    [min(BACKOFF_BASE_MS * 2^reconnectAttempts, BACKOFF_MAX_MS)], which
    lies between the two constants, and counts one more attempt; and
    whenever the handler returns [false] it has neither made a socket nor
    armed a timer. *)
Theorem client_close_rejects_and_backs_off (code : Z) (focused : bool)
    (c : MareClient.Client) :
  0 <= MareClient.reconnectAttempts c ->
  let reconnects := fst (fst (MareClient.onCloseInner code focused c)) in
  let c' := snd (fst (MareClient.onCloseInner code focused c)) in
  let did := snd (MareClient.onCloseInner code focused c) in
  (MareClient.pendingBoops c' = []
   /\ MareClient.pendingCooldownQueries c' = []
   /\ MareClient.heartbeatInterval c' = false)
  /\ (forall id callbacks,
         In (id, callbacks) (MareClient.pendingBoops c) ->
         In (MareClient.Reject MareClient.Boop id MareClient.MareNetworkError)
            did)
  /\ (forall id callbacks,
         In (id, callbacks) (MareClient.pendingCooldownQueries c) ->
         In (MareClient.Reject MareClient.CooldownQuery id
               MareClient.MareNetworkError) did)
  /\ (code = TOO_MANY_COOLDOWN_FAILS_ERRCODE ->
      reconnects = false
      /\ MareClient.reconnectOnClose c' = false
      /\ MareClient.reconnectImmediately c' = false
      /\ MareClient.connectOnFocus c' = false
      /\ MareClient.backoffTimeout c' = false
      /\ MareClient.reconnectAttempts c' = 0)
  /\ (reconnects = false ->
      ~ In MareClient.NewWebSocket did
      /\ forall delay, ~ In (MareClient.SetBackoffTimeout delay) did)
  /\ (forall delay,
         In (MareClient.SetBackoffTimeout delay) did ->
         delay = Z.min (MareClient.BACKOFF_BASE_MS
                        * 2 ^ MareClient.reconnectAttempts c)
                       MareClient.BACKOFF_MAX_MS
         /\ MareClient.BACKOFF_BASE_MS <= delay <= MareClient.BACKOFF_MAX_MS
         /\ MareClient.reconnectAttempts c'
            = MareClient.reconnectAttempts c + 1
         /\ MareClient.backoffTimeout c' = true).
Proof.
  intros Hattempts. cbv zeta.
  destruct (rejections_spec c) as (Hquiet & Hboops & Hqueries).
  cbv zeta in Hquiet, Hboops, Hqueries.
  assert (Htail : forall tail e,
             In e ((if MareClient.heartbeatInterval c
                    then [MareClient.ClearHeartbeatInterval] else [])
                   ++ MareClient.rejectAll MareClient.Boop
                        (MareClient.pendingBoops c)
                   ++ MareClient.rejectAll MareClient.CooldownQuery
                        (MareClient.pendingCooldownQueries c)
                   ++ [MareClient.UnhookWS])%list \/ In e tail ->
             (e = MareClient.NewWebSocket
              \/ exists delay, e = MareClient.SetBackoffTimeout delay) ->
             In e tail).
  { intros tail e [Hin|Hin] Hkind; [|exact Hin].
    exfalso. destruct (Hquiet e Hin) as [Hsocket Htimer].
    destruct Hkind as [->|[delay ->]]; [exact (Hsocket eq_refl)|].
    exact (Htimer delay eq_refl). }
  assert (Hdelay : MareClient.BACKOFF_BASE_MS
                   <= Z.min (MareClient.BACKOFF_BASE_MS
                             * 2 ^ MareClient.reconnectAttempts c)
                            MareClient.BACKOFF_MAX_MS
                   <= MareClient.BACKOFF_MAX_MS).
  { pose proof (Z.pow_pos_nonneg 2 (MareClient.reconnectAttempts c)
                  ltac:(lia) Hattempts).
    unfold MareClient.BACKOFF_BASE_MS, MareClient.BACKOFF_MAX_MS. lia. }
  assert (Hattempt : MareClient.reconnectAttempts c + 1 - 1
                     = MareClient.reconnectAttempts c) by lia.
  unfold MareClient.onCloseInner. rewrite Hattempt.
  destruct (Z.eqb_spec code TOO_MANY_COOLDOWN_FAILS_ERRCODE) as [Hkick|Hcode];
    [|destruct (MareClient.reconnectOnClose c); cbn [negb andb];
      [destruct (MareClient.reconnectImmediately c); cbn [negb andb];
       [|destruct focused; cbn [negb]]|]];
    cbn [fst snd MareClient.pendingBoops MareClient.pendingCooldownQueries
         MareClient.heartbeatInterval MareClient.reconnectOnClose
         MareClient.reconnectImmediately MareClient.connectOnFocus
         MareClient.backoffTimeout MareClient.reconnectAttempts];
    (split; [repeat split|]);
    (split; [intros id callbacks Hin;
             first [exact (Hboops id callbacks Hin)
                   |apply in_or_app; left; exact (Hboops id callbacks Hin)]|]);
    (split; [intros id callbacks Hin;
             first [exact (Hqueries id callbacks Hin)
                   |apply in_or_app; left;
                    exact (Hqueries id callbacks Hin)]|]);
    (split; [intros Hcase; first [contradiction|repeat split]|]);
    (split;
     [intros Hreturn;
      first [discriminate Hreturn|split; [intros Hin|intros delay Hin]]
     |intros delay Hin]);
    try (exfalso; destruct (Hquiet _ Hin) as [Hsocket Htimer];
         first [exact (Hsocket eq_refl)|exact (Htimer _ eq_refl)]);
    apply in_app_or in Hin;
    try (eapply Htail in Hin; [|eauto];
         destruct (MareClient.backoffTimeout c);
         repeat match goal with
           | H : In _ _ |- _ => destruct H
           | H : _ = _ |- _ => discriminate H
           end; fail);
    try (apply (Htail [_]) in Hin; [|eauto];
         destruct Hin as [Hin|[]]; try discriminate Hin;
         injection Hin as <-; repeat split; auto; apply Hdelay).
Qed.

Lemma client_close_rejects_and_backs_off_witness :
  let c := {| MareClient.reconnectOnClose := true;
              MareClient.reconnectImmediately := false;
              MareClient.connectOnFocus := false;
              MareClient.reconnectAttempts := 2;
              MareClient.backoffTimeout := false;
              MareClient.heartbeatInterval := true;
              MareClient.lastBoopId := 5;
              MareClient.pendingBoops := [(4, None); (5, Some 3000)];
              MareClient.lastCooldownQueryId := 0;
              MareClient.pendingCooldownQueries := [] |} in
  0 <= MareClient.reconnectAttempts c
  /\ In (MareClient.SetBackoffTimeout 4000)
        (snd (MareClient.onCloseInner 1006 true c))
  /\ MareClient.BACKOFF_BASE_MS <= 4000 <= MareClient.BACKOFF_MAX_MS.
Proof.
  cbv zeta.
  match goal with
  | |- 0 <= MareClient.reconnectAttempts ?c /\ _ =>
      assert (Hattempts : 0 <= MareClient.reconnectAttempts c)
        by (vm_compute; discriminate);
      assert (Harmed : In (MareClient.SetBackoffTimeout 4000)
                          (snd (MareClient.onCloseInner 1006 true c)))
        by (vm_compute; auto 10);
      split; [exact Hattempts|]; split; [exact Harmed|];
      pose proof (client_close_rejects_and_backs_off 1006 true c Hattempts)
        as Hclose;
      cbv zeta in Hclose;
      destruct Hclose as (_ & _ & _ & _ & _ & Hdelay);
      exact (proj1 (proj2 (Hdelay 4000 Harmed)))
  end.
Defined.

(* ================================================================= *)
(** ** The start of a connection *)

